(** * Cryptobottle smart-contract analyzer: a shallow embedding

    The development follows [smart-contract-analyzer.js] (the analyzer
    class), [save-utils.js] (the JSON checkpoint sink) and the two
    [analyze_hack.js] drivers.  JavaScript strings are [string], objects
    with a fixed shape are records, the [Set] objects are insertion-ordered
    duplicate-free lists or [gset]s, and everything that leaves the process
    (ledger RPC, block explorer, file system, the web3 helper library) is
    an oracle, collected in the records [Web3Utils] and [Collaborators]. *)

From Stdlib Require Import ZArith Ascii String List Lia Bool Permutation Sorted.
From stdpp Require Import base decidable option list sets gmap strings pretty.

Set Default Proof Using "Type".
Set Warnings "-register-all,-clear-no-such-hyp".
Open Scope Z_scope.

(** ** JavaScript string primitives used by the analyzer *)

(** The strings the analyzer slices and measures are hex data and
    addresses: ASCII text, one character per UTF-16 code unit. *)
Module Js.

(** [s.length] *)
Definition length (s : string) : Z := Z.of_nat (String.length s).

(** [s.slice(0, n)] for [n >= 0] *)
Definition slice_to (n : nat) (s : string) : string := String.substring 0 n s.

(** [s.slice(n)] for [n >= 0] *)
Fixpoint slice_from (n : nat) (s : string) : string :=
  match n, s with
  | O, _ => s
  | S n', String _ s' => slice_from n' s'
  | S _, EmptyString => EmptyString
  end.

(** [s.slice(-n)]: the last [n] characters, the whole string when it is
    shorter. *)
Definition slice_last (n : nat) (s : string) : string :=
  slice_from (String.length s - n)%nat s.

(** Truthiness of a string value: only the empty string is falsy. *)
Definition truthy (s : string) : bool := negb (String.eqb s "").

(** [s.includes(sub)] *)
Fixpoint includes (sub s : string) : bool :=
  String.prefix sub s ||
  match s with
  | EmptyString => false
  | String _ s' => includes sub s'
  end.

(** [Array.prototype.includes] on an array of strings *)
Definition array_includes (x : string) (l : list string) : bool :=
  existsb (String.eqb x) l.

(** [Array.prototype.find] *)
Definition find {A} (p : A -> bool) (l : list A) : option A := List.find p l.

(** A Number made from an integer: a double with an integer value, or an
    infinity. *)
Inductive number : Type :=
  | Finite (n : Z)
  | Infinite (negative : bool).

(** The double nearest to the integer [m >= 0]: the 53 leading bits are
    kept, the rest is rounded to nearest, ties to the even significand. *)
Definition round_magnitude (m : Z) : Z :=
  let drop := Z.log2 m - 52 in
  if drop <=? 0 then m
  else
    let q := Z.shiftr m drop in
    let r := Z.land m (Z.ones drop) in
    let half := Z.shiftl 1 (drop - 1) in
    let q' := if r <? half then q
              else if half <? r then q + 1
              else if Z.even q then q else q + 1 in
    Z.shiftl q' drop.

(** [Number(n)] for a [bigint] [n]: the nearest double, an infinity from
    [2^1024] on. *)
Definition Number (n : Z) : number :=
  let m := round_magnitude (Z.abs n) in
  if Z.shiftl 1 1024 <=? m then Infinite (n <? 0)
  else Finite (Z.sgn n * m).

(** [x - 1] on such a Number *)
Definition minus_one (x : number) : number :=
  match x with
  | Finite n => Number (n - 1)
  | Infinite negative => Infinite negative
  end.

End Js.

(** ** JavaScript values that reach the report *)

(** Numbers are integer valued wherever the analyzer builds them
    ([Number(blockNumber)], loop counters), or an infinity ([Number] of a
    [bigint] beyond the doubles); [JBigInt] is the [bigint] primitive,
    [JSet] a [Set] object with its elements in insertion order. *)
Inductive jsval : Type :=
  | JUndefined
  | JNull
  | JBool (b : bool)
  | JNumber (n : Z)
  | JBigInt (n : Z)
  | JString (s : string)
  | JArray (items : list jsval)
  | JObject (fields : list (string * jsval))
  | JSet (elems : list jsval)
  | JInfinity (negative : bool).

(** A Number as a value. *)
Definition js_number (x : Js.number) : jsval :=
  match x with
  | Js.Finite n => JNumber n
  | Js.Infinite negative => JInfinity negative
  end.

(** Exceptions the analyzer can see. *)
Inductive exn : Type :=
  | TypeError (msg : string)
  | RangeError (msg : string)
  | AbiError (msg : string)
  | InvalidAddressError (addr : string)
  | TransportError (msg : string).

(** A computation that either throws or returns. *)
Definition result (A : Type) : Type := exn + A.
Abbreviation Ok := inr (only parsing).
Abbreviation Raise := inl (only parsing).

(** ** Ledger-native records *)

(** An explorer transaction record; [tx_input] is [None] when the field is
    missing from the record. *)
Record transaction : Type := {
  tx_hash : string;
  tx_from : string;
  tx_to : string;
  tx_value : string;
  tx_input : option string;
  tx_timeStamp : string
}.

(** An entry of the type list given to [decodeParameters]: a bare type name
    (['address']) or a [{name, type}] object. *)
Inductive abi_param : Type :=
  | AbiType (type : string)
  | AbiNamed (name type : string).

(** [{method, params}] *)
Record decoded_input : Type := {
  method : string;
  params : list (string * jsval)
}.

(** The object built by [analyzeSingleTransaction]; [decodedInput] is
    [None] when the property was never assigned. *)
Record analysis : Type := {
  an_hash : string;
  an_from : string;
  an_to : string;
  an_value : string;
  an_input : option string;
  an_timestamp : string;
  suspicious : bool;
  reason : list string;
  decodedInput : option decoded_input
}.

(** Field assignments on the analysis object. *)
Definition set_decodedInput (d : decoded_input) (a : analysis) : analysis :=
  {| an_hash := an_hash a; an_from := an_from a; an_to := an_to a;
     an_value := an_value a; an_input := an_input a; an_timestamp := an_timestamp a;
     suspicious := suspicious a; reason := reason a; decodedInput := Some d |}.

Definition set_suspicious (b : bool) (a : analysis) : analysis :=
  {| an_hash := an_hash a; an_from := an_from a; an_to := an_to a;
     an_value := an_value a; an_input := an_input a; an_timestamp := an_timestamp a;
     suspicious := b; reason := reason a; decodedInput := decodedInput a |}.

Definition push_reason (r : string) (a : analysis) : analysis :=
  {| an_hash := an_hash a; an_from := an_from a; an_to := an_to a;
     an_value := an_value a; an_input := an_input a; an_timestamp := an_timestamp a;
     suspicious := suspicious a; reason := reason a ++ [r];
     decodedInput := decodedInput a |}.

(** ** Constants of the constructor *)

Definition ZERO_ADDRESS : string := "0x0000000000000000000000000000000000000000".

Definition UPGRADE_TO : string := "0x3659cfe6".
Definition UPGRADE_TO_AND_CALL : string := "0x4f1ef286".
Definition CHANGE_ADMIN : string := "0x8f283970".
Definition INITIALIZE : string := "0x8129fc1c".

(** [this.FUNCTION_SIGNATURES], in property order. *)
Definition FUNCTION_SIGNATURES : list (string * string) :=
  [ ("UPGRADE_TO", UPGRADE_TO);
    ("UPGRADE_TO_AND_CALL", UPGRADE_TO_AND_CALL);
    ("CHANGE_ADMIN", CHANGE_ADMIN);
    ("INITIALIZE", INITIALIZE) ].

Definition IMPLEMENTATION_SLOT : string :=
  "0x360894a13ba1a3210667c828492db98dca3e2076cc3735a920a3ca505d382bbc".
Definition ADMIN_SLOT : string :=
  "0xb53127684a568b3173ae13b9f8a6016e243e63b6e8ee1178d6a717850b5d6103".

Definition IMPLEMENTATION_CHANGED : string :=
  "0xbc7cd75a20ee27fd9adebab32041f755214dbc6bffa90cc0225b39da2e5c2d3b".
Definition ADMIN_CHANGED : string :=
  "0x7e644d02266064d5d04a8737b839beb5a3f63eb0d7981dbc610fe9027e0569c8".

(** ** The helper library *)

(** Pure helpers of web3 and of the JavaScript runtime that the analyzer
    calls.  [sha3] is [web3.utils.sha3] ([None] is its [null]);
    [keccak256_hex s] is the Keccak-256 digest of the text [s] as
    lower-case hex digits without prefix.  [timestampISO ts] stands for
    [new Date(parseInt(ts) * 1000).toISOString()], which throws a
    [RangeError] on an invalid date. *)
Record Web3Utils : Type := {
  isAddress : string -> bool;
  sha3 : string -> option string;
  keccak256_hex : string -> string;
  decodeParameters : list abi_param -> string -> result (list (string * jsval));
  fromWei : string -> string -> string;
  timestampISO : string -> result string
}.

(** The sources hold two copies of the analyzer class:
    [smart-contract-analyzer.js], which writes no checkpoint, and the copy
    that imports [save-utils.js] and checkpoints after every phase.  They
    differ in [analyzeFromHack], [analyzeSingleTransaction] and
    [isContract]. *)
Inductive edition : Type := Standalone | Checkpointing.

(** ** Transaction classifier *)

(** [isSuspiciousSignature] *)
Definition isSuspiciousSignature (signature : string) : bool :=
  Js.array_includes signature [UPGRADE_TO; UPGRADE_TO_AND_CALL; CHANGE_ADMIN].

(** The [abiMapping] object literal of [getAbiByFunctionName]. *)
Definition abiMapping : list (string * list abi_param) :=
  [ ("UPGRADE_TO", [ AbiNamed "implementation" "address" ]);
    ("UPGRADE_TO_AND_CALL", [ AbiNamed "implementation" "address";
                              AbiNamed "data" "bytes" ]);
    ("CHANGE_ADMIN", [ AbiNamed "newAdmin" "address" ]);
    ("INITIALIZE", []) ].

(** [getAbiByFunctionName]: [None] is the [null] of a name outside the
    mapping (an array, even an empty one, is truthy). *)
Definition getAbiByFunctionName (functionName : string) : option (list abi_param) :=
  snd <$> Js.find (fun e => String.eqb (fst e) functionName) abiMapping.

Definition unknown_input : decoded_input := {| method := "unknown"; params := [] |}.

Section Classifier.

Variable U : Web3Utils.

(** [isValidAddress] *)
Definition isValidAddress (address : string) : bool :=
  isAddress U address && negb (String.eqb address ZERO_ADDRESS).

(** [decodeTransactionInput] *)
Definition decodeTransactionInput (inputData : option string) : decoded_input :=
  match inputData with
  | None => unknown_input
  | Some data =>
    if negb (Js.truthy data) || (Js.length data <? 10) then unknown_input
    else
      let functionSignature := Js.slice_to 10 data in
      match Js.find (fun e => String.eqb (snd e) functionSignature) FUNCTION_SIGNATURES with
      | None => unknown_input
      | Some entry =>
        let functionName := fst entry in
        match getAbiByFunctionName functionName with
        | None => {| method := functionName; params := [] |}
        | Some [] => {| method := functionName; params := [] |}
        | Some paramsAbi =>
          match decodeParameters U paramsAbi (Js.slice_from 10 data) with
          | Ok decodedParams => {| method := functionName; params := decodedParams |}
          | Raise _ => {| method := functionName; params := [] |}
          end
        end
      end
  end.

(** The body shared by both copies of [analyzeSingleTransaction]: the
    statements after the object literal. *)
Definition classify_into (analysis0 : analysis) (tx : transaction) : analysis :=
  match tx_input tx with
  | Some data =>
    if Js.truthy data && (10 <=? Js.length data) then
      let signature := Js.slice_to 10 data in
      let decoded := decodeTransactionInput (tx_input tx) in
      let analysis1 := set_decodedInput decoded analysis0 in
      if isSuspiciousSignature signature
      then push_reason "suspicious_signature" (set_suspicious true analysis1)
      else analysis1
    else analysis0
  | None => analysis0
  end.

(** [analyzeSingleTransaction].  In [smart-contract-analyzer.js] an
    invalid sender or recipient is replaced by a placeholder; the
    checkpointing analyzer copies both as they are. *)
Definition analyzeSingleTransaction (ed : edition) (tx : transaction) : result analysis :=
  match timestampISO U (tx_timeStamp tx) with
  | Raise e => Raise e
  | Ok ts =>
    Ok (classify_into
          {| an_hash := tx_hash tx;
             an_from := match ed with
                        | Standalone =>
                          if isValidAddress (tx_from tx) then tx_from tx
                          else "Adresse invalide"
                        | Checkpointing => tx_from tx
                        end;
             an_to := match ed with
                      | Standalone =>
                        if isValidAddress (tx_to tx) then tx_to tx
                        else "Adresse invalide"
                      | Checkpointing => tx_to tx
                      end;
             an_value := tx_value tx;
             an_input := tx_input tx;
             an_timestamp := ts;
             suspicious := false;
             reason := [];
             decodedInput := None |} tx)
  end.

(** [isSuspiciousCall] on a trace step's input. *)
Definition isSuspiciousCall (input : option string) : bool :=
  match input with
  | None => false
  | Some data =>
    if negb (Js.truthy data) || (Js.length data <? 10) then false
    else isSuspiciousSignature (Js.slice_to 10 data)
  end.

End Classifier.

(** ** Address normalisation *)

Module Hex.

Definition code (c : ascii) : nat := nat_of_ascii c.

Definition is_digit (c : ascii) : bool := (48 <=? code c)%nat && (code c <=? 57)%nat.
Definition is_lower_af (c : ascii) : bool := (97 <=? code c)%nat && (code c <=? 102)%nat.
Definition is_upper_AF (c : ascii) : bool := (65 <=? code c)%nat && (code c <=? 70)%nat.

(** [[0-9a-f]] under the [i] flag *)
Definition is_hex (c : ascii) : bool := is_digit c || is_lower_af c || is_upper_AF c.

Definition is_upper_AZ (c : ascii) : bool := (65 <=? code c)%nat && (code c <=? 90)%nat.
Definition is_lower_az (c : ascii) : bool := (97 <=? code c)%nat && (code c <=? 122)%nat.

(** [toLowerCase] and [toUpperCase] on one ASCII character *)
Definition lower (c : ascii) : ascii :=
  if is_upper_AZ c then ascii_of_nat (code c + 32) else c.
Definition upper (c : ascii) : ascii :=
  if is_lower_az c then ascii_of_nat (code c - 32) else c.

Fixpoint lower_string (s : string) : string :=
  match s with
  | EmptyString => EmptyString
  | String c s' => String (lower c) (lower_string s')
  end.

Fixpoint all_hex (s : string) : bool :=
  match s with
  | EmptyString => true
  | String c s' => is_hex c && all_hex s'
  end.

(** [parseInt(c, 16)]; [None] is [NaN]. *)
Definition value (c : ascii) : option nat :=
  if is_digit c then Some (code c - 48)%nat
  else if is_lower_af c then Some (code c - 87)%nat
  else if is_upper_AF c then Some (code c - 55)%nat
  else None.

(** [s.replace(/^0x/i, '')] *)
Definition strip_0x (s : string) : string :=
  match s with
  | String "0" (String x rest) =>
    if Ascii.eqb x "x" || Ascii.eqb x "X" then rest else s
  | _ => s
  end.

(** [/^(0x)?[0-9a-f]{40}$/i.test(s)] *)
Definition is_address_syntax (s : string) : bool :=
  let body := strip_0x s in
  (String.length body =? 40)%nat && all_hex body.

End Hex.

Section Checksum.

Variable U : Web3Utils.

(** Character [i] of the address goes to upper case when hex digit [i] of
    the digest is 8 or more. *)
Fixpoint checksum_chars (address digest : string) : string :=
  match address with
  | EmptyString => EmptyString
  | String c address' =>
    let big :=
      match digest with
      | String h _ => match Hex.value h with Some v => (7 <? v)%nat | None => false end
      | EmptyString => false
      end in
    String (if big then Hex.upper c else c)
           (checksum_chars address' (Js.slice_from 1 digest))
  end.

(** Modelled from the spec: [web3.utils.toChecksumAddress] belongs to the
    web3 library and is not among the sources.  The spec has addresses
    rendered in a mixed-case checksum form and the State Inspector
    checksum-normalizing the low-order 20 bytes of a word; this is that
    rule (EIP-55) over the digest [keccak256_hex], rejecting what is not
    40 hex digits with an optional [0x]. *)
Definition toChecksumAddress (address : string) : result string :=
  if negb (Hex.is_address_syntax address) then Raise (InvalidAddressError address)
  else
    let lowered := Hex.lower_string (Hex.strip_0x address) in
    Ok ("0x" +:+ checksum_chars lowered (keccak256_hex U lowered)).

(** [normalizeAddress] *)
Definition normalizeAddress (hexData : string) : result string :=
  toChecksumAddress ("0x" +:+ Js.slice_last 40 hexData).

End Checksum.

(** ** The report and the records it aggregates *)

(** The JSON document tree written by [JSON.stringify]. *)
Inductive json : Type :=
  | JsonNull
  | JsonBool (b : bool)
  | JsonNumber (n : Z)
  | JsonString (s : string)
  | JsonArray (items : list json)
  | JsonObject (members : list (string * json)).

(** [{implementation, admin}] *)
Record contract_state : Type := {
  implementation : string;
  admin : string
}.

(** [{blockNumber, implementation}] *)
Record sighting : Type := {
  blockNumber : Z;
  sighting_implementation : string
}.

(** An internal call as the explorer lists it. *)
Record trace_record : Type := {
  tr_from : string;
  tr_to : string;
  tr_value : string;
  tr_input : option string
}.

Record analyzed_trace : Type := {
  at_from : string;
  at_to : string;
  at_value : string;
  at_input : option string;
  at_suspicious : bool;
  at_type : string
}.

(** A receipt log; [log_blockNumber] is the [bigint] the node gives. *)
Record log_record : Type := {
  topics : list string;
  log_data : string;
  log_blockNumber : Z;
  log_transactionHash : string
}.

Inductive decoded_log : Type :=
  | ImplementationChangeLog (newImplementation : string)
      (blockNumber : Js.number) (transactionHash : string)
  | AdminChangeLog (previousAdmin newAdmin : jsval)
      (blockNumber : Js.number) (transactionHash : string)
  | UnknownLog (signature data : string) (topics : list string)
      (blockNumber : Js.number) (transactionHash : string).

(** What [getTransaction] and [getTransactionReceipt] answer: the fields the
    analyzer reads (each numeric one a [bigint]), and all own properties in
    order for the spread. *)
Record ledger_tx : Type := {
  ltx_value : Z;
  ltx_blockNumber : Z;
  ltx_gas : Z;
  ltx_gasPrice : Z;
  ltx_props : list (string * jsval)
}.

Record receipt : Type := {
  rc_blockNumber : Z;
  rc_gasUsed : Z;
  rc_logs : list log_record;
  rc_props : list (string * jsval)
}.

Record hack_details : Type := {
  hd_transaction : list (string * jsval);
  hd_receipt : list (string * jsval);
  hd_logs : list decoded_log;
  hd_traces : list analyzed_trace;
  hd_before : contract_state;
  hd_after : contract_state
}.

Record victim_analysis : Type := {
  isProxy : bool;
  codeHash : option string;
  va_transactions : list analysis
}.

(** [this.report].  [relatedContracts] is the [Set], kept as its elements in
    insertion order; the three last fields are the properties the phases add
    ([None] until then).  The four arrays the analyzer creates and never
    touches ([implementations], [contractCalls], [proxyOperations],
    [stateChanges]) appear only in the serialised form. *)
Record report : Type := {
  hackTransaction : string;
  victimContract : string;
  suspectAddress : string;
  startTime : string;
  suspiciousActions : list analysis;
  relatedContracts : list string;
  hackDetails : option hack_details;
  victimAnalysis : option victim_analysis;
  implementationHistory : option (list sighting)
}.

(** ** Collaborators *)

Record txlist_response : Type := {
  txlist_status : string;
  txlist_result : list transaction
}.

(** [internal_result] is [None] when [data.result] is missing or [null]. *)
Record internal_response : Type := {
  internal_status : string;
  internal_result : option (list trace_record)
}.

(** A request that leaves the process. *)
Inductive call : Type :=
  | GetTransaction (txHash : string)
  | GetTransactionReceipt (txHash : string)
  | GetCode (address : string)
  | GetStorageAt (address slot : string) (block : Z)
  | GetStorageAtInfinity (address slot : string) (negative : bool)
  | GetBlockNumber
  | FetchTxList (address : string)
  | FetchTxListInternal (txHash : string)
  | Mkdir (path : string)
  | WriteFile (filename : string) (data : json)
  | DateNow
  | DateISO.

(** The ledger RPC client, the block explorer, the file system and the
    clock.  Every answer may depend on the moment of the request, given as
    the number of requests made before it; [Raise] is a rejected promise.
    [eth_getStorageAt_infinity] is what [getStorageAt] does when the block
    number it is given is an infinity. *)
Record Collaborators : Type := {
  eth_getTransaction : nat -> string -> result (option ledger_tx);
  eth_getTransactionReceipt : nat -> string -> result (option receipt);
  eth_getCode : nat -> string -> result string;
  eth_getStorageAt : nat -> string -> string -> Z -> result string;
  eth_getStorageAt_infinity : nat -> string -> string -> bool -> result string;
  eth_getBlockNumber : nat -> result Z;
  fetch_txlist : nat -> string -> result txlist_response;
  fetch_txlistinternal : nat -> string -> result internal_response;
  fs_mkdir : nat -> string -> result unit;
  fs_writeFile : nat -> string -> result unit;
  date_now : nat -> Z;
  date_iso : nat -> string
}.

(** ** The analyzer object and the world around it *)

Record World : Type := {
  this_report : option report;
  processedContracts : gset string;
  calls : list call;
  files : gmap string json
}.

(** The state after the constructor. *)
Definition new_analyzer : World :=
  {| this_report := None; processedContracts := ∅; calls := []; files := ∅ |}.

Definition set_report (r : option report) (w : World) : World :=
  {| this_report := r; processedContracts := processedContracts w;
     calls := calls w; files := files w |}.

Definition set_processed (p : gset string) (w : World) : World :=
  {| this_report := this_report w; processedContracts := p;
     calls := calls w; files := files w |}.

Definition log_call (c : call) (w : World) : World :=
  {| this_report := this_report w; processedContracts := processedContracts w;
     calls := calls w ++ [c]; files := files w |}.

Definition set_files (f : gmap string json) (w : World) : World :=
  {| this_report := this_report w; processedContracts := processedContracts w;
     calls := calls w; files := f |}.

(** ** A monad for the analyzer's methods *)

(** A method returns, throws, or is still running when the fuel given to
    its loops is used up; the world it leaves behind is kept in every
    case. *)
Inductive outcome (A : Type) : Type :=
  | Return (a : A)
  | Throw (e : exn)
  | OutOfFuel.
Arguments Return {A} a.
Arguments Throw {A} e.
Arguments OutOfFuel {A}.

Definition M (A : Type) : Type := World -> outcome A * World.

Definition ret {A} (a : A) : M A := fun w => (Return a, w).

Definition bind {A B} (m : M A) (k : A -> M B) : M B :=
  fun w =>
    match m w with
    | (Return a, w') => k a w'
    | (Throw e, w') => (Throw e, w')
    | (OutOfFuel, w') => (OutOfFuel, w')
    end.

Definition throw {A} (e : exn) : M A := fun w => (Throw e, w).

Definition out_of_fuel {A} : M A := fun w => (OutOfFuel, w).

(** [try { m } catch (error) { handler(error) }] *)
Definition try_catch {A} (m : M A) (handler : exn -> M A) : M A :=
  fun w =>
    match m w with
    | (Throw e, w') => handler e w'
    | other => other
    end.

Definition lift {A} (r : result A) : M A :=
  match r with
  | Ok a => ret a
  | Raise e => throw e
  end.

Declare Scope analyzer_scope.
Delimit Scope analyzer_scope with analyzer.
Notation "x <- m ;; k" := (bind m (fun x => k))
  (at level 100, m at next level, right associativity) : analyzer_scope.
Notation "m ;;; k" := (bind m (fun _ => k))
  (at level 100, right associativity) : analyzer_scope.
Open Scope analyzer_scope.

(** Await a collaborator: the request is logged and answered for the
    moment it is made. *)
Definition await {A} (c : call) (answer : nat -> result A) : M A :=
  fun w =>
    (match answer (List.length (calls w)) with
     | Ok a => Return a
     | Raise e => Throw e
     end, log_call c w).

(** Read a clock: logged like a request, never failing. *)
Definition observe {A} (c : call) (answer : nat -> A) : M A :=
  fun w => (Return (answer (List.length (calls w))), log_call c w).

(** [this.report]; reading a property of it throws when it is unset. *)
Definition get_report : M report :=
  fun w =>
    match this_report w with
    | Some r => (Return r, w)
    | None => (Throw (TypeError "Cannot read properties of undefined"), w)
    end.

Definition modify_report (f : report -> report) : M unit :=
  r <- get_report ;; fun w => (Return tt, set_report (Some (f r)) w).

(** Assignments to the report's properties. *)
Definition set_suspiciousActions (l : list analysis) (r : report) : report :=
  {| hackTransaction := hackTransaction r; victimContract := victimContract r;
     suspectAddress := suspectAddress r; startTime := startTime r;
     suspiciousActions := l; relatedContracts := relatedContracts r;
     hackDetails := hackDetails r; victimAnalysis := victimAnalysis r;
     implementationHistory := implementationHistory r |}.

Definition set_relatedContracts (l : list string) (r : report) : report :=
  {| hackTransaction := hackTransaction r; victimContract := victimContract r;
     suspectAddress := suspectAddress r; startTime := startTime r;
     suspiciousActions := suspiciousActions r; relatedContracts := l;
     hackDetails := hackDetails r; victimAnalysis := victimAnalysis r;
     implementationHistory := implementationHistory r |}.

Definition set_hackDetails (d : hack_details) (r : report) : report :=
  {| hackTransaction := hackTransaction r; victimContract := victimContract r;
     suspectAddress := suspectAddress r; startTime := startTime r;
     suspiciousActions := suspiciousActions r; relatedContracts := relatedContracts r;
     hackDetails := Some d; victimAnalysis := victimAnalysis r;
     implementationHistory := implementationHistory r |}.

Definition set_victimAnalysis (v : victim_analysis) (r : report) : report :=
  {| hackTransaction := hackTransaction r; victimContract := victimContract r;
     suspectAddress := suspectAddress r; startTime := startTime r;
     suspiciousActions := suspiciousActions r; relatedContracts := relatedContracts r;
     hackDetails := hackDetails r; victimAnalysis := Some v;
     implementationHistory := implementationHistory r |}.

Definition set_implementationHistory (h : list sighting) (r : report) : report :=
  {| hackTransaction := hackTransaction r; victimContract := victimContract r;
     suspectAddress := suspectAddress r; startTime := startTime r;
     suspiciousActions := suspiciousActions r; relatedContracts := relatedContracts r;
     hackDetails := hackDetails r; victimAnalysis := victimAnalysis r;
     implementationHistory := Some h |}.

(** [Set.prototype.add] on a set kept as its elements in insertion order. *)
Definition set_add (x : string) (s : list string) : list string :=
  if bool_decide (x ∈ s) then s else s ++ [x].

(** Property assignment on an object kept as its own properties in order:
    an existing key keeps its place, a new one goes last. *)
Fixpoint obj_set (k : string) (v : jsval) (o : list (string * jsval)) : list (string * jsval) :=
  match o with
  | [] => [(k, v)]
  | (k', v') :: o' =>
    if String.eqb k' k then (k, v) :: o' else (k', v') :: obj_set k v o'
  end.

(** Property read; a missing property reads [undefined]. *)
Fixpoint obj_get (k : string) (o : list (string * jsval)) : jsval :=
  match o with
  | [] => JUndefined
  | (k', v') :: o' => if String.eqb k' k then v' else obj_get k o'
  end.

(** ** State Inspector and implementation-history sampler *)

Section Inspector.

Variable U : Web3Utils.
Variable C : Collaborators.

Definition getStorageAt (address slot : string) (block : Z) : M string :=
  await (GetStorageAt address slot block)
        (fun now => eth_getStorageAt C now address slot block).

(** [getContractState] *)
Definition getContractState (address : string) (blockNumber : Z) : M contract_state :=
  implementation <- getStorageAt address IMPLEMENTATION_SLOT blockNumber ;;
  admin <- getStorageAt address ADMIN_SLOT blockNumber ;;
  implementation' <- lift (normalizeAddress U implementation) ;;
  admin' <- lift (normalizeAddress U admin) ;;
  ret {| implementation := implementation'; admin := admin' |}.

(** [web3.eth.getStorageAt] with the block number a Number. *)
Definition getStorageAt_at (address slot : string) (block : Js.number) : M string :=
  match block with
  | Js.Finite b => getStorageAt address slot b
  | Js.Infinite negative =>
    await (GetStorageAtInfinity address slot negative)
          (fun now => eth_getStorageAt_infinity C now address slot negative)
  end.

(** [getContractState] with the block number a Number, as
    [analyzeHackTransaction] calls it. *)
Definition getContractState_at (address : string) (blockNumber : Js.number)
  : M contract_state :=
  implementation <- getStorageAt_at address IMPLEMENTATION_SLOT blockNumber ;;
  admin <- getStorageAt_at address ADMIN_SLOT blockNumber ;;
  implementation' <- lift (normalizeAddress U implementation) ;;
  admin' <- lift (normalizeAddress U admin) ;;
  ret {| implementation := implementation'; admin := admin' |}.

(** [getImplementationAt]; [None] is [null]. *)
Definition getImplementationAt (contractAddress : string) (blockNumber : Z)
  : M (option string) :=
  try_catch
    (storageValue <- getStorageAt contractAddress IMPLEMENTATION_SLOT blockNumber ;;
     if Js.truthy storageValue && negb (String.eqb storageValue ZERO_ADDRESS)
     then (a <- lift (normalizeAddress U storageValue) ;; ret (Some a))
     else ret None)
    (fun _ => ret None).

(** The [while] loop of [analyzeImplementationHistory]; one unit of fuel
    per iteration. *)
Fixpoint sample_loop (fuel : nat) (currentBlock latestBlock : Z)
    (implementations : list sighting) : M (list sighting) :=
  if currentBlock <? latestBlock then
    match fuel with
    | O => out_of_fuel
    | S fuel' =>
      r <- get_report ;;
      impl <- getImplementationAt (victimContract r) currentBlock ;;
      let implementations' :=
        match impl with
        | Some i =>
          if Js.truthy i
          then implementations ++
               [ {| blockNumber := currentBlock; sighting_implementation := i |} ]
          else implementations
        | None => implementations
        end in
      sample_loop fuel' (currentBlock + 1000) latestBlock implementations'
    end
  else ret implementations.

(** [analyzeImplementationHistory] *)
Definition analyzeImplementationHistory (fuel : nat) : M unit :=
  latestBlock <- await GetBlockNumber (eth_getBlockNumber C) ;;
  implementations <- sample_loop fuel 0 latestBlock [] ;;
  modify_report (set_implementationHistory implementations).

(** The class of the checkpointing analyzer defines no
    [getImplementationAt]: [this.getImplementationAt(...)] throws once its
    arguments are evaluated. *)
Definition getImplementationAt_missing (contractAddress : string) (blockNumber : Z)
  : M (option string) :=
  throw (TypeError "this.getImplementationAt is not a function").

(** The [while] loop of [analyzeImplementationHistory] in the checkpointing
    analyzer. *)
Fixpoint sample_loop_checkpointing (fuel : nat) (currentBlock latestBlock : Z)
    (implementations : list sighting) : M (list sighting) :=
  if currentBlock <? latestBlock then
    match fuel with
    | O => out_of_fuel
    | S fuel' =>
      r <- get_report ;;
      impl <- getImplementationAt_missing (victimContract r) currentBlock ;;
      let implementations' :=
        match impl with
        | Some i =>
          if Js.truthy i
          then implementations ++
               [ {| blockNumber := currentBlock; sighting_implementation := i |} ]
          else implementations
        | None => implementations
        end in
      sample_loop_checkpointing fuel' (currentBlock + 1000) latestBlock implementations'
    end
  else ret implementations.

(** [analyzeImplementationHistory] of the checkpointing analyzer *)
Definition analyzeImplementationHistory_checkpointing (fuel : nat) : M unit :=
  latestBlock <- await GetBlockNumber (eth_getBlockNumber C) ;;
  implementations <- sample_loop_checkpointing fuel 0 latestBlock [] ;;
  modify_report (set_implementationHistory implementations).

End Inspector.

(** ** Crawler, trace analyzer and the two first phases *)

Section Crawler.

Variable U : Web3Utils.
Variable C : Collaborators.
Variable ed : edition.

(** [isContract]: only [smart-contract-analyzer.js] guards the address. *)
Definition isContract (address : string) : M bool :=
  let ask :=
    code <- await (GetCode address) (fun now => eth_getCode C now address) ;;
    ret (negb (String.eqb code "0x")) in
  match ed with
  | Standalone => if negb (isValidAddress U address) then ret false else ask
  | Checkpointing => ask
  end.

(** [getContractTransactions] *)
Definition getContractTransactions (address : string) : M (list transaction) :=
  if negb (isValidAddress U address) then ret []
  else
    data <- await (FetchTxList address) (fun now => fetch_txlist C now address) ;;
    if negb (String.eqb (txlist_status data) "1") then ret []
    else ret (List.filter
                (fun tx => isValidAddress U (tx_from tx) && isValidAddress U (tx_to tx))
                (txlist_result data)).

Definition processed_has (contract : string) : M bool :=
  fun w => (Return (bool_decide (contract ∈ processedContracts w)), w).

Definition processed_add (contract : string) : M unit :=
  fun w => (Return tt, set_processed ({[contract]} ∪ processedContracts w) w).

Definition push_suspiciousAction (a : analysis) : M unit :=
  modify_report (fun r => set_suspiciousActions (suspiciousActions r ++ [a]) r).

Definition related_add (address : string) : M unit :=
  modify_report (fun r => set_relatedContracts (set_add address (relatedContracts r)) r).

(** The inner [for] of [traceContractCalls], over one address's
    transactions; it returns the grown [contractsToAnalyze]. *)
Fixpoint trace_transactions (transactions : list transaction)
    (contractsToAnalyze : list string) : M (list string) :=
  match transactions with
  | [] => ret contractsToAnalyze
  | tx :: rest =>
    grow <- (if Js.truthy (tx_to tx) && isValidAddress U (tx_to tx)
             then isContract (tx_to tx) else ret false) ;;
    let contractsToAnalyze' :=
      if grow then set_add (tx_to tx) contractsToAnalyze else contractsToAnalyze in
    a <- lift (analyzeSingleTransaction U ed tx) ;;
    (if suspicious a then push_suspiciousAction a else ret tt) ;;;
    trace_transactions rest contractsToAnalyze'
  end.

(** The outer [for ... of contractsToAnalyze]: the iterator is at position
    [position] of a set that grows while it is walked; one unit of fuel
    per element visited. *)
Fixpoint crawl_loop (fuel : nat) (contractsToAnalyze : list string) (position : nat)
    : M unit :=
  match contractsToAnalyze !! position with
  | None => ret tt
  | Some contract =>
    match fuel with
    | O => out_of_fuel
    | S fuel' =>
      if negb (isValidAddress U contract)
      then crawl_loop fuel' contractsToAnalyze (S position)
      else
        seen <- processed_has contract ;;
        if (seen : bool) then crawl_loop fuel' contractsToAnalyze (S position)
        else
          processed_add contract ;;;
          transactions <- getContractTransactions contract ;;
          contractsToAnalyze' <- trace_transactions transactions contractsToAnalyze ;;
          crawl_loop fuel' contractsToAnalyze' (S position)
    end
  end.

(** [traceContractCalls] *)
Definition traceContractCalls (fuel : nat) (startAddress : string) : M unit :=
  crawl_loop fuel [startAddress] 0.

(** [analyzeTraces] *)
Fixpoint analyzeTraces_loop (traces : list trace_record)
    (analyzedTraces : list analyzed_trace) : M (list analyzed_trace) :=
  match traces with
  | [] => ret analyzedTraces
  | trace :: rest =>
    isFromContract <- isContract (tr_from trace) ;;
    isToContract <- isContract (tr_to trace) ;;
    (if (isFromContract : bool) then related_add (tr_from trace) else ret tt) ;;;
    (if (isToContract : bool) then related_add (tr_to trace) else ret tt) ;;;
    analyzeTraces_loop rest
      (analyzedTraces ++
       [ {| at_from := tr_from trace;
            at_to := tr_to trace;
            at_value := tr_value trace;
            at_input := tr_input trace;
            at_suspicious := isSuspiciousCall (tr_input trace);
            at_type :=
              if isFromContract
              then (if isToContract then "contract-to-contract" else "contract-to-eoa")
              else (if isToContract then "eoa-to-contract" else "eoa-to-eoa") |} ])
  end.

Definition analyzeTraces (traces : list trace_record) : M (list analyzed_trace) :=
  analyzeTraces_loop traces [].

(** [getTransactionTraces] *)
Definition getTransactionTraces (txHash : string) : M (list analyzed_trace) :=
  data <- await (FetchTxListInternal txHash)
                (fun now => fetch_txlistinternal C now txHash) ;;
  match internal_result data with
  | Some traces =>
    if String.eqb (internal_status data) "1" then analyzeTraces traces else ret []
  | None => ret []
  end.

(** One log of [decodeLogs]; [None] is the [null] filtered out at the
    end. *)
Definition decodeLog (log : log_record) : option decoded_log :=
  match topics log with
  | [] => None
  | signature :: others =>
    if negb (Js.truthy signature) then None
    else if String.eqb signature IMPLEMENTATION_CHANGED then
      Some (ImplementationChangeLog
              ("0x" +:+ match others with
                        | topic1 :: _ => Js.slice_from 26 topic1
                        | [] => "undefined"
                        end)
              (Js.Number (log_blockNumber log)) (log_transactionHash log))
    else if String.eqb signature ADMIN_CHANGED then
      match decodeParameters U [AbiType "address"; AbiType "address"] (log_data log) with
      | Ok decoded =>
        Some (AdminChangeLog (obj_get "0" decoded) (obj_get "1" decoded)
                (Js.Number (log_blockNumber log)) (log_transactionHash log))
      | Raise _ => None
      end
    else
      Some (UnknownLog signature (log_data log) (topics log)
              (Js.Number (log_blockNumber log)) (log_transactionHash log))
  end.

Definition decodeLogs (logs : list log_record) : list decoded_log :=
  omap decodeLog logs.

(** [analyzeHackTransaction] *)
Definition analyzeHackTransaction (txHash : string) : M unit :=
  tx <- await (GetTransaction txHash) (fun now => eth_getTransaction C now txHash) ;;
  receipt <- await (GetTransactionReceipt txHash)
                   (fun now => eth_getTransactionReceipt C now txHash) ;;
  match receipt with
  | None => throw (TypeError "Cannot read properties of null (reading 'logs')")
  | Some rc =>
    let decodedLogs := decodeLogs (rc_logs rc) in
    traces <- getTransactionTraces txHash ;;
    let blockNumber := Js.Number (rc_blockNumber rc) in
    r <- get_report ;;
    stateChangesBefore <-
      getContractState_at U C (victimContract r) (Js.minus_one blockNumber) ;;
    r' <- get_report ;;
    stateChangesAfter <- getContractState_at U C (victimContract r') blockNumber ;;
    match tx with
    | None => throw (TypeError "Cannot read properties of null (reading 'value')")
    | Some t =>
      modify_report (set_hackDetails
        {| hd_transaction :=
             obj_set "gasPrice" (JString (fromWei U (pretty (ltx_gasPrice t)) "gwei"))
               (obj_set "gas" (js_number (Js.Number (ltx_gas t)))
                  (obj_set "blockNumber" (js_number (Js.Number (ltx_blockNumber t)))
                     (obj_set "value" (JString (fromWei U (pretty (ltx_value t)) "ether"))
                        (ltx_props t))));
           hd_receipt :=
             obj_set "gasUsed" (js_number (Js.Number (rc_gasUsed rc)))
               (obj_set "blockNumber" (js_number (Js.Number (rc_blockNumber rc)))
                  (rc_props rc));
           hd_logs := decodedLogs;
           hd_traces := traces;
           hd_before := stateChangesBefore;
           hd_after := stateChangesAfter |})
    end
  end.

(** [isProxyContract] *)
Definition isProxyContract (code : string) : bool :=
  existsb (fun sig => Js.includes sig code) (snd <$> FUNCTION_SIGNATURES).

Fixpoint all_results {A B} (f : A -> result B) (l : list A) : result (list B) :=
  match l with
  | [] => Ok []
  | x :: l' =>
    match f x with
    | Raise e => Raise e
    | Ok y =>
      match all_results f l' with
      | Raise e => Raise e
      | Ok ys => Ok (y :: ys)
      end
    end
  end.

(** [analyzeVictimContract] *)
Definition analyzeVictimContract (contractAddress : string) : M unit :=
  code <- await (GetCode contractAddress)
                (fun now => eth_getCode C now contractAddress) ;;
  let isProxy' := isProxyContract code in
  transactions <- getContractTransactions contractAddress ;;
  analyzedTxs <- lift (all_results (analyzeSingleTransaction U ed) transactions) ;;
  modify_report (set_victimAnalysis
    {| isProxy := isProxy';
       codeHash := sha3 U code;
       va_transactions := List.filter suspicious analyzedTxs |}).

End Crawler.

(** ** The report as a JavaScript value *)

Definition js_string_opt (o : option string) : jsval :=
  match o with
  | Some s => JString s
  | None => JUndefined
  end.

Definition decoded_input_to_js (d : decoded_input) : jsval :=
  JObject [ ("method", JString (method d)); ("params", JObject (params d)) ].

Definition analysis_to_js (a : analysis) : jsval :=
  JObject
    ([ ("hash", JString (an_hash a));
       ("from", JString (an_from a));
       ("to", JString (an_to a));
       ("value", JString (an_value a));
       ("input", js_string_opt (an_input a));
       ("timestamp", JString (an_timestamp a));
       ("suspicious", JBool (suspicious a));
       ("reason", JArray (JString <$> reason a)) ] ++
     match decodedInput a with
     | Some d => [ ("decodedInput", decoded_input_to_js d) ]
     | None => []
     end).

Definition contract_state_to_js (s : contract_state) : jsval :=
  JObject [ ("implementation", JString (implementation s));
            ("admin", JString (admin s)) ].

Definition sighting_to_js (s : sighting) : jsval :=
  JObject [ ("blockNumber", JNumber (blockNumber s));
            ("implementation", JString (sighting_implementation s)) ].

Definition analyzed_trace_to_js (t : analyzed_trace) : jsval :=
  JObject [ ("from", JString (at_from t));
            ("to", JString (at_to t));
            ("value", JString (at_value t));
            ("input", js_string_opt (at_input t));
            ("suspicious", JBool (at_suspicious t));
            ("type", JString (at_type t)) ].

Definition decoded_log_to_js (l : decoded_log) : jsval :=
  match l with
  | ImplementationChangeLog newImplementation blockNumber transactionHash =>
    JObject [ ("type", JString "implementation_change");
              ("newImplementation", JString newImplementation);
              ("blockNumber", js_number blockNumber);
              ("transactionHash", JString transactionHash) ]
  | AdminChangeLog previousAdmin newAdmin blockNumber transactionHash =>
    JObject [ ("type", JString "admin_change");
              ("previousAdmin", previousAdmin);
              ("newAdmin", newAdmin);
              ("blockNumber", js_number blockNumber);
              ("transactionHash", JString transactionHash) ]
  | UnknownLog signature data topics blockNumber transactionHash =>
    JObject [ ("type", JString "unknown");
              ("signature", JString signature);
              ("data", JString data);
              ("topics", JArray (JString <$> topics));
              ("blockNumber", js_number blockNumber);
              ("transactionHash", JString transactionHash) ]
  end.

Definition hack_details_to_js (d : hack_details) : jsval :=
  JObject [ ("transaction", JObject (hd_transaction d));
            ("receipt", JObject (hd_receipt d));
            ("logs", JArray (decoded_log_to_js <$> hd_logs d));
            ("traces", JArray (analyzed_trace_to_js <$> hd_traces d));
            ("stateChanges",
             JObject [ ("before", contract_state_to_js (hd_before d));
                       ("after", contract_state_to_js (hd_after d)) ]) ].

Definition victim_analysis_to_js (v : victim_analysis) : jsval :=
  JObject [ ("isProxy", JBool (isProxy v));
            ("codeHash", match codeHash v with Some h => JString h | None => JNull end);
            ("transactions", JArray (analysis_to_js <$> va_transactions v)) ].

(** The own properties of the report object, in the order the object
    literal of [analyzeFromHack] and the phases create them. *)
Definition report_props (r : report) : list (string * jsval) :=
  [ ("hackTransaction", JString (hackTransaction r));
    ("victimContract", JString (victimContract r));
    ("suspectAddress", JString (suspectAddress r));
    ("startTime", JString (startTime r));
    ("implementations", JArray []);
    ("contractCalls", JArray []);
    ("proxyOperations", JArray []);
    ("suspiciousActions", JArray (analysis_to_js <$> suspiciousActions r));
    ("relatedContracts", JSet (JString <$> relatedContracts r));
    ("stateChanges", JArray []) ] ++
  match hackDetails r with
  | Some d => [ ("hackDetails", hack_details_to_js d) ]
  | None => []
  end ++
  match victimAnalysis r with
  | Some v => [ ("victimAnalysis", victim_analysis_to_js v) ]
  | None => []
  end ++
  match implementationHistory r with
  | Some h => [ ("implementationHistory", JArray (sighting_to_js <$> h)) ]
  | None => []
  end.

Definition report_to_js (r : report) : jsval := JObject (report_props r).

(** ** [JSON.stringify] and [JSON.parse] on document trees *)

Module JSON.

Fixpoint depth (v : jsval) : nat :=
  match v with
  | JArray items => S (list_max (List.map depth items))
  | JObject fields => S (list_max (List.map (fun '(_, x) => depth x) fields))
  | JSet elems => S (list_max (List.map depth elems))
  | _ => O
  end.

(** The elements of an array: an element without a JSON form is written
    [null]. *)
Fixpoint serialize_items (property : string -> jsval -> result (option json))
    (index : nat) (items : list jsval) : result (list json) :=
  match items with
  | [] => Ok []
  | x :: rest =>
    match property (pretty index) x with
    | Raise e => Raise e
    | Ok jx =>
      match serialize_items property (S index) rest with
      | Raise e => Raise e
      | Ok js => Ok (default JsonNull jx :: js)
      end
    end
  end.

(** The properties of an object: a property without a JSON form is left
    out. *)
Fixpoint serialize_fields (property : string -> jsval -> result (option json))
    (fields : list (string * jsval)) : result (list (string * json)) :=
  match fields with
  | [] => Ok []
  | (k, x) :: rest =>
    match property k x with
    | Raise e => Raise e
    | Ok jx =>
      match serialize_fields property rest with
      | Raise e => Raise e
      | Ok js =>
        Ok (match jx with Some j => (k, j) :: js | None => js end)
      end
    end
  end.

(** [SerializeJSONProperty] with a replacer function: the replacer sees
    the value first, then the result is written.  A [bigint] that
    survives the replacer is a [TypeError]; a [Set] has no enumerable
    property of its own and is written as an empty object; a Number that
    is not finite is written [null].  [budget] is the call stack left. *)
Fixpoint serialize_property (budget : nat) (replacer : string -> jsval -> jsval)
    (key : string) (value : jsval) : result (option json) :=
  match budget with
  | O => Raise (RangeError "Maximum call stack size exceeded")
  | S budget' =>
    match replacer key value with
    | JUndefined => Ok None
    | JNull => Ok (Some JsonNull)
    | JBool b => Ok (Some (JsonBool b))
    | JNumber n => Ok (Some (JsonNumber n))
    | JBigInt _ => Raise (TypeError "Do not know how to serialize a BigInt")
    | JString s => Ok (Some (JsonString s))
    | JArray items =>
      match serialize_items (serialize_property budget' replacer) 0 items with
      | Raise e => Raise e
      | Ok js => Ok (Some (JsonArray js))
      end
    | JObject fields =>
      match serialize_fields (serialize_property budget' replacer) fields with
      | Raise e => Raise e
      | Ok ms => Ok (Some (JsonObject ms))
      end
    | JSet _ => Ok (Some (JsonObject []))
    | JInfinity _ => Ok (Some JsonNull)
    end
  end.

(** [JSON.stringify(value, replacer)]; [None] is [undefined].  The stack
    allowed is one frame more than the nesting of [value]. *)
Definition stringify (replacer : string -> jsval -> jsval) (value : jsval)
  : result (option json) :=
  serialize_property (S (depth value)) replacer "" value.

(** [JSON.stringify(value, null)] *)
Definition no_replacer (key : string) (value : jsval) : jsval := value.

(** [JSON.parse] *)
Fixpoint parse (j : json) : jsval :=
  match j with
  | JsonNull => JNull
  | JsonBool b => JBool b
  | JsonNumber n => JNumber n
  | JsonString s => JString s
  | JsonArray items => JArray (List.map parse items)
  | JsonObject members => JObject (List.map (fun '(k, x) => (k, parse x)) members)
  end.

End JSON.

(** ** The checkpoint sink of [save-utils.js] *)

(** The replacer of [saveToJson]: [value.toString()] for a [bigint],
    [Array.from(value)] for a [Set]. *)
Definition saveToJson_replacer (key : string) (value : jsval) : jsval :=
  match value with
  | JBigInt n => JString (pretty n)
  | JSet elems => JArray elems
  | _ => value
  end.

(** [path.join] of Node on POSIX paths. *)
Module Path.

(** The segments of a path, between its slashes. *)
Fixpoint split (path : string) : list string :=
  match path with
  | EmptyString => [EmptyString]
  | String c path' =>
    if Ascii.eqb c "/" then EmptyString :: split path'
    else
      match split path' with
      | segment :: rest => String c segment :: rest
      | [] => [String c EmptyString]
      end
  end.

(** [normalizeString]: an empty segment and [.] are dropped; [..] takes
    away the segment kept last, and is itself kept, in a relative path,
    when there is none to take or the last one is [..] too.  [kept] holds
    the segments kept so far, the last one first. *)
Fixpoint normalize_segments (allowAboveRoot : bool) (segments kept : list string)
  : list string :=
  match segments with
  | [] => rev kept
  | segment :: rest =>
    if String.eqb segment "" || String.eqb segment "." then
      normalize_segments allowAboveRoot rest kept
    else if String.eqb segment ".." then
      match kept with
      | last :: before =>
        if String.eqb last ".." then
          normalize_segments allowAboveRoot rest
            (if allowAboveRoot then ".." :: kept else kept)
        else normalize_segments allowAboveRoot rest before
      | [] =>
        normalize_segments allowAboveRoot rest
          (if allowAboveRoot then [".."] else [])
      end
    else normalize_segments allowAboveRoot rest (segment :: kept)
  end.

Fixpoint ends_with_slash (path : string) : bool :=
  match path with
  | EmptyString => false
  | String c EmptyString => Ascii.eqb c "/"
  | String _ path' => ends_with_slash path'
  end.

(** [path.normalize] *)
Definition normalize (path : string) : string :=
  if String.eqb path "" then "."
  else
    let isAbsolute := String.prefix "/" path in
    let trailingSeparator := ends_with_slash path in
    let body :=
      String.concat "/" (normalize_segments (negb isAbsolute) (split path) []) in
    if String.eqb body "" then
      if isAbsolute then "/" else if trailingSeparator then "./" else "."
    else
      let body' := if trailingSeparator then body +:+ "/" else body in
      if isAbsolute then "/" +:+ body' else body'.

(** [path.join(a, b)] *)
Definition join (a b : string) : string :=
  if String.eqb a "" then (if String.eqb b "" then "." else normalize b)
  else if String.eqb b "" then normalize a
  else normalize (a +:+ "/" +:+ b).

End Path.

(** [path.join('./analysis_data', name)] *)
Definition analysis_data_path (name : string) : string :=
  Path.join "./analysis_data" name.

Section Sink.

Variable C : Collaborators.

(** [fs.writeFile(filename, data)]; [data] is [None] when
    [JSON.stringify] gave [undefined], which [writeFile] refuses. *)
Definition writeFile (filename : string) (data : option json) : M unit :=
  match data with
  | None => throw (TypeError "The data argument must be of type string")
  | Some j =>
    await (WriteFile filename j) (fun now => fs_writeFile C now filename) ;;;
    fun w => (Return tt, set_files (<[filename := j]> (files w)) w)
  end.

(** [saveToJson] *)
Definition saveToJson (prefix : string) (data : jsval) : M unit :=
  try_catch
    (await (Mkdir "./analysis_data") (fun now => fs_mkdir C now "./analysis_data") ;;;
     safeData <- lift (JSON.stringify saveToJson_replacer data) ;;
     now <- observe DateNow (date_now C) ;;
     let filename :=
       analysis_data_path (prefix +:+ "_" +:+ pretty now +:+ ".json") in
     writeFile filename safeData)
    (fun _ => ret tt).

End Sink.

(** ** The pipeline *)

Definition initial_report (hackTxHash victim suspect now : string) : report :=
  {| hackTransaction := hackTxHash;
     victimContract := victim;
     suspectAddress := suspect;
     startTime := now;
     suspiciousActions := [];
     relatedContracts := [];
     hackDetails := None;
     victimAnalysis := None;
     implementationHistory := None |}.

Section Pipeline.

Variable U : Web3Utils.
Variable C : Collaborators.

(** [this.report = {...}] *)
Definition create_report (hackTxHash victim suspect : string) : M unit :=
  now <- observe DateISO (date_iso C) ;;
  fun w => (Return tt, set_report (Some (initial_report hackTxHash victim suspect now)) w).

(** [saveToJson(label, this.report)]; the checkpointing constructor
    leaves [this.report] at [null]. *)
Definition checkpoint (label : string) : M unit :=
  fun w =>
    saveToJson C label
      (match this_report w with Some r => report_to_js r | None => JNull end) w.

(** [analyzeFromHack] of [smart-contract-analyzer.js] *)
Definition analyzeFromHack_standalone (fuel : nat)
    (hackTxHash victim suspect : string) : M report :=
  try_catch
    (create_report hackTxHash victim suspect ;;;
     analyzeHackTransaction U C Standalone hackTxHash ;;;
     analyzeVictimContract U C Standalone victim ;;;
     traceContractCalls U C Standalone fuel suspect ;;;
     analyzeImplementationHistory U C fuel ;;;
     get_report)
    (fun error => throw error).

(** [analyzeFromHack] of the checkpointing analyzer *)
Definition analyzeFromHack_checkpointing (fuel : nat)
    (hackTxHash victim suspect : string) : M report :=
  try_catch
    (create_report hackTxHash victim suspect ;;;
     analyzeHackTransaction U C Checkpointing hackTxHash ;;;
     checkpoint (hackTxHash +:+ "_step1.json") ;;;
     analyzeVictimContract U C Checkpointing victim ;;;
     checkpoint (hackTxHash +:+ "_step2.json") ;;;
     traceContractCalls U C Checkpointing fuel suspect ;;;
     checkpoint (hackTxHash +:+ "_step3.json") ;;;
     analyzeImplementationHistory_checkpointing C fuel ;;;
     checkpoint (hackTxHash +:+ "_final.json") ;;;
     get_report)
    (fun error =>
       checkpoint (hackTxHash +:+ "_error.json") ;;;
       throw error).

Definition analyzeFromHack (ed : edition) : nat -> string -> string -> string -> M report :=
  match ed with
  | Standalone => analyzeFromHack_standalone
  | Checkpointing => analyzeFromHack_checkpointing
  end.

End Pipeline.

(** ** The report documents of the drivers *)

Definition HACK_TX : string :=
  "0xe97e555d9423cf40a7ffe4dcf6a795067f7f133b89efc0f472650528ad8535ca".
Definition VICTIM_CONTRACT : string := "0x8B5Ea07B683953c82901E0f3Ad1dCC66cdD79568".
Definition HACKER_ADDRESS : string := "0x6d24389CEC21cd5437D5c581a40dAe6B336c9E5D".
Definition KNOWN_IMPLEMENTATION : string := "0x4660083D21e3A7e1eC5af8f46A31dCFAa78479Ed".

Definition report_metadata (analyzedAt : string) : jsval :=
  JObject [ ("analyzedAt", JString analyzedAt);
            ("hackTransaction", JString HACK_TX);
            ("victimContract", JString VICTIM_CONTRACT);
            ("hackerAddress", JString HACKER_ADDRESS);
            ("knownImplementation", JString KNOWN_IMPLEMENTATION) ].

(** The replacer of [generateReports]: only [bigint] is rewritten. *)
Definition generateReports_replacer (key : string) (value : jsval) : jsval :=
  match value with
  | JBigInt n => JString (pretty n)
  | _ => value
  end.

(** [reportData] of [generateReports] in the driver with RPC failover:
    [{...analysis, relatedContracts: Array.from(analysis.relatedContracts || [])}]. *)
Definition reportData (analyzedAt : string) (analysis' : report) : jsval :=
  JObject
    [ ("metadata", report_metadata analyzedAt);
      ("analysis",
       JObject (obj_set "relatedContracts"
                  (JArray (JString <$> relatedContracts analysis'))
                  (report_props analysis'))) ].

(** The JSON document that driver writes. *)
Definition generateReports_document (analyzedAt : string) (analysis' : report)
  : result (option json) :=
  JSON.stringify generateReports_replacer (reportData analyzedAt analysis').

(** The JSON document of the single-endpoint driver:
    [JSON.stringify({metadata, analysis}, null, 2)]. *)
Definition generateReports_plain_document (analyzedAt : string) (analysis' : report)
  : result (option json) :=
  JSON.stringify JSON.no_replacer
    (JObject [ ("metadata", report_metadata analyzedAt);
               ("analysis", report_to_js analysis') ]).

(** Reading a property path back from a parsed document. *)
Definition js_field (k : string) (v : jsval) : jsval :=
  match v with
  | JObject fields => obj_get k fields
  | _ => JUndefined
  end.

(** The strings of an array value, when it is an array of strings. *)
Definition js_strings (v : jsval) : option (list string) :=
  match v with
  | JArray items =>
    mapM (fun x => match x with JString s => Some s | _ => None end) items
  | _ => None
  end.

(** ** Notions used in the statements *)

(** A storage word of 32 zero bytes, as [getStorageAt] returns it. *)
Definition ZERO_WORD : string :=
  "0x0000000000000000000000000000000000000000000000000000000000000000".

Fixpoint all_digits (s : string) : bool :=
  match s with
  | EmptyString => true
  | String c s' => Hex.is_digit c && all_digits s'
  end.

(** What [getImplementationAt] returns for an answer of the node. *)
Definition sampled_implementation (U : Web3Utils) (answer : result string)
  : option string :=
  match answer with
  | Raise _ => None
  | Ok storageValue =>
    if Js.truthy storageValue && negb (String.eqb storageValue ZERO_ADDRESS)
    then match normalizeAddress U storageValue with
         | Ok a => Some a
         | Raise _ => None
         end
    else None
  end.

(** The heights [1000 * k], [1000 * (k + 1)], ... ([n] of them). *)
Definition strided_heights (k n : nat) : list Z :=
  (fun i => 1000 * Z.of_nat i) <$> seq k n.

(** What [getContractTransactions] makes of the explorer's answer for a
    valid address. *)
Definition fetched_history (U : Web3Utils) (answer : result txlist_response)
  : outcome (list transaction) :=
  match answer with
  | Raise e => Throw e
  | Ok data =>
    Return (if negb (String.eqb (txlist_status data) "1") then []
            else List.filter
                   (fun tx => isValidAddress U (tx_from tx) && isValidAddress U (tx_to tx))
                   (txlist_result data))
  end.

(** The report's properties up to [relatedContracts], whose value is
    [value], and the properties after it. *)
Definition report_head (r : report) (value : jsval) : list (string * jsval) :=
  [ ("hackTransaction", JString (hackTransaction r));
    ("victimContract", JString (victimContract r));
    ("suspectAddress", JString (suspectAddress r));
    ("startTime", JString (startTime r));
    ("implementations", JArray []);
    ("contractCalls", JArray []);
    ("proxyOperations", JArray []);
    ("suspiciousActions", JArray (analysis_to_js <$> suspiciousActions r));
    ("relatedContracts", value) ].

Definition report_tail (r : report) : list (string * jsval) :=
  ("stateChanges", JArray []) ::
  match hackDetails r with
  | Some d => [ ("hackDetails", hack_details_to_js d) ]
  | None => []
  end ++
  match victimAnalysis r with
  | Some v => [ ("victimAnalysis", victim_analysis_to_js v) ]
  | None => []
  end ++
  match implementationHistory r with
  | Some h => [ ("implementationHistory", JArray (sighting_to_js <$> h)) ]
  | None => []
  end.

(** The members of a parsed object. *)
Definition parse_members (ms : list (string * json)) : list (string * jsval) :=
  List.map (fun '(k, x) => (k, JSON.parse x)) ms.

(** A replacer is tame when it neither deepens a value nor produces a
    [bigint]. *)
Definition tame (replacer : string -> jsval -> jsval) : Prop :=
  forall k v,
    (JSON.depth (replacer k v) <= JSON.depth v)%nat /\
    (forall n, replacer k v <> JBigInt n).

(** The addresses whose transaction list was requested, in order. *)
Definition txlist_requests (l : list call) : list string :=
  omap (fun c => match c with FetchTxList a => Some a | _ => None end) l.

(** A method is quiet when it asks the explorer for no transaction list
    and leaves [processedContracts] alone, however it ends. *)
Definition quiet {A} (m : M A) : Prop :=
  forall w, exists l,
    calls (m w).2 = calls w ++ l /\
    txlist_requests l = [] /\
    processedContracts (m w).2 = processedContracts w.

(** What one run of the crawl loop does to the world [w]: the requests it
    adds, the transaction lists among them asked once each and only for
    valid addresses not processed before, and the growth of
    [processedContracts]. *)
Definition crawl_effect (U : Web3Utils) (w w' : World) : Prop :=
  exists l,
    calls w' = calls w ++ l /\
    NoDup (txlist_requests l) /\
    (forall a, a ∈ txlist_requests l ->
               isValidAddress U a = true /\ a ∉ processedContracts w) /\
    processedContracts w' = processedContracts w ∪ list_to_set (txlist_requests l).

(** The four phases of the checkpointing [analyzeFromHack], each with the
    label of the checkpoint that follows it. *)
Definition pipeline_phases (U : Web3Utils) (C : Collaborators) (fuel : nat)
    (hackTxHash victim suspect : string) : list (M unit * string) :=
  [ (analyzeHackTransaction U C Checkpointing hackTxHash, hackTxHash +:+ "_step1.json");
    (analyzeVictimContract U C Checkpointing victim, hackTxHash +:+ "_step2.json");
    (traceContractCalls U C Checkpointing fuel suspect, hackTxHash +:+ "_step3.json");
    (analyzeImplementationHistory_checkpointing C fuel,
     hackTxHash +:+ "_final.json") ].

(** [phase_throws C phases w e w']: run from [w], one of [phases] throws
    [e] and leaves the world [w'], the phases before it having returned and
    been checkpointed. *)
Inductive phase_throws (C : Collaborators)
  : list (M unit * string) -> World -> exn -> World -> Prop :=
  | throws_now (phase : M unit) (label : string) (rest : list (M unit * string))
      (w : World) (e : exn) (w' : World) :
      phase w = (Throw e, w') ->
      phase_throws C ((phase, label) :: rest) w e w'
  | throws_later (phase : M unit) (label : string) (rest : list (M unit * string))
      (w w1 : World) (e : exn) (w' : World) :
      phase w = (Return tt, w1) ->
      phase_throws C rest (checkpoint C label w1).2 e w' ->
      phase_throws C ((phase, label) :: rest) w e w'.

(** The file [saveToJson] writes for a label when the clock reads [now]. *)
Definition checkpoint_file (label : string) (now : Z) : string :=
  analysis_data_path (label +:+ "_" +:+ pretty now +:+ ".json").

(** A method keeps the report when [this.report], once set, is still set
    after it, however it ends. *)
Definition keeps_report {A} (m : M A) : Prop :=
  forall w, is_Some (this_report w) -> is_Some (this_report (m w).2).

(** ** Concrete collaborators for running the model *)

Module Scenario.

(** A decoder that needs one 32-byte head word (64 hex digits) per
    parameter and gives back only the parameter count. *)
Definition head_decoder (abi : list abi_param) (data : string)
  : result (list (string * jsval)) :=
  if (String.length data <? 64 * List.length abi)%nat
  then Raise (AbiError "insufficient data")
  else Ok [ ("__length__", JNumber (Z.of_nat (List.length abi))) ].

(** Helpers with a syntactic [isAddress], a digest without any digit of
    8 or more, and timestamps passed through. *)
Definition utils : Web3Utils :=
  {| isAddress := Hex.is_address_syntax;
     sha3 := fun _ => None;
     keccak256_hex := fun _ => "";
     decodeParameters := head_decoder;
     fromWei := fun amount _ => amount;
     timestampISO := fun ts => Ok ts |}.

(** A chain of [head] blocks on which every storage slot is empty, no
    account has code, the explorer knows no transaction and the disk
    works. *)
Definition empty_chain (head : Z) : Collaborators :=
  {| eth_getTransaction := fun _ _ => Ok None;
     eth_getTransactionReceipt := fun _ _ => Ok None;
     eth_getCode := fun _ _ => Ok "0x";
     eth_getStorageAt := fun _ _ _ _ => Ok ZERO_WORD;
     eth_getStorageAt_infinity :=
       fun _ _ _ _ => Raise (RangeError "invalid block number");
     eth_getBlockNumber := fun _ => Ok head;
     fetch_txlist := fun _ _ => Ok {| txlist_status := "0"; txlist_result := [] |};
     fetch_txlistinternal :=
       fun _ _ => Ok {| internal_status := "0"; internal_result := None |};
     fs_mkdir := fun _ _ => Ok tt;
     fs_writeFile := fun _ _ => Ok tt;
     date_now := fun _ => 1700000000000;
     date_iso := fun _ => "2023-11-14T22:13:20.000Z" |}.

(** The same chain behind a node that rejects every request. *)
Definition unreachable_node : Collaborators :=
  {| eth_getTransaction := fun _ _ => Raise (TransportError "connection refused");
     eth_getTransactionReceipt := fun _ _ => Raise (TransportError "connection refused");
     eth_getCode := fun _ _ => Raise (TransportError "connection refused");
     eth_getStorageAt := fun _ _ _ _ => Raise (TransportError "connection refused");
     eth_getStorageAt_infinity :=
       fun _ _ _ _ => Raise (TransportError "connection refused");
     eth_getBlockNumber := fun _ => Raise (TransportError "connection refused");
     fetch_txlist := fetch_txlist (empty_chain 0);
     fetch_txlistinternal := fetch_txlistinternal (empty_chain 0);
     fs_mkdir := fs_mkdir (empty_chain 0);
     fs_writeFile := fs_writeFile (empty_chain 0);
     date_now := date_now (empty_chain 0);
     date_iso := date_iso (empty_chain 0) |}.

Definition upgrade_call : transaction :=
  {| tx_hash := "0x01";
     tx_from := HACKER_ADDRESS;
     tx_to := VICTIM_CONTRACT;
     tx_value := "0";
     tx_input := Some "0x3659cfe6";
     tx_timeStamp := "1700000000" |}.

Definition plain_transfer : transaction :=
  {| tx_hash := "0x02";
     tx_from := HACKER_ADDRESS;
     tx_to := VICTIM_CONTRACT;
     tx_value := "1";
     tx_input := Some "0x";
     tx_timeStamp := "1700000000" |}.

(** The analyzer after [this.report = {...}] of a run on the constants of
    the drivers. *)
Definition started : World :=
  set_report
    (Some (initial_report HACK_TX VICTIM_CONTRACT HACKER_ADDRESS
             "2023-11-14T22:13:20.000Z"))
    new_analyzer.

End Scenario.

(** ** The failover of the driver *)

(** [new SmartContractAnalyzer(...)]: a fresh analyzer object in the same
    outside world (requests made and files written stay). *)
Definition construct_analyzer : M unit :=
  fun w =>
    (Return tt,
     {| this_report := None; processedContracts := ∅;
        calls := calls w; files := files w |}).

(** [tryWithDifferentRPC].  [nodes] are the collaborators as reached
    through each entry of [RPC_NODES]; [analysisFunction] gets the analyzer
    built on one of them.  [None] is the [undefined] of a loop that ends
    without returning. *)
Fixpoint tryWithDifferentRPC {A} (analysisFunction : Collaborators -> M A)
    (nodes : list Collaborators) : M (option A) :=
  match nodes with
  | [] => ret None
  | node :: rest =>
    try_catch
      (construct_analyzer ;;;
       a <- analysisFunction node ;;
       ret (Some a))
      (fun error =>
         match rest with
         | [] => throw error
         | _ :: _ => tryWithDifferentRPC analysisFunction rest
         end)
  end.

(** The call of [main]:
    [tryWithDifferentRPC(analyzer => analyzer.analyzeFromHack(...))]. *)
Definition main_analysis (U : Web3Utils) (ed : edition) (fuel : nat)
    (nodes : list Collaborators) : M (option report) :=
  tryWithDifferentRPC
    (fun node => analyzeFromHack U node ed fuel HACK_TX VICTIM_CONTRACT HACKER_ADDRESS)
    nodes.

(** ** More notions used in the statements *)

(** The requests to the file system among [l]. *)
Definition fs_requests (l : list call) : list call :=
  List.filter
    (fun c => match c with Mkdir _ | WriteFile _ _ => true | _ => false end) l.

(** The requests that go to the ledger node or to the explorer. *)
Definition is_network (c : call) : bool :=
  match c with
  | GetTransaction _ | GetTransactionReceipt _ | GetCode _ | GetStorageAt _ _ _
  | GetStorageAtInfinity _ _ _
  | GetBlockNumber | FetchTxList _ | FetchTxListInternal _ => true
  | Mkdir _ | WriteFile _ _ | DateNow | DateISO => false
  end.

(** A method respects a relation between the world before and the world
    after when the relation holds however the method ends. *)
Definition respects (R : World -> World -> Prop) {A} (m : M A) : Prop :=
  forall w, R w (m w).2.

(** A crawl footprint is a relation on worlds that every state change of
    the crawl stays within: a request to the network, a new processed
    address, a suspicious analysis appended to the report. *)
Class CrawlFootprint (U : Web3Utils) (R : World -> World -> Prop) : Prop := {
  fp_refl : forall w, R w w;
  fp_trans : forall w1 w2 w3, R w1 w2 -> R w2 w3 -> R w1 w3;
  fp_network : forall c w, is_network c = true -> R w (log_call c w);
  fp_processed :
    forall c w, R w (set_processed ({[c]} ∪ processedContracts w) w);
  fp_suspicious :
    forall ed tx a w r,
      this_report w = Some r ->
      analyzeSingleTransaction U ed tx = Ok a ->
      suspicious a = true ->
      R w (set_report (Some (set_suspiciousActions (suspiciousActions r ++ [a]) r)) w)
}.

(** A footprint also admits the assignments the other phases make to the
    report. *)
Class Footprint (U : Web3Utils) (R : World -> World -> Prop) : Prop := {
  fp_crawl :: CrawlFootprint U R;
  fp_related :
    forall x w r,
      this_report w = Some r ->
      R w (set_report (Some (set_relatedContracts (set_add x (relatedContracts r)) r)) w);
  fp_hackDetails :
    forall d w r,
      this_report w = Some r -> R w (set_report (Some (set_hackDetails d r)) w);
  fp_victimAnalysis :
    forall v w r,
      this_report w = Some r -> R w (set_report (Some (set_victimAnalysis v r)) w);
  fp_history :
    forall h w r,
      this_report w = Some r ->
      R w (set_report (Some (set_implementationHistory h r)) w)
}.

(** The footprint of the crawl on the report: suspicious analyses are
    appended to [suspiciousActions], nothing else changes. *)
Definition crawl_rel (w w' : World) : Prop :=
  forall r, this_report w = Some r ->
    exists added,
      this_report w' = Some (set_suspiciousActions (suspiciousActions r ++ added) r) /\
      Forall (fun a => suspicious a = true /\ reason a = ["suspicious_signature"]) added.

(** The footprint of an offline method: requests are added, none of them
    to the file system, and the files stay. *)
Definition offline_rel (w w' : World) : Prop :=
  exists l,
    calls w' = calls w ++ l /\
    fs_requests l = [] /\
    files w' = files w.

(** How a report may change during a run: its identity stays, both
    collections only grow at the end, what is added to
    [suspiciousActions] is marked suspicious for its signature, and
    [relatedContracts] stays free of duplicates. *)
Definition report_evolves (r r' : report) : Prop :=
  hackTransaction r' = hackTransaction r /\
  victimContract r' = victimContract r /\
  suspectAddress r' = suspectAddress r /\
  startTime r' = startTime r /\
  (exists added,
     suspiciousActions r' = suspiciousActions r ++ added /\
     Forall (fun a => suspicious a = true /\ reason a = ["suspicious_signature"]) added) /\
  (exists more, relatedContracts r' = relatedContracts r ++ more) /\
  (NoDup (relatedContracts r) -> NoDup (relatedContracts r')).

Definition evolves_rel (w w' : World) : Prop :=
  forall r, this_report w = Some r ->
            exists r', this_report w' = Some r' /\ report_evolves r r'.

(** A method that returns a report returns the one the analyzer holds. *)
Definition returns_held_report (m : M report) : Prop :=
  forall w r, (m w).1 = Return r -> this_report (m w).2 = Some r.

(** What an analysed step has to do with the trace it comes from. *)
Definition analyses (trace : trace_record) (step : analyzed_trace) : Prop :=
  at_from step = tr_from trace /\
  at_to step = tr_to trace /\
  at_value step = tr_value trace /\
  at_input step = tr_input trace /\
  at_suspicious step = isSuspiciousCall (tr_input trace) /\
  at_type step ∈ ["contract-to-contract"; "contract-to-eoa";
                  "eoa-to-contract"; "eoa-to-eoa"].

(** The footprint of the trace analyzer on the report: addresses that
    satisfy [allowed] are added at the end of [relatedContracts], which
    stays free of duplicates; nothing else changes. *)
Definition grows_related (allowed : string -> Prop) (w w' : World) : Prop :=
  forall r, this_report w = Some r ->
    exists more,
      this_report w' = Some (set_relatedContracts (relatedContracts r ++ more) r) /\
      (NoDup (relatedContracts r) -> NoDup (relatedContracts r ++ more)) /\
      Forall allowed more.

(** Whether an address may enter [relatedContracts] while [traces] are
    analysed: it is the sender or the recipient of one of them, and valid
    when the analyzer is the one of [smart-contract-analyzer.js]. *)
Definition party_of (U : Web3Utils) (ed : edition)
    (traces : list trace_record) (x : string) : Prop :=
  (exists trace, trace ∈ traces /\ (x = tr_from trace \/ x = tr_to trace)) /\
  (ed = Standalone -> isValidAddress U x = true).

(** ** An incident to run the model on *)

Module Incident.

Definition OLD_WORD : string :=
  "0x0000000000000000000000004660083d21e3a7e1ec5af8f46a31dcfaa78479ed".
Definition NEW_WORD : string :=
  "0x0000000000000000000000006d24389cec21cd5437d5c581a40dae6b336c9e5d".
Definition ADMIN_WORD : string :=
  "0x0000000000000000000000001111111111111111111111111111111111111111".

Definition BYSTANDER : string := "0x2222222222222222222222222222222222222222".

Definition upgrade_input : string :=
  "0x3659cfe60000000000000000000000006d24389cec21cd5437d5c581a40dae6b336c9e5d".

Definition upgrade_tx : transaction :=
  {| tx_hash := HACK_TX;
     tx_from := HACKER_ADDRESS;
     tx_to := VICTIM_CONTRACT;
     tx_value := "0";
     tx_input := Some upgrade_input;
     tx_timeStamp := "1700000000" |}.

Definition transfer_tx : transaction :=
  {| tx_hash := "0x02";
     tx_from := HACKER_ADDRESS;
     tx_to := BYSTANDER;
     tx_value := "5";
     tx_input := Some "0x";
     tx_timeStamp := "1700000100" |}.

(** A contract creation: the explorer leaves [to] empty. *)
Definition creation_tx : transaction :=
  {| tx_hash := "0x03";
     tx_from := HACKER_ADDRESS;
     tx_to := "";
     tx_value := "0";
     tx_input := Some "0x60806040";
     tx_timeStamp := "1700000200" |}.

Definition upgrade_trace : trace_record :=
  {| tr_from := VICTIM_CONTRACT;
     tr_to := BYSTANDER;
     tr_value := "0";
     tr_input := Some upgrade_input |}.

Definition upgraded_log : log_record :=
  {| topics := [ IMPLEMENTATION_CHANGED; NEW_WORD ];
     log_data := "0x";
     log_blockNumber := 100;
     log_transactionHash := HACK_TX |}.

Definition anonymous_log : log_record :=
  {| topics := [];
     log_data := "0x";
     log_blockNumber := 100;
     log_transactionHash := HACK_TX |}.

Definition hack_tx : ledger_tx :=
  {| ltx_value := 0;
     ltx_blockNumber := 100;
     ltx_gas := 90000;
     ltx_gasPrice := 30000000000;
     ltx_props := [ ("hash", JString HACK_TX);
                    ("value", JBigInt 0);
                    ("blockNumber", JBigInt 100);
                    ("nonce", JBigInt 7) ] |}.

Definition hack_receipt : receipt :=
  {| rc_blockNumber := 100;
     rc_gasUsed := 52000;
     rc_logs := [ upgraded_log; anonymous_log ];
     rc_props := [ ("status", JBigInt 1); ("blockNumber", JBigInt 100) ] |}.

(** A chain of 2500 blocks: the victim is a contract whose implementation
    slot changes at block 100; the hacker sent it one upgrade call, made
    one transfer and one contract creation. *)
Definition chain : Collaborators :=
  {| eth_getTransaction := fun _ _ => Ok (Some hack_tx);
     eth_getTransactionReceipt := fun _ _ => Ok (Some hack_receipt);
     eth_getCode :=
       fun _ address =>
         Ok (if String.eqb address VICTIM_CONTRACT then "0x6080604052" else "0x");
     eth_getStorageAt :=
       fun _ _ slot block =>
         Ok (if String.eqb slot ADMIN_SLOT then ADMIN_WORD
             else if block <? 100 then OLD_WORD else NEW_WORD);
     eth_getStorageAt_infinity :=
       fun _ _ _ _ => Raise (RangeError "invalid block number");
     eth_getBlockNumber := fun _ => Ok 2500;
     fetch_txlist :=
       fun _ address =>
         Ok (if String.eqb address HACKER_ADDRESS
             then {| txlist_status := "1";
                     txlist_result := [ upgrade_tx; transfer_tx; creation_tx ] |}
             else if String.eqb address VICTIM_CONTRACT
             then {| txlist_status := "1"; txlist_result := [ upgrade_tx ] |}
             else {| txlist_status := "0"; txlist_result := [] |});
     fetch_txlistinternal :=
       fun _ _ => Ok {| internal_status := "1";
                        internal_result := Some [ upgrade_trace ] |};
     fs_mkdir := fun _ _ => Ok tt;
     fs_writeFile := fun _ _ => Ok tt;
     date_now := fun _ => 1700000000000;
     date_iso := fun _ => "2023-11-14T22:13:20.000Z" |}.


End Incident.

(** ** More samples and notions *)

(** A sighting as the sampler records it: the implementation is a
    non-empty string, the checksum form of a storage word other than the
    20-byte zero string. *)
Definition recorded (U : Web3Utils) (s : sighting) : Prop :=
  Js.truthy (sighting_implementation s) = true /\
  exists word,
    word <> ZERO_ADDRESS /\
    normalizeAddress U word = Ok (sighting_implementation s).

(** Transaction details as a node of web3 4.x gives them: the nonce is a
    [bigint]. *)
Definition sample_details : hack_details :=
  {| hd_transaction := [ ("hash", JString HACK_TX); ("nonce", JBigInt 7) ];
     hd_receipt := [];
     hd_logs := [];
     hd_traces := [];
     hd_before := {| implementation := ZERO_ADDRESS; admin := ZERO_ADDRESS |};
     hd_after := {| implementation := ZERO_ADDRESS; admin := ZERO_ADDRESS |} |}.

(** The report [Scenario.started] holds. *)
Definition opening_report : report :=
  initial_report HACK_TX VICTIM_CONTRACT HACKER_ADDRESS "2023-11-14T22:13:20.000Z".

(** Helpers whose clock rejects a missing timestamp, as [toISOString] does
    for [new Date(NaN)]. *)
Definition dating_utils : Web3Utils :=
  {| isAddress := isAddress Scenario.utils;
     sha3 := sha3 Scenario.utils;
     keccak256_hex := keccak256_hex Scenario.utils;
     decodeParameters := decodeParameters Scenario.utils;
     fromWei := fromWei Scenario.utils;
     timestampISO :=
       fun ts => if Js.truthy ts then Ok ts else Raise (RangeError "Invalid time value") |}.

(** A record of the explorer without a timestamp. *)
Definition undated_tx : transaction :=
  {| tx_hash := "0x04";
     tx_from := HACKER_ADDRESS;
     tx_to := VICTIM_CONTRACT;
     tx_value := "0";
     tx_input := Some "0x";
     tx_timeStamp := "" |}.

(** The chain of the incident when the explorer lists that record after
    the upgrade call. *)
Definition undated_chain : Collaborators :=
  {| eth_getTransaction := eth_getTransaction Incident.chain;
     eth_getTransactionReceipt := eth_getTransactionReceipt Incident.chain;
     eth_getCode := eth_getCode Incident.chain;
     eth_getStorageAt := eth_getStorageAt Incident.chain;
     eth_getStorageAt_infinity := eth_getStorageAt_infinity Incident.chain;
     eth_getBlockNumber := eth_getBlockNumber Incident.chain;
     fetch_txlist :=
       fun _ _ => Ok {| txlist_status := "1";
                        txlist_result := [ Incident.upgrade_tx; undated_tx ] |};
     fetch_txlistinternal := fetch_txlistinternal Incident.chain;
     fs_mkdir := fs_mkdir Incident.chain;
     fs_writeFile := fs_writeFile Incident.chain;
     date_now := date_now Incident.chain;
     date_iso := date_iso Incident.chain |}.

(** The victim's address as an explorer writes it, in lower case. *)
Definition VICTIM_LOWER : string := "0x8b5ea07b683953c82901e0f3ad1dcc66cdd79568".

(** A transfer the explorer lists with that spelling of the recipient. *)
Definition respelled_tx : transaction :=
  {| tx_hash := "0x05";
     tx_from := HACKER_ADDRESS;
     tx_to := VICTIM_LOWER;
     tx_value := "1";
     tx_input := Some "0x";
     tx_timeStamp := "1700000300" |}.

(** The chain of the incident when the explorer lists that transfer in the
    history of the victim, asked for in checksum case, and nothing for any
    other spelling. *)
Definition respelling_chain : Collaborators :=
  {| eth_getTransaction := eth_getTransaction Incident.chain;
     eth_getTransactionReceipt := eth_getTransactionReceipt Incident.chain;
     eth_getCode := fun _ _ => Ok "0x6080604052";
     eth_getStorageAt := eth_getStorageAt Incident.chain;
     eth_getStorageAt_infinity := eth_getStorageAt_infinity Incident.chain;
     eth_getBlockNumber := eth_getBlockNumber Incident.chain;
     fetch_txlist :=
       fun _ address =>
         Ok (if String.eqb address VICTIM_CONTRACT
             then {| txlist_status := "1"; txlist_result := [ respelled_tx ] |}
             else {| txlist_status := "0"; txlist_result := [] |});
     fetch_txlistinternal := fetch_txlistinternal Incident.chain;
     fs_mkdir := fs_mkdir Incident.chain;
     fs_writeFile := fs_writeFile Incident.chain;
     date_now := date_now Incident.chain;
     date_iso := date_iso Incident.chain |}.

(** * Properties *)

(** ** Strings *)

Lemma array_includes_elem_of (x : string) (l : list string) :
  Js.array_includes x l = true <-> x ∈ l.
Proof.
  unfold Js.array_includes. rewrite existsb_exists. split.
  - intros (y & Hy & Heq). apply String.eqb_eq in Heq. subst y.
    by apply list_elem_of_In.
  - intros Hin. exists x. split; [by apply list_elem_of_In | apply String.eqb_refl].
Qed.

Lemma long_input_truthy (data : string) :
  10 <= Js.length data -> Js.truthy data = true.
Proof. destruct data; [unfold Js.length; simpl; lia | reflexivity]. Qed.

(** ** Classifier *)

Section ClassifierFacts.

Variable U : Web3Utils.

Lemma isSuspiciousSignature_spec (signature : string) :
  isSuspiciousSignature signature = true <->
  signature ∈ [UPGRADE_TO; UPGRADE_TO_AND_CALL; CHANGE_ADMIN].
Proof. apply array_includes_elem_of. Qed.

Lemma classify_into_long (a0 : analysis) (tx : transaction) (data : string) :
  tx_input tx = Some data -> 10 <= Js.length data ->
  classify_into U a0 tx =
    let a1 := set_decodedInput (decodeTransactionInput U (Some data)) a0 in
    if isSuspiciousSignature (Js.slice_to 10 data)
    then push_reason "suspicious_signature" (set_suspicious true a1)
    else a1.
Proof.
  intros Hin Hlen. unfold classify_into. rewrite Hin.
  rewrite long_input_truthy by done.
  assert ((10 <=? Js.length data) = true) as -> by lia. reflexivity.
Qed.

Lemma classify_into_short (a0 : analysis) (tx : transaction) :
  (tx_input tx = None \/
   exists data, tx_input tx = Some data /\ Js.length data < 10) ->
  classify_into U a0 tx = a0.
Proof.
  intros [Hnone | (data & Hin & Hlen)]; unfold classify_into.
  - by rewrite Hnone.
  - rewrite Hin. assert ((10 <=? Js.length data) = false) as -> by lia.
    by rewrite andb_false_r.
Qed.

Lemma decode_unknown_selector (data : string) :
  10 <= Js.length data ->
  Js.slice_to 10 data ∉ (snd <$> FUNCTION_SIGNATURES) ->
  decodeTransactionInput U (Some data) = unknown_input.
Proof.
  intros Hlen Hnot. unfold decodeTransactionInput.
  rewrite long_input_truthy by done.
  assert ((Js.length data <? 10) = false) as -> by lia. cbn [negb orb].
  unfold Js.find.
  match goal with
  | |- context [List.find ?p ?l] => destruct (List.find p l) as [entry|] eqn:Hfind
  end; [|reflexivity].
  apply find_some in Hfind as [Hin Heq].
  apply String.eqb_eq in Heq. exfalso. apply Hnot. rewrite <- Heq.
  apply list_elem_of_fmap. exists entry. split; [done | by apply list_elem_of_In].
Qed.

Lemma decode_known_selector (data name : string) :
  10 <= Js.length data ->
  (name, Js.slice_to 10 data) ∈ FUNCTION_SIGNATURES ->
  exists abi,
    getAbiByFunctionName name = Some abi /\
    decodeTransactionInput U (Some data) =
      match abi with
      | [] => {| method := name; params := [] |}
      | _ =>
        match decodeParameters U abi (Js.slice_from 10 data) with
        | Ok decoded => {| method := name; params := decoded |}
        | Raise _ => {| method := name; params := [] |}
        end
      end.
Proof.
  intros Hlen Hin. unfold decodeTransactionInput.
  rewrite long_input_truthy by done.
  assert ((Js.length data <? 10) = false) as -> by lia. cbn [negb orb].
  unfold FUNCTION_SIGNATURES in Hin.
  repeat (apply elem_of_cons in Hin as [Hin | Hin]);
    try (by apply elem_of_nil in Hin);
    injection Hin as -> Hsel; rewrite Hsel; eexists; split; reflexivity.
Qed.

Lemma analyze_returns (ed : edition) (tx : transaction) (ts : string) :
  timestampISO U (tx_timeStamp tx) = Ok ts ->
  exists a0,
    analyzeSingleTransaction U ed tx = Ok (classify_into U a0 tx) /\
    suspicious a0 = false /\ reason a0 = [] /\ decodedInput a0 = None.
Proof.
  intros Hts. unfold analyzeSingleTransaction. rewrite Hts.
  eexists. split; [reflexivity|]. by repeat split.
Qed.

(** C1: when the input holds a selector (ten characters or more with the
    [0x] prefix), the transaction is marked suspicious, with reason
    [["suspicious_signature"]], exactly when the selector is UPGRADE_TO,
    UPGRADE_TO_AND_CALL or CHANGE_ADMIN; INITIALIZE and selectors outside
    the table leave it unmarked with no reason, and a selector outside
    the table decodes to [{method: "unknown", params: {}}]. *)
Theorem suspicious_iff_critical_selector
    (ed : edition) (tx : transaction) (data ts : string) :
  tx_input tx = Some data ->
  10 <= Js.length data ->
  timestampISO U (tx_timeStamp tx) = Ok ts ->
  exists a,
    analyzeSingleTransaction U ed tx = Ok a /\
    (suspicious a = true /\ reason a = ["suspicious_signature"] <->
     Js.slice_to 10 data ∈ [UPGRADE_TO; UPGRADE_TO_AND_CALL; CHANGE_ADMIN]) /\
    (Js.slice_to 10 data ∉ [UPGRADE_TO; UPGRADE_TO_AND_CALL; CHANGE_ADMIN] ->
     suspicious a = false /\ reason a = []) /\
    (Js.slice_to 10 data = INITIALIZE ->
     suspicious a = false /\ reason a = []) /\
    (Js.slice_to 10 data ∉ (snd <$> FUNCTION_SIGNATURES) ->
     suspicious a = false /\ reason a = [] /\
     decodedInput a = Some unknown_input).
Proof.
  intros Hin Hlen Hts.
  destruct (analyze_returns ed tx ts Hts) as (a0 & Hrun & Hs0 & Hr0 & Hd0).
  eexists. split; [exact Hrun|].
  rewrite (classify_into_long a0 tx data Hin Hlen). cbv zeta.
  pose proof (isSuspiciousSignature_spec (Js.slice_to 10 data)) as Hspec.
  destruct (isSuspiciousSignature (Js.slice_to 10 data)) eqn:Hsus.
  - assert (Js.slice_to 10 data ∈ [UPGRADE_TO; UPGRADE_TO_AND_CALL; CHANGE_ADMIN])
      as Hmem by (by apply Hspec).
    assert (Js.slice_to 10 data ∈ (snd <$> FUNCTION_SIGNATURES)) as Htable.
    { unfold FUNCTION_SIGNATURES. cbn [fmap list_fmap snd]. set_solver. }
    cbn [suspicious reason push_reason set_suspicious set_decodedInput decodedInput].
    rewrite Hr0. split; [|split; [|split]].
    + by split.
    + by intros Hnot.
    + intros Heq. rewrite Heq in Hmem. exfalso.
      repeat (apply elem_of_cons in Hmem as [Hmem | Hmem]; [discriminate|]).
      by apply elem_of_nil in Hmem.
    + by intros Hnot.
  - assert (Js.slice_to 10 data ∉ [UPGRADE_TO; UPGRADE_TO_AND_CALL; CHANGE_ADMIN])
      as Hnot by (intros Hmem; apply Hspec in Hmem; discriminate).
    cbn [suspicious reason set_decodedInput decodedInput].
    rewrite Hs0, Hr0. split; [|split; [|split]].
    + split; [by intros [? _] | done].
    + done.
    + done.
    + intros Hunk. by rewrite (decode_unknown_selector data Hlen Hunk).
Qed.

(** C10: when the input is missing or shorter than a selector (fewer than
    ten characters with the [0x] prefix), the analysis has
    [suspicious = false], [reason = []] and no [decodedInput] property at
    all, in both copies of the analyzer. *)
Theorem short_input_has_no_decodedInput
    (ed : edition) (tx : transaction) (ts : string) :
  (tx_input tx = None \/
   exists data, tx_input tx = Some data /\ Js.length data < 10) ->
  timestampISO U (tx_timeStamp tx) = Ok ts ->
  exists a,
    analyzeSingleTransaction U ed tx = Ok a /\
    suspicious a = false /\ reason a = [] /\ decodedInput a = None /\
    forall props, analysis_to_js a = JObject props ->
                  "decodedInput" ∉ (fst <$> props).
Proof.
  intros Hshort Hts.
  destruct (analyze_returns ed tx ts Hts) as (a0 & Hrun & Hs0 & Hr0 & Hd0).
  exists a0. rewrite (classify_into_short a0 tx Hshort) in Hrun.
  repeat split; try done.
  intros props Hjs. unfold analysis_to_js in Hjs. rewrite Hd0 in Hjs.
  injection Hjs as <-. cbn. set_solver.
Qed.

(** C2, as the code has it: when the selector is in the table under the
    name [name] and decoding the trailing parameters fails, the decoded
    input keeps the method name, [{method: name, params: {}}], and the
    suspicious flag is the one the selector alone determines. *)
Theorem decode_failure_keeps_method
    (ed : edition) (tx : transaction) (data ts name : string) (e : exn) :
  tx_input tx = Some data ->
  10 <= Js.length data ->
  timestampISO U (tx_timeStamp tx) = Ok ts ->
  (name, Js.slice_to 10 data) ∈ FUNCTION_SIGNATURES ->
  (forall abi, getAbiByFunctionName name = Some abi ->
               decodeParameters U abi (Js.slice_from 10 data) = Raise e) ->
  exists a,
    analyzeSingleTransaction U ed tx = Ok a /\
    decodedInput a = Some {| method := name; params := [] |} /\
    suspicious a = isSuspiciousSignature (Js.slice_to 10 data).
Proof.
  intros Hin Hlen Hts Hknown Hfail.
  destruct (analyze_returns ed tx ts Hts) as (a0 & Hrun & Hs0 & Hr0 & Hd0).
  eexists. split; [exact Hrun|].
  rewrite (classify_into_long a0 tx data Hin Hlen). cbv zeta.
  destruct (decode_known_selector data name Hlen Hknown) as (abi & Habi & Hdec).
  rewrite Hdec, (Hfail abi Habi).
  destruct (isSuspiciousSignature (Js.slice_to 10 data));
    cbn [suspicious reason push_reason set_suspicious set_decodedInput decodedInput];
    split; try done; by destruct abi.
Qed.

End ClassifierFacts.

Lemma suspicious_iff_critical_selector_witness :
  tx_input Scenario.upgrade_call = Some "0x3659cfe6" /\
  10 <= Js.length "0x3659cfe6" /\
  timestampISO Scenario.utils (tx_timeStamp Scenario.upgrade_call) = Ok "1700000000" /\
  exists a,
    analyzeSingleTransaction Scenario.utils Standalone Scenario.upgrade_call = Ok a /\
    suspicious a = true /\ reason a = ["suspicious_signature"].
Proof.
  assert (10 <= Js.length "0x3659cfe6") as Hlen by (vm_compute; discriminate).
  repeat split; try done.
  destruct (suspicious_iff_critical_selector Scenario.utils Standalone
              Scenario.upgrade_call "0x3659cfe6" "1700000000"
              eq_refl Hlen eq_refl) as (a & Hrun & Hiff & _).
  exists a. split; [exact Hrun|]. apply Hiff.
  apply elem_of_cons. left. reflexivity.
Defined.

Lemma short_input_has_no_decodedInput_witness :
  (tx_input Scenario.plain_transfer = None \/
   exists data, tx_input Scenario.plain_transfer = Some data /\ Js.length data < 10) /\
  timestampISO Scenario.utils (tx_timeStamp Scenario.plain_transfer) = Ok "1700000000" /\
  exists a,
    analyzeSingleTransaction Scenario.utils Checkpointing Scenario.plain_transfer = Ok a /\
    suspicious a = false /\ reason a = [] /\ decodedInput a = None.
Proof.
  assert (tx_input Scenario.plain_transfer = None \/
          exists data, tx_input Scenario.plain_transfer = Some data /\
                       Js.length data < 10) as Hshort.
  { right. exists "0x". split; [reflexivity | reflexivity]. }
  split; [exact Hshort|]. split; [reflexivity|].
  destruct (short_input_has_no_decodedInput Scenario.utils Checkpointing
              Scenario.plain_transfer "1700000000" Hshort eq_refl)
    as (a & Hrun & Hs & Hr & Hd & _).
  exists a. by repeat split.
Defined.

Lemma decode_failure_keeps_method_witness :
  tx_input Scenario.upgrade_call = Some "0x3659cfe6" /\
  10 <= Js.length "0x3659cfe6" /\
  ("UPGRADE_TO", Js.slice_to 10 "0x3659cfe6") ∈ FUNCTION_SIGNATURES /\
  (forall abi, getAbiByFunctionName "UPGRADE_TO" = Some abi ->
     decodeParameters Scenario.utils abi (Js.slice_from 10 "0x3659cfe6")
     = Raise (AbiError "insufficient data")) /\
  exists a,
    analyzeSingleTransaction Scenario.utils Standalone Scenario.upgrade_call = Ok a /\
    decodedInput a = Some {| method := "UPGRADE_TO"; params := [] |} /\
    suspicious a = true.
Proof.
  assert (10 <= Js.length "0x3659cfe6") as Hlen by (vm_compute; discriminate).
  assert (("UPGRADE_TO", Js.slice_to 10 "0x3659cfe6") ∈ FUNCTION_SIGNATURES) as Hknown.
  { apply elem_of_cons. left. reflexivity. }
  assert (forall abi, getAbiByFunctionName "UPGRADE_TO" = Some abi ->
     decodeParameters Scenario.utils abi (Js.slice_from 10 "0x3659cfe6")
     = Raise (AbiError "insufficient data")) as Hfail.
  { intros abi Habi. injection Habi as <-. reflexivity. }
  repeat split; try done.
  destruct (decode_failure_keeps_method Scenario.utils Standalone
              Scenario.upgrade_call "0x3659cfe6" "1700000000" "UPGRADE_TO"
              (AbiError "insufficient data") eq_refl Hlen eq_refl Hknown Hfail)
    as (a & Hrun & Hdec & Hsus).
  exists a. by repeat split.
Defined.

(** C2 as the spec words it fails: the selector of [upgrade_call] is in the
    table, decoding its (empty) parameters fails, and the decoded input is
    not [{method: "unknown", params: {}}]. *)
Lemma decode_failure_is_not_unknown :
  ~ (forall (U : Web3Utils) (ed : edition) (tx : transaction)
            (data ts name : string) (e : exn),
       tx_input tx = Some data ->
       10 <= Js.length data ->
       timestampISO U (tx_timeStamp tx) = Ok ts ->
       (name, Js.slice_to 10 data) ∈ FUNCTION_SIGNATURES ->
       (forall abi, getAbiByFunctionName name = Some abi ->
                    decodeParameters U abi (Js.slice_from 10 data) = Raise e) ->
       exists a,
         analyzeSingleTransaction U ed tx = Ok a /\
         decodedInput a = Some unknown_input /\
         suspicious a = isSuspiciousSignature (Js.slice_to 10 data)).
Proof.
  intros Hclaim.
  assert (10 <= Js.length "0x3659cfe6") as Hlen by (vm_compute; discriminate).
  destruct (Hclaim Scenario.utils Standalone Scenario.upgrade_call
              "0x3659cfe6" "1700000000" "UPGRADE_TO"
              (AbiError "insufficient data") eq_refl Hlen eq_refl)
    as (a & Hrun & Hdec & _).
  - apply elem_of_cons. left. reflexivity.
  - intros abi Habi. injection Habi as <-. reflexivity.
  - vm_compute in Hrun. injection Hrun as <-. discriminate Hdec.
Qed.

(** ** The monad *)

Lemma bind_return {A B} (m : M A) (k : A -> M B) (w w' : World) (a : A) :
  m w = (Return a, w') -> bind m k w = k a w'.
Proof. intros H. unfold bind. by rewrite H. Qed.

Lemma bind_throw {A B} (m : M A) (k : A -> M B) (w w' : World) (e : exn) :
  m w = (Throw e, w') -> bind m k w = (Throw e, w').
Proof. intros H. unfold bind. by rewrite H. Qed.

Lemma bind_out_of_fuel {A B} (m : M A) (k : A -> M B) (w w' : World) :
  m w = (OutOfFuel, w') -> bind m k w = (OutOfFuel, w').
Proof. intros H. unfold bind. by rewrite H. Qed.

Lemma bind_assoc {A B D} (m : M A) (k : A -> M B) (k' : B -> M D) (w : World) :
  bind (bind m k) k' w = bind m (fun x => bind (k x) k') w.
Proof. unfold bind. by destruct (m w) as [[a|e|] w']. Qed.

Lemma try_catch_return {A} (m : M A) (h : exn -> M A) (w w' : World) (a : A) :
  m w = (Return a, w') -> try_catch m h w = (Return a, w').
Proof. intros H. unfold try_catch. by rewrite H. Qed.

Lemma try_catch_throw {A} (m : M A) (h : exn -> M A) (w w' : World) (e : exn) :
  m w = (Throw e, w') -> try_catch m h w = h e w'.
Proof. intros H. unfold try_catch. by rewrite H. Qed.

Lemma await_ok {A} (c : call) (answer : nat -> result A) (w : World) (a : A) :
  answer (List.length (calls w)) = Ok a ->
  await c answer w = (Return a, log_call c w).
Proof. intros H. unfold await. by rewrite H. Qed.

Lemma await_raise {A} (c : call) (answer : nat -> result A) (w : World) (e : exn) :
  answer (List.length (calls w)) = Raise e ->
  await c answer w = (Throw e, log_call c w).
Proof. intros H. unfold await. by rewrite H. Qed.

Lemma run_return {A} (m : M A) (w : World) (a : A) :
  (m w).1 = Return a -> m w = (Return a, (m w).2).
Proof. destruct (m w) as [o w']. by intros [= ->]. Qed.

Lemma run_throw {A} (m : M A) (w : World) (e : exn) :
  (m w).1 = Throw e -> m w = (Throw e, (m w).2).
Proof. destruct (m w) as [o w']. by intros [= ->]. Qed.

Lemma get_report_set (w : World) (r : report) :
  this_report w = Some r -> get_report w = (Return r, w).
Proof. intros H. unfold get_report. by rewrite H. Qed.

(** ** Address normalisation *)

Lemma upper_digit (c : ascii) : Hex.is_digit c = true -> Hex.upper c = c.
Proof.
  unfold Hex.is_digit, Hex.upper, Hex.is_lower_az. intros H.
  apply andb_true_iff in H as [_ H]. apply Nat.leb_le in H.
  destruct (97 <=? Hex.code c)%nat eqn:E; [|reflexivity].
  apply Nat.leb_le in E. lia.
Qed.

Section ChecksumFacts.

Variable U : Web3Utils.

(** A string of decimal digits has no letter to capitalise, whatever the
    digest. *)
Lemma checksum_chars_digits (address digest : string) :
  all_digits address = true -> checksum_chars address digest = address.
Proof.
  revert digest. induction address as [|c address IH]; intros digest H; [reflexivity|].
  cbn [all_digits] in H. apply andb_true_iff in H as [Hc Hrest].
  cbn [checksum_chars]. rewrite (upper_digit c Hc), (IH _ Hrest).
  by destruct (match digest with "" => false | String h _ => _ end).
Qed.

Lemma normalizeAddress_zero_word :
  normalizeAddress U ZERO_WORD = Ok ZERO_ADDRESS.
Proof.
  unfold normalizeAddress, toChecksumAddress.
  assert (Hlow : ("0x" +:+ Js.slice_last 40 ZERO_WORD) = ZERO_ADDRESS)
    by reflexivity.
  rewrite Hlow.
  assert (Hsyn : Hex.is_address_syntax ZERO_ADDRESS = true) by reflexivity.
  rewrite Hsyn. cbn [negb].
  rewrite checksum_chars_digits by reflexivity. reflexivity.
Qed.

End ChecksumFacts.

(** ** State Inspector *)

Section InspectorFacts.

Variable U : Web3Utils.
Variable C : Collaborators.

Lemma getStorageAt_ok (address slot : string) (block : Z) (w : World) (v : string) :
  eth_getStorageAt C (List.length (calls w)) address slot block = Ok v ->
  getStorageAt C address slot block w =
    (Return v, log_call (GetStorageAt address slot block) w).
Proof. intros H. unfold getStorageAt. by apply await_ok. Qed.

Lemma getStorageAt_raise (address slot : string) (block : Z) (w : World) (e : exn) :
  eth_getStorageAt C (List.length (calls w)) address slot block = Raise e ->
  getStorageAt C address slot block w =
    (Throw e, log_call (GetStorageAt address slot block) w).
Proof. intros H. unfold getStorageAt. by apply await_raise. Qed.

(** C6: a storage word of 32 zero bytes is normalised to the all-zero
    address, whatever the digest; and [getContractState] returns (it does
    not throw) the normalised words of both slots, so a slot that reads 32
    zero bytes comes back as the all-zero address in the state. *)
Theorem zero_word_is_zero_address
    (address : string) (block : Z) (w : World) (implWord adminWord i a : string) :
  eth_getStorageAt C (List.length (calls w)) address IMPLEMENTATION_SLOT block
    = Ok implWord ->
  eth_getStorageAt C (S (List.length (calls w))) address ADMIN_SLOT block
    = Ok adminWord ->
  normalizeAddress U implWord = Ok i ->
  normalizeAddress U adminWord = Ok a ->
  normalizeAddress U ZERO_WORD = Ok ZERO_ADDRESS /\
  (getContractState U C address block w).1
    = Return {| implementation := i; admin := a |} /\
  (implWord = ZERO_WORD -> i = ZERO_ADDRESS) /\
  (adminWord = ZERO_WORD -> a = ZERO_ADDRESS).
Proof.
  intros Himpl Hadmin Hi Ha. split; [apply normalizeAddress_zero_word|].
  split; [|split].
  - unfold getContractState.
    rewrite (bind_return _ _ _ _ _ (getStorageAt_ok _ _ _ _ _ Himpl)).
    assert (List.length (calls (log_call (GetStorageAt address IMPLEMENTATION_SLOT block) w))
            = S (List.length (calls w))) as Hclock.
    { cbn [calls log_call]. rewrite length_app. cbn. lia. }
    rewrite <- Hclock in Hadmin.
    rewrite (bind_return _ _ _ _ _ (getStorageAt_ok _ _ _ _ _ Hadmin)).
    rewrite Hi, Ha. reflexivity.
  - intros ->. rewrite normalizeAddress_zero_word in Hi. by injection Hi.
  - intros ->. rewrite normalizeAddress_zero_word in Ha. by injection Ha.
Qed.

End InspectorFacts.

Lemma zero_word_is_zero_address_witness :
  eth_getStorageAt (Scenario.empty_chain 2500) (List.length (calls Scenario.started))
    VICTIM_CONTRACT IMPLEMENTATION_SLOT 7 = Ok ZERO_WORD /\
  eth_getStorageAt (Scenario.empty_chain 2500) (S (List.length (calls Scenario.started)))
    VICTIM_CONTRACT ADMIN_SLOT 7 = Ok ZERO_WORD /\
  normalizeAddress Scenario.utils ZERO_WORD = Ok ZERO_ADDRESS /\
  (getContractState Scenario.utils (Scenario.empty_chain 2500)
     VICTIM_CONTRACT 7 Scenario.started).1
    = Return {| implementation := ZERO_ADDRESS; admin := ZERO_ADDRESS |}.
Proof.
  split; [reflexivity|]. split; [reflexivity|].
  destruct (zero_word_is_zero_address Scenario.utils (Scenario.empty_chain 2500)
              VICTIM_CONTRACT 7 Scenario.started ZERO_WORD ZERO_WORD
              ZERO_ADDRESS ZERO_ADDRESS eq_refl eq_refl eq_refl eq_refl)
    as (Hzero & Hstate & _).
  by split.
Defined.

(** ** Implementation-history sampler *)

Section SamplerFacts.

Variable U : Web3Utils.
Variable C : Collaborators.

(** One sample: the read is logged, a failure of the read or of the
    normalisation is caught, the analyzer itself is left as it was. *)
Lemma getImplementationAt_run (contractAddress : string) (block : Z) (w : World) :
  getImplementationAt U C contractAddress block w =
    (Return (sampled_implementation U
               (eth_getStorageAt C (List.length (calls w))
                  contractAddress IMPLEMENTATION_SLOT block)),
     log_call (GetStorageAt contractAddress IMPLEMENTATION_SLOT block) w).
Proof.
  unfold getImplementationAt, try_catch, bind, getStorageAt, await,
    sampled_implementation.
  destruct (eth_getStorageAt C _ _ _ _) as [e|v]; [reflexivity|].
  destruct (Js.truthy v && negb (String.eqb v ZERO_ADDRESS)); [|reflexivity].
  by destruct (normalizeAddress U v).
Qed.

Lemma sample_loop_run (latest : Z) (n : nat) (r : report) :
  latest <= 1000 * Z.of_nat n ->
  (forall i : nat, (i < n)%nat -> 1000 * Z.of_nat i < latest) ->
  forall (fuel k : nat) (impls : list sighting) (w : World),
    (k <= n)%nat -> (n - k <= fuel)%nat ->
    this_report w = Some r ->
    exists impls' w',
      sample_loop U C fuel (1000 * Z.of_nat k) latest impls w = (Return impls', w') /\
      calls w' = calls w ++
        (GetStorageAt (victimContract r) IMPLEMENTATION_SLOT
           <$> strided_heights k (n - k)) /\
      this_report w' = Some r /\
      processedContracts w' = processedContracts w /\
      files w' = files w.
Proof.
  intros Hupper Hbelow.
  induction fuel as [|fuel IH]; intros k impls w Hk Hfuel Hrep.
  - assert (k = n) as -> by lia.
    exists impls, w. cbn [sample_loop].
    assert ((1000 * Z.of_nat n <? latest) = false) as -> by lia.
    rewrite Nat.sub_diag. cbn. rewrite app_nil_r. by repeat split.
  - cbn [sample_loop].
    destruct (1000 * Z.of_nat k <? latest) eqn:Hlt.
    + assert (k < n)%nat as Hkn by lia.
      rewrite (bind_return _ _ _ _ _ (get_report_set w r Hrep)).
      rewrite (bind_return _ _ _ _ _ (getImplementationAt_run _ _ _)).
      replace (1000 * Z.of_nat k + 1000) with (1000 * Z.of_nat (S k)) by lia.
      match goal with
      | |- context [sample_loop U C fuel _ latest ?impls1 ?w1] =>
        destruct (IH (S k) impls1 w1) as (impls' & w' & Hrun & Hcalls & Hrep' & Hproc & Hfiles);
          [lia | lia | exact Hrep |]
      end.
      exists impls', w'. split; [exact Hrun|].
      split; [|by repeat split].
      rewrite Hcalls. cbn [calls log_call].
      replace (n - k)%nat with (S (n - S k)) by lia.
      unfold strided_heights. cbn [seq fmap list_fmap].
      rewrite <- app_assoc. reflexivity.
    + assert (k = n) as ->.
      { destruct (decide (k < n)%nat) as [Hkn|]; [|lia].
        specialize (Hbelow k Hkn). lia. }
      exists impls, w. rewrite Nat.sub_diag. cbn. rewrite app_nil_r.
      by repeat split.
Qed.

(** C5: the latest block number is read once, at the start; the samples
    are then taken at 0, 1000, 2000, ... for as long as the height is
    below that number, the tip being no sample itself; over a chain of
    2500 blocks the heights read are exactly 0, 1000 and 2000. *)
Theorem sampler_reads_strided_heights
    (fuel n : nat) (latest : Z) (w : World) (r : report) :
  this_report w = Some r ->
  eth_getBlockNumber C (List.length (calls w)) = Ok latest ->
  latest <= 1000 * Z.of_nat n ->
  (forall i : nat, (i < n)%nat -> 1000 * Z.of_nat i < latest) ->
  (n <= fuel)%nat ->
  exists w',
    analyzeImplementationHistory U C fuel w = (Return tt, w') /\
    calls w' = calls w ++
      GetBlockNumber ::
      (GetStorageAt (victimContract r) IMPLEMENTATION_SLOT <$> strided_heights 0 n) /\
    (latest = 2500 -> strided_heights 0 n = [0; 1000; 2000]).
Proof.
  intros Hrep Hhead Hupper Hbelow Hfuel.
  unfold analyzeImplementationHistory.
  rewrite (bind_return _ _ _ _ _ (await_ok _ _ _ _ Hhead)).
  destruct (sample_loop_run latest n r Hupper Hbelow fuel 0 []
              (log_call GetBlockNumber w))
    as (impls & w1 & Hrun & Hcalls & Hrep1 & _ & _); [lia | lia | exact Hrep |].
  change 0 with (1000 * Z.of_nat 0) at 1.
  rewrite (bind_return _ _ _ _ _ Hrun).
  unfold modify_report.
  rewrite (bind_return _ _ _ _ _ (get_report_set w1 r Hrep1)).
  eexists. split; [reflexivity|]. split.
  - cbn [calls set_report]. rewrite Hcalls. cbn [calls log_call].
    rewrite Nat.sub_0_r, <- app_assoc. reflexivity.
  - intros ->.
    assert (n = 3%nat) as ->.
    { destruct (decide (n < 3)%nat); [lia|].
      destruct (decide (3 < n)%nat) as [H3|]; [|lia].
      specialize (Hbelow 3%nat H3). lia. }
    reflexivity.
Qed.

End SamplerFacts.

Lemma sampler_reads_strided_heights_witness :
  this_report Scenario.started
    = Some (initial_report HACK_TX VICTIM_CONTRACT HACKER_ADDRESS
              "2023-11-14T22:13:20.000Z") /\
  eth_getBlockNumber (Scenario.empty_chain 2500) (List.length (calls Scenario.started))
    = Ok 2500 /\
  2500 <= 1000 * Z.of_nat 3 /\
  (forall i : nat, (i < 3)%nat -> 1000 * Z.of_nat i < 2500) /\
  (3 <= 5)%nat /\
  exists w',
    analyzeImplementationHistory Scenario.utils (Scenario.empty_chain 2500) 5
      Scenario.started = (Return tt, w') /\
    calls w' =
      [ GetBlockNumber;
        GetStorageAt VICTIM_CONTRACT IMPLEMENTATION_SLOT 0;
        GetStorageAt VICTIM_CONTRACT IMPLEMENTATION_SLOT 1000;
        GetStorageAt VICTIM_CONTRACT IMPLEMENTATION_SLOT 2000 ].
Proof.
  assert (2500 <= 1000 * Z.of_nat 3) as Hupper by (vm_compute; discriminate).
  assert (forall i : nat, (i < 3)%nat -> 1000 * Z.of_nat i < 2500) as Hbelow
    by (intros i Hi; lia).
  assert (3 <= 5)%nat as Hfuel by lia.
  repeat split; try done.
  destruct (sampler_reads_strided_heights Scenario.utils (Scenario.empty_chain 2500)
              5 3 2500 Scenario.started _ eq_refl eq_refl Hupper Hbelow Hfuel)
    as (w' & Hrun & Hcalls & Hheights).
  exists w'. split; [exact Hrun|]. rewrite Hcalls, (Hheights eq_refl). reflexivity.
Defined.

(** C4, the failing sample: on a chain of one block whose implementation
    slot holds 32 zero bytes, the sampler records a sighting at height 0,
    with the all-zero address as implementation. *)
Theorem zero_slot_is_recorded (U : Web3Utils) :
  implementationHistory <$>
    this_report (snd (analyzeImplementationHistory U (Scenario.empty_chain 1) 1
                        Scenario.started))
  = Some (Some [ {| blockNumber := 0; sighting_implementation := ZERO_ADDRESS |} ]).
Proof.
  unfold analyzeImplementationHistory.
  rewrite (bind_return _ _ (Scenario.started)
             (log_call GetBlockNumber Scenario.started) 1)
    by reflexivity.
  cbn [sample_loop]. change (0 <? 1) with true. cbv iota.
  rewrite bind_assoc.
  rewrite (bind_return _ _ _ _ _
             (get_report_set (log_call GetBlockNumber Scenario.started) _ eq_refl)).
  rewrite bind_assoc.
  rewrite (bind_return _ _ _ _ _ (getImplementationAt_run U _ _ _ _)).
  cbn [eth_getStorageAt Scenario.empty_chain sampled_implementation].
  change (Js.truthy ZERO_WORD && negb (String.eqb ZERO_WORD ZERO_ADDRESS)) with true.
  cbv iota. rewrite normalizeAddress_zero_word.
  change (Js.truthy ZERO_ADDRESS) with true. cbv iota.
  change (0 + 1000 <? 1) with false. cbv iota.
  reflexivity.
Qed.

(** ** Interaction-graph crawler *)

Lemma quiet_ret {A} (a : A) : quiet (ret a).
Proof. intros w. exists []. cbn. by rewrite app_nil_r. Qed.

Lemma quiet_throw {A} (e : exn) : quiet (@throw A e).
Proof. intros w. exists []. cbn. by rewrite app_nil_r. Qed.

Lemma quiet_lift {A} (r : result A) : quiet (lift r).
Proof. destruct r; [apply quiet_throw | apply quiet_ret]. Qed.

Lemma quiet_bind {A B} (m : M A) (k : A -> M B) :
  quiet m -> (forall a, quiet (k a)) -> quiet (bind m k).
Proof.
  intros Hm Hk w. destruct (Hm w) as (l1 & Hc1 & Hr1 & Hp1).
  unfold bind. destruct (m w) as [[a|e|] w1] eqn:Hrun; cbn in *.
  - destruct (Hk a w1) as (l2 & Hc2 & Hr2 & Hp2).
    exists (l1 ++ l2). rewrite Hc2, Hc1, Hp2, Hp1, app_assoc.
    unfold txlist_requests in *. by rewrite omap_app, Hr1, Hr2.
  - by exists l1.
  - by exists l1.
Qed.

Lemma quiet_get_report : quiet get_report.
Proof.
  intros w. exists []. unfold get_report.
  destruct (this_report w); cbn; by rewrite app_nil_r.
Qed.

Lemma quiet_modify_report (f : report -> report) : quiet (modify_report f).
Proof.
  apply quiet_bind; [apply quiet_get_report|].
  intros r w. exists []. cbn. by rewrite app_nil_r.
Qed.

Lemma quiet_await {A} (c : call) (answer : nat -> result A) :
  txlist_requests [c] = [] -> quiet (await c answer).
Proof. intros Hc w. exists [c]. unfold await. by destruct (answer _). Qed.

Section CrawlerFacts.

Variable U : Web3Utils.
Variable C : Collaborators.
Variable ed : edition.

Lemma quiet_isContract (address : string) : quiet (isContract U C ed address).
Proof.
  assert (quiet (code <- await (GetCode address) (fun now => eth_getCode C now address) ;;
                 ret (negb (String.eqb code "0x")))) as Hask.
  { apply quiet_bind; [by apply quiet_await | intros; apply quiet_ret]. }
  unfold isContract. destruct ed; [|exact Hask].
  destruct (negb (isValidAddress U address)); [apply quiet_ret | exact Hask].
Qed.

Lemma quiet_trace_transactions (transactions : list transaction) :
  forall contractsToAnalyze,
    quiet (trace_transactions U C ed transactions contractsToAnalyze).
Proof.
  induction transactions as [|tx rest IH]; intros cta; cbn [trace_transactions].
  - apply quiet_ret.
  - apply quiet_bind.
    { destruct (Js.truthy (tx_to tx) && isValidAddress U (tx_to tx));
        [apply quiet_isContract | apply quiet_ret]. }
    intros grow. apply quiet_bind; [apply quiet_lift|].
    intros a. apply quiet_bind; [|intros; apply IH].
    destruct (suspicious a); [apply quiet_modify_report | apply quiet_ret].
Qed.

(** Fetching the history of a valid address is one request to the
    explorer, whatever comes back. *)
Lemma getContractTransactions_valid (address : string) (w : World) :
  isValidAddress U address = true ->
  getContractTransactions U C address w =
    (fetched_history U (fetch_txlist C (List.length (calls w)) address),
     log_call (FetchTxList address) w).
Proof.
  intros Hvalid. unfold getContractTransactions. rewrite Hvalid. cbn [negb].
  unfold bind, await, fetched_history.
  destruct (fetch_txlist C _ address) as [e|data]; [done|].
  by destruct (negb (String.eqb (txlist_status data) "1")).
Qed.

Lemma crawl_effect_refl (w : World) : crawl_effect U w w.
Proof.
  exists []. rewrite app_nil_r. cbn. repeat split.
  - constructor.
  - set_solver.
  - set_solver.
  - set_solver.
Qed.

Lemma crawl_loop_effect (fuel : nat) :
  forall (contractsToAnalyze : list string) (position : nat) (w : World),
    crawl_effect U w (crawl_loop U C ed fuel contractsToAnalyze position w).2.
Proof.
  induction fuel as [|fuel IH]; intros cta pos w; cbn [crawl_loop].
  - destruct (cta !! pos); apply crawl_effect_refl.
  - destruct (cta !! pos) as [contract|]; [|apply crawl_effect_refl].
    destruct (isValidAddress U contract) eqn:Hvalid; cbn [negb]; [|apply IH].
    unfold bind at 1. unfold processed_has at 1.
    destruct (bool_decide (contract ∈ processedContracts w)) eqn:Hseen; [apply IH|].
    apply bool_decide_eq_false in Hseen.
    unfold bind at 1. unfold processed_add at 1.
    set (w1 := set_processed ({[contract]} ∪ processedContracts w) w).
    unfold bind at 1. rewrite (getContractTransactions_valid contract w1 Hvalid).
    set (w2 := log_call (FetchTxList contract) w1).
    assert (crawl_effect U w w2) as Hw2.
    { exists [FetchTxList contract]. cbn. repeat split.
      - apply NoDup_singleton.
      - apply list_elem_of_singleton in H. by subst a.
      - apply list_elem_of_singleton in H. by subst a.
      - set_solver. }
    destruct (fetched_history U _) as [transactions|e|]; [|exact Hw2|exact Hw2].
    destruct (quiet_trace_transactions transactions cta w2) as (l3 & Hc3 & Hr3 & Hp3).
    unfold bind at 1.
    destruct (trace_transactions U C ed transactions cta w2) as [o3 w3] eqn:Htrace.
    cbn [snd] in Hc3, Hp3.
    assert (crawl_effect U w w3) as Hw3.
    { exists (FetchTxList contract :: l3). rewrite Hc3, Hp3. cbn.
      unfold txlist_requests in Hr3. rewrite Hr3, <- app_assoc. repeat split.
      - apply NoDup_singleton.
      - apply list_elem_of_singleton in H. by subst a.
      - apply list_elem_of_singleton in H. by subst a.
      - set_solver. }
    destruct o3 as [cta'|e|]; [|exact Hw3|exact Hw3].
    specialize (IH cta' (S pos) w3).
    destruct IH as (l4 & Hc4 & Hn4 & Hv4 & Hp4).
    exists (FetchTxList contract :: l3 ++ l4).
    rewrite Hc4, Hc3, Hp4, Hp3. cbn [calls log_call w2 w1 set_processed processedContracts].
    assert (txlist_requests (FetchTxList contract :: l3 ++ l4)
            = contract :: txlist_requests l4) as Hreq.
    { unfold txlist_requests in *. cbn. by rewrite omap_app, Hr3. }
    rewrite Hreq. split; [by rewrite <- !app_assoc|].
    assert (forall a, a ∈ txlist_requests l4 ->
              a ∉ ({[contract]} ∪ processedContracts w : gset string)) as Hfresh.
    { intros a Ha. destruct (Hv4 a Ha) as [_ Hnot]. rewrite Hp3 in Hnot. exact Hnot. }
    split; [|split].
    + apply NoDup_cons. split; [|exact Hn4].
      intros Hin. apply (Hfresh contract Hin). set_solver.
    + intros a Ha. apply elem_of_cons in Ha as [->|Ha]; [done|].
      split; [by apply Hv4|]. specialize (Hfresh a Ha). set_solver.
    + cbn. set_solver.
Qed.

(** C3, as amended: however often an address string has been put into the
    pending set (the loop is started on any list of pending strings, at
    any position), the transaction history of that string is requested at
    most once, only if the Address Validator accepts it and it was not
    processed before, and the processed set grows by exactly the strings
    so requested; so a string that fails the validator is never added to
    the processed set.  Putting a string into the pending set a second
    time leaves the set as it was.  Both sets compare strings: two
    spellings of one address are two entries. *)
Theorem frontier_processes_once
    (fuel : nat) (contractsToAnalyze : list string) (position : nat) (w : World) :
  let w' := (crawl_loop U C ed fuel contractsToAnalyze position w).2 in
  (exists l,
     calls w' = calls w ++ l /\
     NoDup (txlist_requests l) /\
     (forall a, a ∈ txlist_requests l ->
                isValidAddress U a = true /\ a ∉ processedContracts w) /\
     processedContracts w' = processedContracts w ∪ list_to_set (txlist_requests l) /\
     size (processedContracts w')
       = (size (processedContracts w) + List.length (txlist_requests l))%nat) /\
  (forall a, isValidAddress U a = false ->
             a ∈ processedContracts w' -> a ∈ processedContracts w) /\
  (forall a pending, set_add a (set_add a pending) = set_add a pending).
Proof.
  intros w'. destruct (crawl_loop_effect fuel contractsToAnalyze position w)
    as (l & Hc & Hn & Hv & Hp).
  fold w' in Hc, Hp. split; [|split].
  - exists l. repeat split; try done; try (by apply Hv).
    rewrite Hp, size_union, size_list_to_set; [done | done |].
    intros a Ha Hin. apply elem_of_list_to_set in Hin. by apply (Hv a Hin).
  - intros a Hinvalid Hin. rewrite Hp in Hin.
    apply elem_of_union in Hin as [Hin|Hin]; [done|].
    apply elem_of_list_to_set in Hin. destruct (Hv a Hin) as [Hvalid _]. congruence.
  - intros a pending. unfold set_add at 1.
    destruct (bool_decide (a ∈ set_add a pending)) eqn:Hmem; [done|].
    apply bool_decide_eq_false in Hmem. exfalso. apply Hmem. unfold set_add.
    destruct (bool_decide (a ∈ pending)) eqn:Hp'.
    + by apply bool_decide_eq_true in Hp'.
    + set_solver.
Qed.

(** C9: a valid seed whose fetched history is empty: the crawl returns
    with one unit of fuel, after the single request for that history;
    on a fresh analyzer [processedContracts] is the singleton of the
    seed, and the report, [suspiciousActions] included, is left as it
    was (empty). *)
Theorem crawl_of_seed_without_history
    (fuel : nat) (seed : string) (w : World) (r : report) :
  isValidAddress U seed = true ->
  processedContracts w = ∅ ->
  this_report w = Some r ->
  suspiciousActions r = [] ->
  (getContractTransactions U C seed w).1 = Return [] ->
  (1 <= fuel)%nat ->
  exists w',
    traceContractCalls U C ed fuel seed w = (Return tt, w') /\
    processedContracts w' = {[seed]} /\
    (suspiciousActions <$> this_report w') = Some [] /\
    this_report w' = Some r /\
    calls w' = calls w ++ [FetchTxList seed].
Proof.
  intros Hvalid Hfresh Hrep Hsus Hempty Hfuel.
  destruct fuel as [|fuel]; [lia|].
  unfold traceContractCalls. cbn [crawl_loop lookup list_lookup].
  rewrite Hvalid. cbn [negb].
  unfold bind at 1. unfold processed_has at 1.
  rewrite Hfresh.
  case_bool_decide; [set_solver|].
  unfold bind at 1. unfold processed_add at 1.
  set (w1 := set_processed ({[seed]} ∪ processedContracts w) w).
  rewrite (getContractTransactions_valid seed w Hvalid) in Hempty.
  cbn [fst] in Hempty.
  unfold bind at 1. rewrite (getContractTransactions_valid seed w1 Hvalid).
  cbn [calls w1 set_processed]. rewrite Hempty.
  cbn [trace_transactions]. unfold bind at 1, ret at 1.
  destruct fuel; cbn [crawl_loop lookup list_lookup]; unfold ret;
    (eexists; split; [reflexivity|]);
    cbn [processedContracts this_report calls log_call w1 set_processed];
    rewrite Hrep, Hfresh; cbn [fmap option_fmap option_map]; rewrite Hsus;
    repeat split; try done; set_solver.
Qed.

End CrawlerFacts.

Lemma crawl_of_seed_without_history_witness :
  isValidAddress Scenario.utils HACKER_ADDRESS = true /\
  processedContracts Scenario.started = ∅ /\
  (getContractTransactions Scenario.utils (Scenario.empty_chain 2500)
     HACKER_ADDRESS Scenario.started).1 = Return [] /\
  exists w',
    traceContractCalls Scenario.utils (Scenario.empty_chain 2500) Standalone 1
      HACKER_ADDRESS Scenario.started = (Return tt, w') /\
    processedContracts w' = {[HACKER_ADDRESS]} /\
    (suspiciousActions <$> this_report w') = Some [].
Proof.
  split; [reflexivity|]. split; [reflexivity|]. split; [reflexivity|].
  destruct (crawl_of_seed_without_history Scenario.utils (Scenario.empty_chain 2500)
              Standalone 1 HACKER_ADDRESS Scenario.started _
              eq_refl eq_refl eq_refl eq_refl eq_refl (le_n 1))
    as (w' & Hrun & Hproc & Hsus & _).
  exists w'. by repeat split.
Defined.

(** C3, the failing run: the sets hold strings, so one address in two
    spellings is processed twice.  The crawl is seeded with the victim in
    checksum case, the explorer lists a transfer to the same address in
    lower case, the node says it is a contract: both strings pass the
    validator, the history is requested for each, and the processed set
    gains two entries for the one address. *)
Lemma one_address_is_processed_twice :
  Hex.lower_string VICTIM_CONTRACT = Hex.lower_string VICTIM_LOWER /\
  VICTIM_CONTRACT <> VICTIM_LOWER /\
  isValidAddress Scenario.utils VICTIM_CONTRACT = true /\
  isValidAddress Scenario.utils VICTIM_LOWER = true /\
  processedContracts Scenario.started = ∅ /\
  (traceContractCalls Scenario.utils respelling_chain Standalone 5 VICTIM_CONTRACT
     Scenario.started).1 = Return tt /\
  txlist_requests
    (calls (traceContractCalls Scenario.utils respelling_chain Standalone 5
              VICTIM_CONTRACT Scenario.started).2)
    = [VICTIM_CONTRACT; VICTIM_LOWER] /\
  size (processedContracts
          (traceContractCalls Scenario.utils respelling_chain Standalone 5
             VICTIM_CONTRACT Scenario.started).2) = 2%nat.
Proof.
  split; [reflexivity|]. split; [discriminate|]. split; [reflexivity|].
  split; [reflexivity|]. split; [reflexivity|]. split; [reflexivity|].
  split; [reflexivity|]. vm_compute. reflexivity.
Qed.

(** ** Serialisation *)

Lemma list_max_elem (l : list nat) (n : nat) : n ∈ l -> (n <= list_max l)%nat.
Proof.
  induction l as [|m l IH]; intros Hin; [by apply elem_of_nil in Hin|].
  cbn [list_max foldr]. apply elem_of_cons in Hin as [->|Hin]; [lia|].
  specialize (IH Hin). unfold list_max in IH. lia.
Qed.

Lemma depth_item (items : list jsval) (x : jsval) :
  x ∈ items -> (JSON.depth x < JSON.depth (JArray items))%nat.
Proof.
  intros Hin. cbn [JSON.depth].
  assert (JSON.depth x <= list_max (List.map JSON.depth items))%nat; [|lia].
  apply list_max_elem. apply list_elem_of_In, in_map. by apply list_elem_of_In.
Qed.

Lemma depth_field (fields : list (string * jsval)) (k : string) (x : jsval) :
  (k, x) ∈ fields -> (JSON.depth x < JSON.depth (JObject fields))%nat.
Proof.
  intros Hin. cbn [JSON.depth].
  assert (JSON.depth x
          <= list_max (List.map (fun '(_, y) => JSON.depth y) fields))%nat; [|lia].
  apply list_max_elem. apply list_elem_of_In.
  apply (in_map (fun '(_, y) => JSON.depth y) fields (k, x)). by apply list_elem_of_In.
Qed.

Lemma saveToJson_replacer_tame : tame saveToJson_replacer.
Proof. intros k v. by destruct v. Qed.

Lemma generateReports_replacer_tame : tame generateReports_replacer.
Proof. intros k v. by destruct v. Qed.

Lemma serialize_items_total (f : string -> jsval -> result (option json))
    (items : list jsval) :
  (forall k x, x ∈ items -> exists j, f k x = Ok j) ->
  forall i, exists js, JSON.serialize_items f i items = Ok js.
Proof.
  induction items as [|x items IH]; intros Hall i; cbn [JSON.serialize_items].
  - by eexists.
  - destruct (Hall (pretty i) x) as (j & ->); [set_solver|].
    destruct (IH (fun k y Hy => Hall k y ltac:(set_solver)) (S i)) as (js & ->).
    by eexists.
Qed.

Lemma serialize_fields_total (f : string -> jsval -> result (option json))
    (fields : list (string * jsval)) :
  (forall k x, (k, x) ∈ fields -> exists j, f k x = Ok j) ->
  exists ms, JSON.serialize_fields f fields = Ok ms.
Proof.
  induction fields as [|[k x] fields IH]; intros Hall; cbn [JSON.serialize_fields].
  - by eexists.
  - destruct (Hall k x) as (j & ->); [set_solver|].
    destruct IH as (ms & ->); [intros; apply Hall; set_solver|].
    by eexists.
Qed.

(** With a tame replacer and a stack deeper than the value,
    serialisation returns. *)
Lemma serialize_property_total (replacer : string -> jsval -> jsval) :
  tame replacer ->
  forall (budget : nat) (k : string) (v : jsval),
    (JSON.depth v < budget)%nat ->
    exists j, JSON.serialize_property budget replacer k v = Ok j.
Proof.
  intros Htame. induction budget as [|budget IH]; intros k v Hdepth; [lia|].
  cbn [JSON.serialize_property].
  destruct (Htame k v) as [Hle Hnot].
  destruct (replacer k v) as [| |b|n|n|s|items|fields|elems|negative] eqn:Hrep;
    try (by eexists).
  - by destruct (Hnot n).
  - destruct (serialize_items_total (JSON.serialize_property budget replacer) items)
      with (i := 0%nat) as (js & ->); [|by eexists].
    intros k' x Hx. apply IH. pose proof (depth_item items x Hx). lia.
  - destruct (serialize_fields_total (JSON.serialize_property budget replacer) fields)
      as (ms & ->); [|by eexists].
    intros k' x Hx. apply IH. pose proof (depth_field fields k' x Hx). lia.
Qed.

Lemma stringify_total (replacer : string -> jsval -> jsval) (v : jsval) :
  tame replacer -> exists j, JSON.stringify replacer v = Ok j.
Proof.
  intros Htame. unfold JSON.stringify. apply serialize_property_total; [done | lia].
Qed.

(** An array of strings is written element by element, in order. *)
Lemma serialize_strings (replacer : string -> jsval -> jsval) (budget : nat)
    (l : list string) :
  (forall k s, replacer k (JString s) = JString s) ->
  forall i,
    JSON.serialize_items (JSON.serialize_property (S budget) replacer) i (JString <$> l)
    = Ok (JsonString <$> l).
Proof.
  intros Hid. induction l as [|s l IH]; intros i; [reflexivity|].
  cbn [fmap list_fmap JSON.serialize_items JSON.serialize_property].
  rewrite Hid. fold (JString <$> l). rewrite IH. reflexivity.
Qed.

Lemma parse_strings (l : list string) :
  JSON.parse (JsonArray (JsonString <$> l)) = JArray (JString <$> l).
Proof.
  cbn [JSON.parse]. f_equal. induction l as [|s l IH]; [reflexivity|].
  cbn. by rewrite IH.
Qed.

Lemma js_strings_of_strings (l : list string) :
  js_strings (JArray (JString <$> l)) = Some l.
Proof.
  unfold js_strings. induction l as [|s l IH]; [reflexivity|].
  cbn [fmap list_fmap mapM]. fold (JString <$> l). rewrite IH. reflexivity.
Qed.

Lemma serialize_fields_skip (f : string -> jsval -> result (option json))
    (k k' : string) (x : jsval) (rest : list (string * jsval))
    (ms : list (string * json)) :
  String.eqb k' k = false ->
  JSON.serialize_fields f ((k', x) :: rest) = Ok ms ->
  exists ms',
    JSON.serialize_fields f rest = Ok ms' /\
    obj_get k (parse_members ms) = obj_get k (parse_members ms').
Proof.
  intros Hne Hser. cbn [JSON.serialize_fields] in Hser.
  destruct (f k' x) as [e|jx]; [discriminate|].
  destruct (JSON.serialize_fields f rest) as [e|ms']; [discriminate|].
  exists ms'. split; [reflexivity|].
  injection Hser as <-. destruct jx as [j|]; [|reflexivity].
  cbn [parse_members List.map obj_get]. by rewrite Hne.
Qed.

Lemma serialize_fields_hit (f : string -> jsval -> result (option json))
    (k : string) (x : jsval) (rest : list (string * jsval))
    (ms : list (string * json)) (j : json) :
  f k x = Ok (Some j) ->
  JSON.serialize_fields f ((k, x) :: rest) = Ok ms ->
  obj_get k (parse_members ms) = JSON.parse j.
Proof.
  intros Hf Hser. cbn [JSON.serialize_fields] in Hser. rewrite Hf in Hser.
  destruct (JSON.serialize_fields f rest) as [e|ms']; [discriminate|].
  injection Hser as <-. cbn [parse_members List.map obj_get].
  by rewrite String.eqb_refl.
Qed.

(** The [relatedContracts] member of a serialised report is what the
    property's value was written as. *)
Lemma report_members_lookup (f : string -> jsval -> result (option json))
    (r : report) (tail : list (string * jsval)) (value : jsval)
    (ms : list (string * json)) (j : json) :
  f "relatedContracts" value = Ok (Some j) ->
  JSON.serialize_fields f (report_head r value ++ tail) = Ok ms ->
  obj_get "relatedContracts" (parse_members ms) = JSON.parse j.
Proof.
  intros Hhit Hser. unfold report_head in Hser. cbn [app] in Hser.
  repeat (apply (serialize_fields_skip _ "relatedContracts") in Hser as (? & Hser & ->);
          [|reflexivity]).
  by rewrite (serialize_fields_hit _ _ _ _ _ _ Hhit Hser).
Qed.

(** It reads back as the array of the set's elements, whenever the
    replacer turns the property's value into that array and leaves strings
    alone. *)
Lemma report_members_relatedContracts (replacer : string -> jsval -> jsval)
    (budget : nat) (r : report) (tail : list (string * jsval))
    (value : jsval) (ms : list (string * json)) :
  (forall k s, replacer k (JString s) = JString s) ->
  replacer "relatedContracts" value = JArray (JString <$> relatedContracts r) ->
  JSON.serialize_fields (JSON.serialize_property (S (S budget)) replacer)
    (report_head r value ++ tail) = Ok ms ->
  obj_get "relatedContracts" (parse_members ms) = JArray (JString <$> relatedContracts r).
Proof.
  intros Hid Hvalue Hser.
  assert (JSON.serialize_property (S (S budget)) replacer "relatedContracts" value
          = Ok (Some (JsonArray (JsonString <$> relatedContracts r)))) as Hhit.
  { cbn [JSON.serialize_property]. rewrite Hvalue.
    by rewrite (serialize_strings replacer budget _ Hid). }
  rewrite (report_members_lookup _ r tail value ms _ Hhit Hser).
  apply parse_strings.
Qed.

Lemma depth_report_ge_2 (r : report) (tail : list (string * jsval)) (value : jsval) :
  (exists e, value = JSet e \/ value = JArray e) ->
  exists d,
    JSON.depth (JObject (report_head r value ++ tail)) = S (S d).
Proof.
  intros (e & Hv).
  match goal with |- exists d, JSON.depth (JObject ?fs) = _ => set (fields := fs) end.
  assert (1 <= JSON.depth value)%nat as H1 by (destruct Hv as [-> | ->]; cbn; lia).
  assert (JSON.depth value < JSON.depth (JObject fields))%nat as H2.
  { apply (depth_field fields "relatedContracts"). subst fields.
    unfold report_head. set_solver. }
  exists (JSON.depth (JObject fields) - 2)%nat. lia.
Qed.

Lemma report_props_shape (r : report) :
  report_props r
  = report_head r (JSet (JString <$> relatedContracts r)) ++ report_tail r.
Proof. reflexivity. Qed.

Lemma reportData_analysis_shape (r : report) :
  obj_set "relatedContracts" (JArray (JString <$> relatedContracts r)) (report_props r)
  = report_head r (JArray (JString <$> relatedContracts r)) ++ report_tail r.
Proof. reflexivity. Qed.

(** An object the replacer leaves alone is written as the object of its
    written properties. *)
Lemma serialize_object (replacer : string -> jsval -> jsval) (budget : nat)
    (k : string) (fields : list (string * jsval)) :
  tame replacer ->
  replacer k (JObject fields) = JObject fields ->
  (JSON.depth (JObject fields) < S budget)%nat ->
  exists ms,
    JSON.serialize_property (S budget) replacer k (JObject fields)
      = Ok (Some (JsonObject ms)) /\
    JSON.serialize_fields (JSON.serialize_property budget replacer) fields = Ok ms.
Proof.
  intros Htame Hid Hdepth. cbn [JSON.serialize_property]. rewrite Hid.
  destruct (serialize_fields_total (JSON.serialize_property budget replacer) fields)
    as (ms & Hms).
  - intros k' x Hx. apply serialize_property_total; [done|].
    pose proof (depth_field fields k' x Hx). lia.
  - exists ms. by rewrite Hms.
Qed.

(** The document [saveToJson] writes for a report exists, and its
    [relatedContracts] member reads back as the array of the set's
    elements. *)
Lemma saveToJson_document (r : report) :
  exists doc,
    JSON.stringify saveToJson_replacer (report_to_js r) = Ok (Some doc) /\
    js_field "relatedContracts" (JSON.parse doc)
      = JArray (JString <$> relatedContracts r).
Proof.
  unfold JSON.stringify, report_to_js. rewrite report_props_shape.
  destruct (depth_report_ge_2 r (report_tail r) (JSet (JString <$> relatedContracts r)))
    as (d & Hd); [by eexists; left|].
  rewrite Hd.
  destruct (serialize_object saveToJson_replacer (S (S d)) ""
              (report_head r (JSet (JString <$> relatedContracts r)) ++ report_tail r)
              saveToJson_replacer_tame eq_refl ltac:(lia))
    as (ms & Hdoc & Hms).
  exists (JsonObject ms). split; [exact Hdoc|].
  apply (report_members_relatedContracts saveToJson_replacer d r (report_tail r)
           (JSet (JString <$> relatedContracts r)) ms
           (fun _ _ => eq_refl) eq_refl Hms).
Qed.

(** C8: the document [saveToJson] writes for a report, and the document
    [generateReports] writes, both hold [relatedContracts] as an array of
    strings in the insertion order of the set; parsed back, that array has
    the same elements as the set (it is the list of its elements, hence a
    permutation of it). *)
Theorem relatedContracts_round_trip (analyzedAt : string) (r : report) :
  (exists doc,
     JSON.stringify saveToJson_replacer (report_to_js r) = Ok (Some doc) /\
     js_field "relatedContracts" (JSON.parse doc)
       = JArray (JString <$> relatedContracts r) /\
     exists l,
       js_strings (js_field "relatedContracts" (JSON.parse doc)) = Some l /\
       l ≡ₚ relatedContracts r) /\
  (exists doc,
     generateReports_document analyzedAt r = Ok (Some doc) /\
     js_field "relatedContracts" (js_field "analysis" (JSON.parse doc))
       = JArray (JString <$> relatedContracts r) /\
     exists l,
       js_strings (js_field "relatedContracts" (js_field "analysis" (JSON.parse doc)))
         = Some l /\
       l ≡ₚ relatedContracts r).
Proof.
  split.
  - destruct (saveToJson_document r) as (doc & Hdoc & Hback).
    exists doc. split; [exact Hdoc|]. split; [exact Hback|]. rewrite Hback.
    exists (relatedContracts r). split; [apply js_strings_of_strings | done].
  - unfold generateReports_document, JSON.stringify, reportData.
    rewrite reportData_analysis_shape.
    set (A := report_head r (JArray (JString <$> relatedContracts r)) ++ report_tail r).
    set (data := JObject [("metadata", report_metadata analyzedAt); ("analysis", JObject A)]).
    destruct (depth_report_ge_2 r (report_tail r) (JArray (JString <$> relatedContracts r)))
      as (d & Hd); [by eexists; right|].
    fold A in Hd.
    assert (JSON.depth (JObject A) < JSON.depth data)%nat as Hlt.
    { apply (depth_field _ "analysis"). subst data. set_solver. }
    destruct (JSON.depth data) as [|[|[|D]]] eqn:HD; try lia.
    destruct (serialize_object generateReports_replacer (S (S (S D))) ""
                [("metadata", report_metadata analyzedAt); ("analysis", JObject A)]
                generateReports_replacer_tame eq_refl ltac:(fold data; lia))
      as (ms0 & Hdoc & Hms0).
    destruct (serialize_object generateReports_replacer (S (S D)) "analysis" A
                generateReports_replacer_tame eq_refl ltac:(lia))
      as (ms & Hanalysis & Hms).
    exists (JsonObject ms0). split; [exact Hdoc|].
    assert (js_field "analysis" (JSON.parse (JsonObject ms0)) = JObject (parse_members ms))
      as Hinner.
    { apply (serialize_fields_skip _ "analysis") in Hms0 as (ms1 & Hms1 & Heq);
        [|reflexivity].
      change (js_field "analysis" (JSON.parse (JsonObject ms0)))
        with (obj_get "analysis" (parse_members ms0)).
      rewrite Heq. by rewrite (serialize_fields_hit _ _ _ _ _ _ Hanalysis Hms1). }
    assert (js_field "relatedContracts" (js_field "analysis" (JSON.parse (JsonObject ms0)))
            = JArray (JString <$> relatedContracts r)) as Hback.
    { rewrite Hinner. cbn [js_field].
      apply (report_members_relatedContracts generateReports_replacer D r (report_tail r)
               (JArray (JString <$> relatedContracts r)) ms
               (fun _ _ => eq_refl) eq_refl Hms). }
    split; [exact Hback|]. rewrite Hback.
    exists (relatedContracts r). split; [apply js_strings_of_strings | done].
Qed.


Lemma serialize_object_inv (replacer : string -> jsval -> jsval) (budget : nat)
    (k : string) (fields : list (string * jsval)) (j : option json) :
  replacer k (JObject fields) = JObject fields ->
  JSON.serialize_property (S budget) replacer k (JObject fields) = Ok j ->
  exists ms,
    j = Some (JsonObject ms) /\
    JSON.serialize_fields (JSON.serialize_property budget replacer) fields = Ok ms.
Proof.
  intros Hid Hser. cbn [JSON.serialize_property] in Hser. rewrite Hid in Hser.
  destruct (JSON.serialize_fields _ fields) as [e|ms]; [discriminate|].
  exists ms. by injection Hser as <-.
Qed.

Lemma serialize_fields_head (f : string -> jsval -> result (option json))
    (k : string) (x : jsval) (rest : list (string * jsval))
    (ms : list (string * json)) :
  JSON.serialize_fields f ((k, x) :: rest) = Ok ms ->
  exists jx, f k x = Ok jx.
Proof.
  cbn [JSON.serialize_fields]. destruct (f k x) as [e|jx]; [discriminate|]. by eexists.
Qed.

(** The driver that calls [JSON.stringify] without a replacer writes the
    set as an empty object: its elements do not reach the document. *)
Remark plain_document_loses_relatedContracts
    (analyzedAt : string) (r : report) (doc : json) :
  generateReports_plain_document analyzedAt r = Ok (Some doc) ->
  js_field "relatedContracts" (js_field "analysis" (JSON.parse doc)) = JObject [].
Proof.
  unfold generateReports_plain_document, JSON.stringify, report_to_js.
  rewrite report_props_shape.
  set (A := report_head r (JSet (JString <$> relatedContracts r)) ++ report_tail r).
  set (data := JObject [("metadata", report_metadata analyzedAt); ("analysis", JObject A)]).
  destruct (depth_report_ge_2 r (report_tail r) (JSet (JString <$> relatedContracts r)))
    as (d & Hd); [by eexists; left|].
  fold A in Hd.
  assert (JSON.depth (JObject A) < JSON.depth data)%nat as Hlt.
  { apply (depth_field _ "analysis"). subst data. set_solver. }
  destruct (JSON.depth data) as [|[|[|D]]] eqn:HD; try lia.
  intros Hdoc. subst data.
  apply serialize_object_inv in Hdoc as (ms0 & Hshape & Hms0); [|reflexivity].
  injection Hshape as ->.
  apply (serialize_fields_skip _ "analysis") in Hms0 as (ms1 & Hms1 & Heq);
    [|reflexivity].
  destruct (serialize_fields_head _ _ _ _ _ Hms1) as (jA & HjA).
  pose proof HjA as HjA'.
  apply serialize_object_inv in HjA' as (ms & -> & Hms); [|reflexivity].
  change (js_field "analysis" (JSON.parse (JsonObject ms0)))
    with (obj_get "analysis" (parse_members ms0)).
  rewrite Heq, (serialize_fields_hit _ _ _ _ _ _ HjA Hms1).
  change (js_field "relatedContracts" (JSON.parse (JsonObject ms)))
    with (obj_get "relatedContracts" (parse_members ms)).
  by rewrite (report_members_lookup _ r (report_tail r)
                (JSet (JString <$> relatedContracts r)) ms (JsonObject [])
                eq_refl Hms).
Qed.

(** ** The report stays set *)

Create HintDb keeps discriminated.

Lemma keeps_ret {A} (a : A) : keeps_report (ret a).
Proof. by intros w. Qed.

Lemma keeps_throw {A} (e : exn) : keeps_report (@throw A e).
Proof. by intros w. Qed.

Lemma keeps_out_of_fuel {A} : keeps_report (@out_of_fuel A).
Proof. by intros w. Qed.

Lemma keeps_lift {A} (r : result A) : keeps_report (lift r).
Proof. destruct r; by intros w. Qed.

Lemma keeps_bind {A B} (m : M A) (k : A -> M B) :
  keeps_report m -> (forall a, keeps_report (k a)) -> keeps_report (bind m k).
Proof.
  intros Hm Hk w Hw. specialize (Hm w Hw). unfold bind.
  destruct (m w) as [[a|e|] w1]; cbn in *; [by apply Hk | done | done].
Qed.

Lemma keeps_try_catch {A} (m : M A) (h : exn -> M A) :
  keeps_report m -> (forall e, keeps_report (h e)) -> keeps_report (try_catch m h).
Proof.
  intros Hm Hh w Hw. specialize (Hm w Hw). unfold try_catch.
  destruct (m w) as [[a|e|] w1]; cbn in *; [done | by apply Hh | done].
Qed.

Lemma keeps_await {A} (c : call) (answer : nat -> result A) :
  keeps_report (await c answer).
Proof. intros w Hw. unfold await. by destruct (answer _). Qed.

Lemma keeps_observe {A} (c : call) (answer : nat -> A) :
  keeps_report (observe c answer).
Proof. by intros w Hw. Qed.

Lemma keeps_get_report : keeps_report get_report.
Proof. intros w [r Hr]. unfold get_report. rewrite Hr. cbn. by rewrite Hr. Qed.

Lemma keeps_modify_report (f : report -> report) : keeps_report (modify_report f).
Proof.
  intros w [r Hr]. unfold modify_report, bind, get_report. rewrite Hr. by eexists.
Qed.

Lemma keeps_if {A} (b : bool) (m1 m2 : M A) :
  keeps_report m1 -> keeps_report m2 -> keeps_report (if b then m1 else m2).
Proof. by destruct b. Qed.

#[local] Hint Resolve keeps_ret keeps_throw keeps_out_of_fuel keeps_lift keeps_await
  keeps_observe keeps_get_report keeps_modify_report : keeps.
#[local] Hint Extern 2 (keeps_report (bind _ _)) => apply keeps_bind; [|intros] : keeps.
#[local] Hint Extern 2 (keeps_report (try_catch _ _)) =>
  apply keeps_try_catch; [|intros] : keeps.
#[local] Hint Extern 3 (keeps_report (if _ then _ else _)) => apply keeps_if : keeps.
#[local] Hint Extern 4 (keeps_report (match ?x with _ => _ end)) => destruct x : keeps.

Section KeepsReport.

Variable U : Web3Utils.
Variable C : Collaborators.
Variable ed : edition.

Lemma keeps_getContractState (address : string) (block : Z) :
  keeps_report (getContractState U C address block).
Proof. unfold getContractState, getStorageAt. auto 10 with keeps. Qed.

Lemma keeps_getContractState_at (address : string) (block : Js.number) :
  keeps_report (getContractState_at U C address block).
Proof.
  unfold getContractState_at, getStorageAt_at, getStorageAt.
  destruct block; auto 10 with keeps.
Qed.

Lemma keeps_getImplementationAt (address : string) (block : Z) :
  keeps_report (getImplementationAt U C address block).
Proof. unfold getImplementationAt, getStorageAt. auto 10 with keeps. Qed.

Lemma keeps_sample_loop (fuel : nat) :
  forall currentBlock latestBlock implementations,
    keeps_report (sample_loop U C fuel currentBlock latestBlock implementations).
Proof.
  pose proof keeps_getImplementationAt.
  induction fuel as [|fuel IH]; intros; cbn [sample_loop]; auto 10 with keeps.
Qed.

Lemma keeps_analyzeImplementationHistory (fuel : nat) :
  keeps_report (analyzeImplementationHistory U C fuel).
Proof.
  pose proof keeps_sample_loop. unfold analyzeImplementationHistory.
  auto 10 with keeps.
Qed.

Lemma keeps_sample_loop_checkpointing (fuel : nat) :
  forall currentBlock latestBlock implementations,
    keeps_report (sample_loop_checkpointing fuel currentBlock latestBlock implementations).
Proof.
  induction fuel as [|fuel IH]; intros; cbn [sample_loop_checkpointing];
    unfold getImplementationAt_missing; auto 10 with keeps.
Qed.

Lemma keeps_analyzeImplementationHistory_checkpointing (fuel : nat) :
  keeps_report (analyzeImplementationHistory_checkpointing C fuel).
Proof.
  pose proof keeps_sample_loop_checkpointing.
  unfold analyzeImplementationHistory_checkpointing. auto 10 with keeps.
Qed.

Lemma keeps_isContract (address : string) : keeps_report (isContract U C ed address).
Proof. unfold isContract. auto 10 with keeps. Qed.

Lemma keeps_getContractTransactions (address : string) :
  keeps_report (getContractTransactions U C address).
Proof. unfold getContractTransactions. auto 10 with keeps. Qed.

Lemma keeps_trace_transactions (transactions : list transaction) :
  forall contractsToAnalyze,
    keeps_report (trace_transactions U C ed transactions contractsToAnalyze).
Proof.
  pose proof keeps_isContract.
  induction transactions as [|tx rest IH]; intros; cbn [trace_transactions];
    unfold push_suspiciousAction; auto 10 with keeps.
Qed.

Lemma keeps_crawl_loop (fuel : nat) :
  forall contractsToAnalyze position,
    keeps_report (crawl_loop U C ed fuel contractsToAnalyze position).
Proof.
  pose proof keeps_getContractTransactions. pose proof keeps_trace_transactions.
  assert (forall c, keeps_report (processed_has c)) by (by intros c w).
  assert (forall c, keeps_report (processed_add c)) by (by intros c w).
  induction fuel as [|fuel IH]; intros; cbn [crawl_loop]; auto 12 with keeps.
Qed.

Lemma keeps_analyzeTraces_loop (traces : list trace_record) :
  forall analyzedTraces, keeps_report (analyzeTraces_loop U C ed traces analyzedTraces).
Proof.
  pose proof keeps_isContract.
  induction traces as [|trace rest IH]; intros; cbn [analyzeTraces_loop];
    unfold related_add; auto 12 with keeps.
Qed.

Lemma keeps_analyzeHackTransaction (txHash : string) :
  keeps_report (analyzeHackTransaction U C ed txHash).
Proof.
  pose proof keeps_analyzeTraces_loop. pose proof keeps_getContractState_at.
  unfold analyzeHackTransaction, getTransactionTraces, analyzeTraces.
  auto 20 with keeps.
Qed.

Lemma keeps_analyzeVictimContract (address : string) :
  keeps_report (analyzeVictimContract U C ed address).
Proof.
  pose proof keeps_getContractTransactions.
  unfold analyzeVictimContract. auto 10 with keeps.
Qed.

Lemma keeps_saveToJson (prefix : string) (data : jsval) :
  keeps_report (saveToJson C prefix data).
Proof.
  assert (forall f, keeps_report (fun w => (Return tt, set_files f w)))
    by (by intros f w).
  assert (forall f d, keeps_report (writeFile C f d)).
  { intros f [j|]; unfold writeFile; [|auto with keeps].
    apply keeps_bind; [auto with keeps|]. by intros _ w. }
  unfold saveToJson. auto 10 with keeps.
Qed.

Lemma keeps_checkpoint (label : string) : keeps_report (checkpoint C label).
Proof. intros w Hw. unfold checkpoint. by apply keeps_saveToJson. Qed.

End KeepsReport.

(** ** The pipeline *)

Section PipelineFacts.

Variable U : Web3Utils.
Variable C : Collaborators.

(** The sink absorbs every failure of its own. *)
Lemma saveToJson_returns (prefix : string) (data : jsval) (w : World) :
  saveToJson C prefix data w = (Return tt, (saveToJson C prefix data w).2).
Proof.
  unfold saveToJson, try_catch, bind, await, lift, observe, writeFile.
  destruct (fs_mkdir C _ _) as [e|[]]; [reflexivity|].
  destruct (JSON.stringify saveToJson_replacer data) as [e|[j|]]; cbn; try reflexivity.
  unfold bind, await.
  by destruct (fs_writeFile C _ _) as [e|[]].
Qed.

(** When the directory and the file can be written, the sink leaves the
    document under the label and the clock's reading. *)
Lemma saveToJson_writes (prefix : string) (data : jsval) (w : World) (doc : json) :
  fs_mkdir C (List.length (calls w)) "./analysis_data" = Ok tt ->
  JSON.stringify saveToJson_replacer data = Ok (Some doc) ->
  fs_writeFile C (S (S (List.length (calls w))))
    (checkpoint_file prefix (date_now C (S (List.length (calls w))))) = Ok tt ->
  files (saveToJson C prefix data w).2
    !! checkpoint_file prefix (date_now C (S (List.length (calls w)))) = Some doc.
Proof.
  intros Hmkdir Hdoc Hwrite.
  unfold saveToJson, try_catch, bind, await, lift, observe, writeFile.
  rewrite Hmkdir, Hdoc. cbn [ret calls log_call].
  rewrite length_app. cbn [List.length]. rewrite Nat.add_1_r.
  unfold bind, await. cbn [calls log_call].
  rewrite !length_app. cbn [List.length]. rewrite !Nat.add_1_r.
  fold (checkpoint_file prefix (date_now C (S (List.length (calls w))))).
  rewrite Hwrite. cbn [snd files set_files]. apply lookup_insert_eq.
Qed.

Lemma checkpoint_returns (label : string) (w : World) :
  checkpoint C label w = (Return tt, (checkpoint C label w).2).
Proof. unfold checkpoint. apply saveToJson_returns. Qed.

Lemma create_report_returns (hackTxHash victim suspect : string) (w : World) :
  create_report C hackTxHash victim suspect w
  = (Return tt, (create_report C hackTxHash victim suspect w).2).
Proof. reflexivity. Qed.

Lemma phase_throws_keeps_report (phases : list (M unit * string))
    (w : World) (e : exn) (w' : World) :
  Forall (fun p => keeps_report p.1) phases ->
  phase_throws C phases w e w' ->
  is_Some (this_report w) -> is_Some (this_report w').
Proof.
  intros Hall Hthrows. induction Hthrows as
      [phase label rest w e w' Hphase
      |phase label rest w wnext e w' Hphase Hrest IH];
    intros Hw; apply Forall_cons in Hall as [Hkeeps Hall]; cbn in Hkeeps.
  - specialize (Hkeeps w Hw). by rewrite Hphase in Hkeeps.
  - apply IH; [exact Hall|]. apply keeps_checkpoint.
    specialize (Hkeeps w Hw). by rewrite Hphase in Hkeeps.
Qed.

Lemma pipeline_phases_keep_report (fuel : nat) (hackTxHash victim suspect : string) :
  Forall (fun p => keeps_report p.1)
    (pipeline_phases U C fuel hackTxHash victim suspect).
Proof.
  unfold pipeline_phases. repeat (apply List.Forall_cons); cbn [fst];
    try apply List.Forall_nil.
  - apply keeps_analyzeHackTransaction.
  - apply keeps_analyzeVictimContract.
  - apply keeps_crawl_loop.
  - apply keeps_analyzeImplementationHistory_checkpointing.
Qed.

(** One step along [phase_throws]: the failing phase ends the [try]
    block, a returning one is followed by its checkpoint. *)
Ltac phase_step :=
  match goal with
  | H : phase_throws _ (_ :: _) _ _ _ |- _ =>
    inversion H; subst; clear H;
    [ match goal with
      | Hp : _ = (Throw _, _) |- _ => by rewrite (bind_throw _ _ _ _ _ Hp)
      end
    | match goal with
      | Hp : _ = (Return tt, ?wn) |- _ =>
        rewrite (bind_return _ _ _ _ _ Hp);
        rewrite (bind_return _ _ _ _ _ (checkpoint_returns _ wn));
        clear Hp
      end ]
  | H : phase_throws _ [] _ _ _ |- _ => inversion H
  end.

(** C7: when one of the four phases throws, the phases before it having
    returned, [analyzeFromHack] of the checkpointing analyzer throws the
    same error and never returns a report; before that it calls the sink
    on the partial report, as the failed phase left it, under the label
    [<hash>_error.json], and the document is on disk if the directory and
    the file could be written.  The fourth phase is the one of that class,
    which defines no [getImplementationAt] and so throws at the first
    sample on every chain with a block. *)
Theorem phase_failure_is_checkpointed_and_rethrown
    (fuel : nat) (hackTxHash victim suspect : string) (w w1 : World) (e : exn) :
  phase_throws C (pipeline_phases U C fuel hackTxHash victim suspect)
    (create_report C hackTxHash victim suspect w).2 e w1 ->
  let w2 := (checkpoint C (hackTxHash +:+ "_error.json") w1).2 in
  analyzeFromHack U C Checkpointing fuel hackTxHash victim suspect w = (Throw e, w2) /\
  (forall r wf,
     analyzeFromHack U C Checkpointing fuel hackTxHash victim suspect w
     <> (Return r, wf)) /\
  (exists partial,
     this_report w1 = Some partial /\
     w2 = (saveToJson C (hackTxHash +:+ "_error.json") (report_to_js partial) w1).2 /\
     exists doc,
       JSON.stringify saveToJson_replacer (report_to_js partial) = Ok (Some doc) /\
       let file := checkpoint_file (hackTxHash +:+ "_error.json")
                     (date_now C (S (List.length (calls w1)))) in
       (fs_mkdir C (List.length (calls w1)) "./analysis_data" = Ok tt ->
        fs_writeFile C (S (S (List.length (calls w1)))) file = Ok tt ->
        files w2 !! file = Some doc)).
Proof.
  intros Hthrows w2.
  assert (analyzeFromHack U C Checkpointing fuel hackTxHash victim suspect w
          = (Throw e, w2)) as Hrun.
  { cbn [analyzeFromHack]. unfold analyzeFromHack_checkpointing.
    erewrite try_catch_throw.
    - rewrite (bind_return _ _ _ _ _ (checkpoint_returns _ w1)). reflexivity.
    - rewrite (bind_return _ _ _ _ _ (create_report_returns _ _ _ w)).
      unfold pipeline_phases in Hthrows.
      repeat phase_step. }
  split; [exact Hrun|]. split.
  - intros r wf Hret. rewrite Hrun in Hret. discriminate.
  - destruct (phase_throws_keeps_report _ _ _ _
                (pipeline_phases_keep_report fuel hackTxHash victim suspect) Hthrows)
      as (partial & Hpartial); [by eexists|].
    exists partial. split; [exact Hpartial|].
    assert (w2 = (saveToJson C (hackTxHash +:+ "_error.json")
                    (report_to_js partial) w1).2) as Hw2.
    { subst w2. unfold checkpoint. by rewrite Hpartial. }
    split; [exact Hw2|].
    destruct (saveToJson_document partial) as (doc & Hdoc & _).
    exists doc. split; [exact Hdoc|].
    intros file Hmkdir Hwrite. rewrite Hw2.
    by apply saveToJson_writes.
Qed.

End PipelineFacts.

Lemma phase_failure_is_checkpointed_and_rethrown_witness :
  exists w1,
    phase_throws Incident.chain
      (pipeline_phases Scenario.utils Incident.chain 5
         HACK_TX VICTIM_CONTRACT HACKER_ADDRESS)
      (create_report Incident.chain HACK_TX VICTIM_CONTRACT HACKER_ADDRESS
         new_analyzer).2
      (TypeError "this.getImplementationAt is not a function") w1 /\
    analyzeFromHack Scenario.utils Incident.chain Checkpointing 5
      HACK_TX VICTIM_CONTRACT HACKER_ADDRESS new_analyzer
    = (Throw (TypeError "this.getImplementationAt is not a function"),
       (checkpoint Incident.chain (HACK_TX +:+ "_error.json") w1).2).
Proof.
  assert (exists w1,
            phase_throws Incident.chain
              (pipeline_phases Scenario.utils Incident.chain 5
                 HACK_TX VICTIM_CONTRACT HACKER_ADDRESS)
              (create_report Incident.chain HACK_TX VICTIM_CONTRACT HACKER_ADDRESS
                 new_analyzer).2
              (TypeError "this.getImplementationAt is not a function") w1)
    as [w1 Hthrows].
  { eexists. unfold pipeline_phases.
    eapply throws_later; [apply run_return; vm_compute; reflexivity|].
    eapply throws_later; [apply run_return; vm_compute; reflexivity|].
    eapply throws_later; [apply run_return; vm_compute; reflexivity|].
    apply throws_now. apply run_throw. vm_compute. reflexivity. }
  exists w1. split; [exact Hthrows|].
  apply (phase_failure_is_checkpointed_and_rethrown Scenario.utils Incident.chain 5
           HACK_TX VICTIM_CONTRACT HACKER_ADDRESS new_analyzer w1
           (TypeError "this.getImplementationAt is not a function") Hthrows).
Defined.

(** * Further properties *)

(** ** Footprints of the phases *)

Create HintDb respects discriminated.

Section RespectsCrawl.

#[local] Set Default Proof Using "Type*".

Context {U : Web3Utils} {R : World -> World -> Prop} `{!CrawlFootprint U R}.
Variable C : Collaborators.
Variable ed : edition.

Lemma respects_ret {A} (a : A) : respects R (ret a).
Proof. intros w. apply fp_refl. Qed.

Lemma respects_throw {A} (e : exn) : respects R (@throw A e).
Proof. intros w. apply fp_refl. Qed.

Lemma respects_out_of_fuel {A} : respects R (@out_of_fuel A).
Proof. intros w. apply fp_refl. Qed.

Lemma respects_lift {A} (r : result A) : respects R (lift r).
Proof. destruct r; [apply respects_throw | apply respects_ret]. Qed.

Lemma respects_bind {A B} (m : M A) (k : A -> M B) :
  respects R m -> (forall a, respects R (k a)) -> respects R (bind m k).
Proof.
  intros Hm Hk w. specialize (Hm w). unfold bind.
  destruct (m w) as [[a|e|] w1]; cbn in *; [|done|done].
  eapply fp_trans; [exact Hm | apply Hk].
Qed.

Lemma respects_bind_ret {A B} (a : A) (k : A -> M B) :
  respects R (k a) -> respects R (bind (ret a) k).
Proof. intros Hk w. unfold bind, ret. apply Hk. Qed.

Lemma respects_bind_throw {A B} (e : exn) (k : A -> M B) :
  respects R (bind (throw e) k).
Proof. intros w. unfold bind, throw. apply fp_refl. Qed.

Lemma respects_try_catch {A} (m : M A) (h : exn -> M A) :
  respects R m -> (forall e, respects R (h e)) -> respects R (try_catch m h).
Proof.
  intros Hm Hh w. specialize (Hm w). unfold try_catch.
  destruct (m w) as [[a|e|] w1]; cbn in *; [done| |done].
  eapply fp_trans; [exact Hm | apply Hh].
Qed.

Lemma respects_if {A} (b : bool) (m1 m2 : M A) :
  respects R m1 -> respects R m2 -> respects R (if b then m1 else m2).
Proof. by destruct b. Qed.

Lemma respects_await {A} (c : call) (answer : nat -> result A) :
  is_network c = true -> respects R (await c answer).
Proof. intros Hc w. unfold await. destruct (answer _); by apply fp_network. Qed.

Lemma respects_get_report : respects R get_report.
Proof. intros w. unfold get_report. destruct (this_report w); apply fp_refl. Qed.

Lemma respects_modify_report (f : report -> report) :
  (forall w r, this_report w = Some r -> R w (set_report (Some (f r)) w)) ->
  respects R (modify_report f).
Proof.
  intros Hf w. unfold modify_report, bind, get_report.
  destruct (this_report w) as [r|] eqn:Hr; cbn; [by apply Hf | apply fp_refl].
Qed.

Lemma respects_push (tx : transaction) (a : analysis) :
  analyzeSingleTransaction U ed tx = Ok a ->
  suspicious a = true ->
  respects R (push_suspiciousAction a).
Proof.
  intros Ha Hs. apply respects_modify_report. intros w r Hr.
  by apply (fp_suspicious ed tx).
Qed.

#[local] Hint Resolve respects_ret respects_throw respects_out_of_fuel respects_lift
  respects_get_report : respects.
#[local] Hint Extern 1 (respects _ (await _ _)) =>
  apply respects_await; reflexivity : respects.
#[local] Hint Extern 2 (respects _ (bind _ _)) => apply respects_bind; [|intros] : respects.
#[local] Hint Extern 2 (respects _ (try_catch _ _)) =>
  apply respects_try_catch; [|intros] : respects.
#[local] Hint Extern 3 (respects _ (if _ then _ else _)) => apply respects_if : respects.
#[local] Hint Extern 4 (respects _ (match ?x with _ => _ end)) => destruct x : respects.

Lemma respects_isContract (address : string) : respects R (isContract U C ed address).
Proof. unfold isContract. auto 10 with respects. Qed.

Lemma respects_getContractTransactions (address : string) :
  respects R (getContractTransactions U C address).
Proof. unfold getContractTransactions. auto 10 with respects. Qed.

Lemma respects_trace_transactions (transactions : list transaction) :
  forall contractsToAnalyze,
    respects R (trace_transactions U C ed transactions contractsToAnalyze).
Proof.
  pose proof respects_isContract.
  induction transactions as [|tx rest IH]; intros cta; cbn [trace_transactions];
    [auto with respects|].
  apply respects_bind; [auto with respects|]. intros grow.
  destruct (analyzeSingleTransaction U ed tx) as [e|a] eqn:Ha; cbn [lift].
  - apply respects_bind_throw.
  - apply respects_bind_ret. apply respects_bind; [|intros; apply IH].
    destruct (suspicious a) eqn:Hs; [|apply respects_ret].
    by apply (respects_push tx).
Qed.

Lemma respects_crawl_loop (fuel : nat) :
  forall contractsToAnalyze position,
    respects R (crawl_loop U C ed fuel contractsToAnalyze position).
Proof.
  pose proof respects_getContractTransactions. pose proof respects_trace_transactions.
  assert (forall c, respects R (processed_has c)) by (intros c w; apply fp_refl).
  assert (forall c, respects R (processed_add c)) by (intros c w; apply fp_processed).
  induction fuel as [|fuel IH]; intros; cbn [crawl_loop]; auto 12 with respects.
Qed.

End RespectsCrawl.

Section RespectsPhases.

#[local] Set Default Proof Using "Type*".

Context {U : Web3Utils} {R : World -> World -> Prop} `{!Footprint U R}.
Variable C : Collaborators.
Variable ed : edition.

Lemma respects_related_add (address : string) : respects R (related_add address).
Proof. apply respects_modify_report. intros w r Hr. by apply fp_related. Qed.

#[local] Hint Extern 1 (respects _ (ret _)) => apply respects_ret : respects.
#[local] Hint Extern 1 (respects _ (throw _)) => apply respects_throw : respects.
#[local] Hint Extern 1 (respects _ out_of_fuel) => apply respects_out_of_fuel : respects.
#[local] Hint Extern 1 (respects _ (lift _)) => apply respects_lift : respects.
#[local] Hint Extern 1 (respects _ get_report) => apply respects_get_report : respects.
#[local] Hint Extern 1 (respects _ (await _ _)) =>
  apply respects_await; reflexivity : respects.
#[local] Hint Extern 2 (respects _ (bind _ _)) => apply respects_bind; [|intros] : respects.
#[local] Hint Extern 2 (respects _ (try_catch _ _)) =>
  apply respects_try_catch; [|intros] : respects.
#[local] Hint Extern 3 (respects _ (if _ then _ else _)) => apply respects_if : respects.
#[local] Hint Extern 4 (respects _ (match ?x with _ => _ end)) => destruct x : respects.

#[local] Hint Resolve respects_related_add : respects.

Lemma respects_getContractState (address : string) (block : Z) :
  respects R (getContractState U C address block).
Proof. unfold getContractState, getStorageAt. auto 10 with respects. Qed.

Lemma respects_getContractState_at (address : string) (block : Js.number) :
  respects R (getContractState_at U C address block).
Proof.
  unfold getContractState_at, getStorageAt_at, getStorageAt.
  destruct block; auto 10 with respects.
Qed.

Lemma respects_getImplementationAt (address : string) (block : Z) :
  respects R (getImplementationAt U C address block).
Proof. unfold getImplementationAt, getStorageAt. auto 10 with respects. Qed.

Lemma respects_sample_loop (fuel : nat) :
  forall currentBlock latestBlock implementations,
    respects R (sample_loop U C fuel currentBlock latestBlock implementations).
Proof.
  pose proof respects_getImplementationAt.
  induction fuel as [|fuel IH]; intros; cbn [sample_loop]; auto 10 with respects.
Qed.

Lemma respects_analyzeImplementationHistory (fuel : nat) :
  respects R (analyzeImplementationHistory U C fuel).
Proof.
  pose proof respects_sample_loop. unfold analyzeImplementationHistory.
  apply respects_bind; [auto with respects|]. intros latest.
  apply respects_bind; [auto|]. intros implementations.
  apply respects_modify_report. intros w r Hr. by apply fp_history.
Qed.

Lemma respects_sample_loop_checkpointing (fuel : nat) :
  forall currentBlock latestBlock implementations,
    respects R (sample_loop_checkpointing fuel currentBlock latestBlock implementations).
Proof.
  induction fuel as [|fuel IH]; intros; cbn [sample_loop_checkpointing];
    unfold getImplementationAt_missing; auto 10 with respects.
Qed.

Lemma respects_analyzeImplementationHistory_checkpointing (fuel : nat) :
  respects R (analyzeImplementationHistory_checkpointing C fuel).
Proof.
  pose proof respects_sample_loop_checkpointing.
  unfold analyzeImplementationHistory_checkpointing.
  apply respects_bind; [auto with respects|]. intros latest.
  apply respects_bind; [auto|]. intros implementations.
  apply respects_modify_report. intros w r Hr. by apply fp_history.
Qed.

Lemma respects_analyzeTraces_loop (traces : list trace_record) :
  forall analyzedTraces, respects R (analyzeTraces_loop U C ed traces analyzedTraces).
Proof.
  pose proof respects_isContract.
  induction traces as [|trace rest IH]; intros; cbn [analyzeTraces_loop];
    auto 12 with respects.
Qed.

Lemma respects_getTransactionTraces (txHash : string) :
  respects R (getTransactionTraces U C ed txHash).
Proof.
  pose proof respects_analyzeTraces_loop.
  unfold getTransactionTraces, analyzeTraces. auto 10 with respects.
Qed.

Lemma respects_analyzeHackTransaction (txHash : string) :
  respects R (analyzeHackTransaction U C ed txHash).
Proof.
  pose proof respects_getTransactionTraces. pose proof respects_getContractState_at.
  assert (forall d, respects R (modify_report (set_hackDetails d))).
  { intros d. apply respects_modify_report. intros w r Hr. by apply fp_hackDetails. }
  unfold analyzeHackTransaction. auto 20 with respects.
Qed.

Lemma respects_analyzeVictimContract (address : string) :
  respects R (analyzeVictimContract U C ed address).
Proof.
  pose proof respects_getContractTransactions.
  assert (forall v, respects R (modify_report (set_victimAnalysis v))).
  { intros v. apply respects_modify_report. intros w r Hr. by apply fp_victimAnalysis. }
  unfold analyzeVictimContract. auto 10 with respects.
Qed.

End RespectsPhases.

(** ** Classifier, continued *)

Section ClassifierMore.

Variable U : Web3Utils.

Lemma short_or_long (data : string) :
  (negb (Js.truthy data) || (Js.length data <? 10))
  = negb (Js.truthy data && (10 <=? Js.length data)).
Proof.
  destruct (Js.truthy data); cbn [negb orb andb]; [|reflexivity].
  destruct (Z.ltb_spec (Js.length data) 10), (Z.leb_spec 10 (Js.length data));
    try reflexivity; lia.
Qed.

(** What the flag and the reasons of any returned analysis are. *)
Lemma analysis_flag (ed : edition) (tx : transaction) (a : analysis) :
  analyzeSingleTransaction U ed tx = Ok a ->
  suspicious a = isSuspiciousCall (tx_input tx) /\
  reason a = (if suspicious a then ["suspicious_signature"] else []) /\
  an_hash a = tx_hash tx /\ an_input a = tx_input tx.
Proof.
  unfold analyzeSingleTransaction, classify_into, isSuspiciousCall.
  destruct (timestampISO U (tx_timeStamp tx)) as [e|ts]; [discriminate|].
  intros Ha. injection Ha as <-.
  destruct (tx_input tx) as [data|]; [|done].
  rewrite short_or_long.
  destruct (Js.truthy data && (10 <=? Js.length data)); cbn [negb]; [|done].
  by destruct (isSuspiciousSignature (Js.slice_to 10 data)).
Qed.

(** The trace analyzer and the transaction classifier agree: a
    transaction is marked suspicious exactly when [isSuspiciousCall]
    accepts its input, and then its only reason is the signature. *)
Theorem classifier_agrees_with_trace_test
    (ed : edition) (tx : transaction) (a : analysis) :
  analyzeSingleTransaction U ed tx = Ok a ->
  suspicious a = isSuspiciousCall (tx_input tx) /\
  (suspicious a = true -> reason a = ["suspicious_signature"]) /\
  (suspicious a = false -> reason a = []).
Proof.
  intros Ha. destruct (analysis_flag ed tx a Ha) as (Hflag & Hreason & _).
  split; [exact Hflag|]. rewrite Hreason. by destruct (suspicious a).
Qed.

(** The method name of a decoded input is always ["unknown"] or one of the
    four names of the signature table, whatever the input and whatever the
    decoder does. *)
Theorem decoded_method_is_in_table (inputData : option string) :
  method (decodeTransactionInput U inputData)
    ∈ "unknown" :: (fst <$> FUNCTION_SIGNATURES).
Proof.
  unfold decodeTransactionInput. destruct inputData as [data|]; [|set_solver].
  destruct (negb (Js.truthy data) || (Js.length data <? 10)); [set_solver|].
  unfold Js.find.
  match goal with
  | |- context [List.find ?p ?l] => destruct (List.find p l) as [entry|] eqn:Hfind
  end; [|set_solver].
  apply find_some in Hfind as [Hin _].
  assert (fst entry ∈ (fst <$> FUNCTION_SIGNATURES)) as Hname.
  { apply list_elem_of_fmap. exists entry. split; [done | by apply list_elem_of_In]. }
  assert (forall d, method d = fst entry ->
                    method d ∈ "unknown" :: (fst <$> FUNCTION_SIGNATURES)) as Hok.
  { intros d ->. by apply elem_of_cons; right. }
  destruct (getAbiByFunctionName (fst entry)) as [[|p ps]|]; try by apply Hok.
  destruct (decodeParameters U _ _); by apply Hok.
Qed.

End ClassifierMore.

Lemma classifier_agrees_with_trace_test_witness :
  analyzeSingleTransaction Scenario.utils Standalone Incident.upgrade_tx
    = Ok (classify_into Scenario.utils
            {| an_hash := HACK_TX; an_from := HACKER_ADDRESS; an_to := VICTIM_CONTRACT;
               an_value := "0"; an_input := Some Incident.upgrade_input;
               an_timestamp := "1700000000"; suspicious := false; reason := [];
               decodedInput := None |} Incident.upgrade_tx) /\
  isSuspiciousCall (tx_input Incident.upgrade_tx) = true.
Proof.
  split; [reflexivity|].
  destruct (classifier_agrees_with_trace_test Scenario.utils Standalone
              Incident.upgrade_tx _ eq_refl) as (Hflag & _).
  rewrite <- Hflag. reflexivity.
Defined.

(** ** The two footprints *)

Lemma fs_requests_app (l1 l2 : list call) :
  fs_requests (l1 ++ l2) = fs_requests l1 ++ fs_requests l2.
Proof. unfold fs_requests. apply List.filter_app. Qed.

Lemma offline_rel_refl (w : World) : offline_rel w w.
Proof. exists []. by rewrite app_nil_r. Qed.

Lemma offline_rel_trans (w1 w2 w3 : World) :
  offline_rel w1 w2 -> offline_rel w2 w3 -> offline_rel w1 w3.
Proof.
  intros (l1 & Hc1 & Hf1 & Hd1) (l2 & Hc2 & Hf2 & Hd2).
  exists (l1 ++ l2). rewrite Hc2, Hc1, Hd2, Hd1, fs_requests_app, Hf1, Hf2, app_assoc.
  done.
Qed.

Lemma offline_crawl_footprint (U : Web3Utils) : CrawlFootprint U offline_rel.
Proof.
  split.
  - apply offline_rel_refl.
  - apply offline_rel_trans.
  - intros c w Hc. exists [c]. split; [done|]. split; [|done]. by destruct c.
  - intros c w. exists []. by rewrite app_nil_r.
  - intros ed tx a w r _ _ _. exists []. by rewrite app_nil_r.
Qed.

Lemma offline_footprint (U : Web3Utils) : Footprint U offline_rel.
Proof.
  split.
  - apply offline_crawl_footprint.
  - intros x w r _. exists []. by rewrite app_nil_r.
  - intros d w r _. exists []. by rewrite app_nil_r.
  - intros v w r _. exists []. by rewrite app_nil_r.
  - intros h w r _. exists []. by rewrite app_nil_r.
Qed.

#[export] Existing Instance offline_footprint.

Lemma report_evolves_refl (r : report) : report_evolves r r.
Proof.
  repeat split; try done.
  - exists []. by rewrite app_nil_r.
  - exists []. by rewrite app_nil_r.
Qed.

Lemma report_evolves_trans (r1 r2 r3 : report) :
  report_evolves r1 r2 -> report_evolves r2 r3 -> report_evolves r1 r3.
Proof.
  intros (Hh1 & Hv1 & Hs1 & Ht1 & (a1 & Ha1 & Hf1) & (m1 & Hm1) & Hn1)
         (Hh2 & Hv2 & Hs2 & Ht2 & (a2 & Ha2 & Hf2) & (m2 & Hm2) & Hn2).
  repeat split; try congruence.
  - exists (a1 ++ a2). split; [by rewrite Ha2, Ha1, app_assoc|].
    by apply Forall_app.
  - exists (m1 ++ m2). by rewrite Hm2, Hm1, app_assoc.
  - auto.
Qed.

Lemma set_add_grows (x : string) (s : list string) :
  (exists more, set_add x s = s ++ more) /\ (NoDup s -> NoDup (set_add x s)) /\
  x ∈ set_add x s.
Proof.
  unfold set_add. case_bool_decide as Hin.
  - repeat split; [exists []; by rewrite app_nil_r | done | done].
  - repeat split; [by exists [x] | | set_solver].
    intros Hnd. apply NoDup_app. repeat split; [done | | apply NoDup_singleton].
    intros y Hy Hy'. apply list_elem_of_singleton in Hy'. by subst y.
Qed.

Lemma evolves_rel_same_report (w w' : World) :
  this_report w' = this_report w -> evolves_rel w w'.
Proof. intros Heq r Hr. exists r. split; [congruence | apply report_evolves_refl]. Qed.

Lemma evolves_crawl_footprint (U : Web3Utils) : CrawlFootprint U evolves_rel.
Proof.
  split.
  - intros w. by apply evolves_rel_same_report.
  - intros w1 w2 w3 H12 H23 r1 Hr1.
    destruct (H12 r1 Hr1) as (r2 & Hr2 & He12).
    destruct (H23 r2 Hr2) as (r3 & Hr3 & He23).
    exists r3. split; [done | by eapply report_evolves_trans].
  - intros c w _. by apply evolves_rel_same_report.
  - intros c w. by apply evolves_rel_same_report.
  - intros ed tx a w r Hr Ha Hs r0 Hr0. assert (r0 = r) as -> by congruence.
    eexists. split; [reflexivity|].
    destruct (analysis_flag U ed tx a Ha) as (_ & Hreason & _). rewrite Hs in Hreason.
    repeat split; try done.
    + exists [a]. split; [done|]. by repeat constructor.
    + exists []. by rewrite app_nil_r.
Qed.

Lemma evolves_footprint (U : Web3Utils) : Footprint U evolves_rel.
Proof.
  split.
  - apply evolves_crawl_footprint.
  - intros x w r Hr r0 Hr0. assert (r0 = r) as -> by congruence.
    eexists. split; [reflexivity|].
    destruct (set_add_grows x (relatedContracts r)) as (Hmore & Hnd & _).
    repeat split; try done. exists []. by rewrite app_nil_r.
  - intros d w r Hr r0 Hr0. assert (r0 = r) as -> by congruence.
    eexists. split; [reflexivity|].
    repeat split; try done; exists []; by rewrite app_nil_r.
  - intros v w r Hr r0 Hr0. assert (r0 = r) as -> by congruence.
    eexists. split; [reflexivity|].
    repeat split; try done; exists []; by rewrite app_nil_r.
  - intros h w r Hr r0 Hr0. assert (r0 = r) as -> by congruence.
    eexists. split; [reflexivity|].
    repeat split; try done; exists []; by rewrite app_nil_r.
Qed.

#[export] Existing Instance evolves_footprint.

Lemma set_suspiciousActions_same (r : report) :
  set_suspiciousActions (suspiciousActions r ++ []) r = r.
Proof. destruct r. cbn. by rewrite app_nil_r. Qed.

Lemma set_suspiciousActions_twice (r : report) (a1 a2 : list analysis) :
  set_suspiciousActions
    (suspiciousActions (set_suspiciousActions (suspiciousActions r ++ a1) r) ++ a2)
    (set_suspiciousActions (suspiciousActions r ++ a1) r)
  = set_suspiciousActions (suspiciousActions r ++ a1 ++ a2) r.
Proof. destruct r. cbn. by rewrite app_assoc. Qed.

Lemma crawl_rel_same_report (w w' : World) :
  this_report w' = this_report w -> crawl_rel w w'.
Proof.
  intros Heq r Hr. exists []. rewrite set_suspiciousActions_same.
  split; [congruence | constructor].
Qed.

Lemma crawl_footprint (U : Web3Utils) : CrawlFootprint U crawl_rel.
Proof.
  split.
  - intros w. by apply crawl_rel_same_report.
  - intros w1 w2 w3 H12 H23 r1 Hr1.
    destruct (H12 r1 Hr1) as (a1 & Hr2 & Hf1).
    destruct (H23 _ Hr2) as (a2 & Hr3 & Hf2).
    exists (a1 ++ a2). rewrite Hr3, set_suspiciousActions_twice.
    split; [done | by apply Forall_app].
  - intros c w _. by apply crawl_rel_same_report.
  - intros c w. by apply crawl_rel_same_report.
  - intros ed tx a w r Hr Ha Hs r0 Hr0. assert (r0 = r) as -> by congruence.
    exists [a]. split; [done|].
    destruct (analysis_flag U ed tx a Ha) as (_ & Hreason & _). rewrite Hs in Hreason.
    by repeat constructor.
Qed.

#[export] Existing Instance crawl_footprint.

(** ** The pipeline, continued *)

Lemma returns_held_get_report : returns_held_report get_report.
Proof.
  intros w r. unfold get_report. destruct (this_report w) as [r'|] eqn:Hr; cbn; [|done].
  intros H. injection H as ->. exact Hr.
Qed.

Lemma returns_held_bind {A} (m : M A) (k : A -> M report) :
  (forall a, returns_held_report (k a)) -> returns_held_report (bind m k).
Proof.
  intros Hk w r. unfold bind. destruct (m w) as [[a|e|] w1]; cbn; [apply Hk|done|done].
Qed.

Lemma returns_held_try_catch (m : M report) (h : exn -> M report) :
  returns_held_report m -> (forall e, returns_held_report (h e)) ->
  returns_held_report (try_catch m h).
Proof.
  intros Hm Hh w r. specialize (Hm w r). unfold try_catch.
  destruct (m w) as [[a|e|] w1]; cbn in *; [done | apply Hh | done].
Qed.

Lemma returns_held_then_throw {A} (m : M A) (e : exn) :
  returns_held_report (m ;;; throw e).
Proof. intros w r. unfold bind, throw. by destruct (m w) as [[a|e'|] w1]. Qed.

Section PipelineMore.

Variable U : Web3Utils.
Variable C : Collaborators.

Lemma saveToJson_keeps_analyzer (prefix : string) (data : jsval) (w : World) :
  this_report (saveToJson C prefix data w).2 = this_report w /\
  processedContracts (saveToJson C prefix data w).2 = processedContracts w.
Proof.
  unfold saveToJson, try_catch, bind, await, lift, observe, writeFile.
  destruct (fs_mkdir C _ _) as [e|[]]; [done|].
  destruct (JSON.stringify saveToJson_replacer data) as [e|[j|]]; cbn; try done.
  unfold bind, await. by destruct (fs_writeFile C _ _) as [e|[]].
Qed.

Lemma respects_evolves_checkpoint (label : string) :
  respects evolves_rel (checkpoint C label).
Proof.
  intros w. apply evolves_rel_same_report. unfold checkpoint.
  apply saveToJson_keeps_analyzer.
Qed.

(** The part of [analyzeFromHack] after [this.report = {...}]. *)
Lemma analyzeFromHack_after_create (ed : edition) (fuel : nat)
    (hackTxHash victim suspect : string) (w : World) :
  exists rest : M report,
    analyzeFromHack U C ed fuel hackTxHash victim suspect w
      = rest (create_report C hackTxHash victim suspect w).2 /\
    respects evolves_rel rest /\
    returns_held_report rest /\
    (ed = Standalone -> respects offline_rel rest).
Proof.
  pose proof (respects_analyzeHackTransaction (U := U) (R := evolves_rel) C).
  pose proof (respects_analyzeVictimContract (U := U) (R := evolves_rel) C).
  pose proof (respects_crawl_loop (U := U) (R := evolves_rel) C).
  pose proof (respects_analyzeImplementationHistory (U := U) (R := evolves_rel) C).
  pose proof (respects_analyzeImplementationHistory_checkpointing
                (U := U) (R := evolves_rel) C).
  pose proof respects_evolves_checkpoint.
  destruct ed; cbn [analyzeFromHack].
  - eexists (try_catch
               (analyzeHackTransaction U C Standalone hackTxHash ;;;
                analyzeVictimContract U C Standalone victim ;;;
                traceContractCalls U C Standalone fuel suspect ;;;
                analyzeImplementationHistory U C fuel ;;;
                get_report)
               (fun error => throw error)).
    split; [reflexivity|]. split; [|split].
    + apply (respects_try_catch (U := U)); [|intros; apply (respects_throw (U := U))].
      unfold traceContractCalls.
      repeat (apply (respects_bind (U := U)); [done | intros _]). apply (respects_get_report (U := U)).
    + apply returns_held_try_catch; [|by intros e w' r'].
      repeat (apply returns_held_bind; intros _). apply returns_held_get_report.
    + intros _. apply (respects_try_catch (U := U)); [|intros; apply (respects_throw (U := U))].
      unfold traceContractCalls.
      apply (respects_bind (U := U)); [apply (respects_analyzeHackTransaction (U := U)) | intros _].
      apply (respects_bind (U := U)); [apply (respects_analyzeVictimContract (U := U)) | intros _].
      apply (respects_bind (U := U)); [apply (respects_crawl_loop (U := U)) | intros _].
      apply (respects_bind (U := U)); [apply (respects_analyzeImplementationHistory (U := U)) | intros _].
      apply (respects_get_report (U := U)).
  - eexists (try_catch
               (analyzeHackTransaction U C Checkpointing hackTxHash ;;;
                checkpoint C (hackTxHash +:+ "_step1.json") ;;;
                analyzeVictimContract U C Checkpointing victim ;;;
                checkpoint C (hackTxHash +:+ "_step2.json") ;;;
                traceContractCalls U C Checkpointing fuel suspect ;;;
                checkpoint C (hackTxHash +:+ "_step3.json") ;;;
                analyzeImplementationHistory_checkpointing C fuel ;;;
                checkpoint C (hackTxHash +:+ "_final.json") ;;;
                get_report)
               (fun error => checkpoint C (hackTxHash +:+ "_error.json") ;;; throw error)).
    split; [reflexivity|]. split; [|split; [|done]].
    + apply (respects_try_catch (U := U)).
      * unfold traceContractCalls.
        repeat (apply (respects_bind (U := U)); [done | intros _]). apply (respects_get_report (U := U)).
      * intros e. apply (respects_bind (U := U)); [done | intros; apply (respects_throw (U := U))].
    + apply returns_held_try_catch; [|intros e; apply returns_held_then_throw].
      repeat (apply returns_held_bind; intros _). apply returns_held_get_report.
Qed.

(** Whatever the collaborators answer, the report a run of
    [smart-contract-analyzer.js] returns is the one the analyzer holds at
    the end; it carries the hash, the victim and the
    suspect the run was started with; its [relatedContracts] has no
    duplicate; and every entry of its [suspiciousActions] is marked
    suspicious with the signature as its only reason. *)
Theorem returned_report_invariants (fuel : nat)
    (hackTxHash victim suspect : string) (w : World) (r : report) :
  (analyzeFromHack U C Standalone fuel hackTxHash victim suspect w).1 = Return r ->
  this_report (analyzeFromHack U C Standalone fuel hackTxHash victim suspect w).2
    = Some r /\
  hackTransaction r = hackTxHash /\
  victimContract r = victim /\
  suspectAddress r = suspect /\
  NoDup (relatedContracts r) /\
  Forall (fun a => suspicious a = true /\ reason a = ["suspicious_signature"])
    (suspiciousActions r).
Proof.
  intros Hret.
  destruct (analyzeFromHack_after_create Standalone fuel hackTxHash victim suspect w)
    as (rest & Hrun & Hevolves & Hheld & _).
  rewrite Hrun in Hret |- *.
  set (w0 := (create_report C hackTxHash victim suspect w).2) in *.
  pose proof (Hheld w0 r Hret) as Hfinal.
  destruct (Hevolves w0 _ eq_refl)
    as (r' & Hr' & Hh & Hv & Hs & _ & (added & Hadded & Hall) & _ & Hnd).
  assert (r' = r) as -> by congruence.
  cbn [initial_report hackTransaction victimContract suspectAddress
         suspiciousActions relatedContracts app] in *.
  repeat split; try done.
  - apply Hnd. constructor.
  - by rewrite Hadded.
Qed.

(** [analyzeFromHack] of [smart-contract-analyzer.js] never asks anything
    of the file system and leaves the files as they were, whether it
    returns or throws. *)
Theorem standalone_run_is_offline (fuel : nat)
    (hackTxHash victim suspect : string) (w : World) :
  exists l,
    calls (analyzeFromHack U C Standalone fuel hackTxHash victim suspect w).2
      = calls w ++ l /\
    fs_requests l = [] /\
    files (analyzeFromHack U C Standalone fuel hackTxHash victim suspect w).2 = files w.
Proof.
  destruct (analyzeFromHack_after_create Standalone fuel hackTxHash victim suspect w)
    as (rest & Hrun & _ & _ & Hoff).
  rewrite Hrun. apply (offline_rel_trans w (create_report C hackTxHash victim suspect w).2).
  - by exists [DateISO].
  - by apply Hoff.
Qed.

End PipelineMore.

Lemma returned_report_invariants_witness :
  exists r,
    (analyzeFromHack Scenario.utils Incident.chain Standalone 5
       HACK_TX VICTIM_CONTRACT HACKER_ADDRESS new_analyzer).1 = Return r /\
    hackTransaction r = HACK_TX /\
    NoDup (relatedContracts r) /\
    List.length (suspiciousActions r) = 2%nat.
Proof.
  eexists. split; [vm_compute; reflexivity|].
  match goal with
  | |- hackTransaction ?r = _ /\ _ =>
    destruct (returned_report_invariants Scenario.utils Incident.chain 5
                HACK_TX VICTIM_CONTRACT HACKER_ADDRESS new_analyzer r)
      as (_ & Hh & _ & _ & Hnd & _); [vm_compute; reflexivity|]
  end.
  split; [exact Hh|]. split; [exact Hnd|]. reflexivity.
Defined.

(** ** Explorer and ledger reads *)

Section ReadsFacts.

Variable U : Web3Utils.
Variable C : Collaborators.

(** Every transaction [getContractTransactions] returns has a sender and
    a recipient that the Address Validator accepts, and the list is what
    is left of the explorer's answer, in its order. *)
Theorem fetched_transactions_are_valid
    (address : string) (w : World) (txs : list transaction) :
  (getContractTransactions U C address w).1 = Return txs ->
  Forall (fun tx => isValidAddress U (tx_from tx) = true /\
                    isValidAddress U (tx_to tx) = true) txs /\
  (txs = [] \/
   exists data,
     fetch_txlist C (List.length (calls w)) address = Ok data /\
     txlist_status data = "1" /\
     txs = List.filter
             (fun tx => isValidAddress U (tx_from tx) && isValidAddress U (tx_to tx))
             (txlist_result data)).
Proof.
  unfold getContractTransactions.
  destruct (isValidAddress U address); cbn [negb].
  - unfold bind, await.
    destruct (fetch_txlist C _ address) as [e|data] eqn:Hfetch; [done|].
    destruct (String.eqb (txlist_status data) "1") eqn:Hstatus; cbn [negb ret fst].
    + intros H. injection H as <-. split.
      * apply List.Forall_forall. intros tx Hin.
        apply filter_In in Hin as [_ Hvalid]. by apply andb_true_iff in Hvalid.
      * right. exists data. by apply String.eqb_eq in Hstatus.
    + intros H. injection H as <-. split; [constructor | by left].
  - intros H. injection H as <-. split; [constructor | by left].
Qed.

(** "No data" is not an error: an address the validator rejects gives the
    empty list without any request, and an answer of the explorer whose
    status is not ["1"] gives the empty list too. *)
Theorem no_transactions_is_not_an_error (address : string) (w : World) :
  (isValidAddress U address = false ->
   getContractTransactions U C address w = (Return [], w)) /\
  (forall data,
     isValidAddress U address = true ->
     fetch_txlist C (List.length (calls w)) address = Ok data ->
     txlist_status data <> "1" ->
     getContractTransactions U C address w
       = (Return [], log_call (FetchTxList address) w)).
Proof.
  unfold getContractTransactions. split.
  - by intros ->.
  - intros data -> Hfetch Hstatus. cbn [negb]. unfold bind, await. rewrite Hfetch.
    apply String.eqb_neq in Hstatus. by rewrite Hstatus.
Qed.

(** [isContract] of [smart-contract-analyzer.js] answers [false] for an
    address the validator rejects without asking the node; the
    checkpointing analyzer asks the node about the same address. *)
Theorem isContract_guards_invalid_address (address : string) (w : World) :
  isValidAddress U address = false ->
  isContract U C Standalone address w = (Return false, w) /\
  calls (isContract U C Checkpointing address w).2 = calls w ++ [GetCode address].
Proof.
  intros Hinvalid. unfold isContract. rewrite Hinvalid. split; [done|].
  unfold bind, await. by destruct (eth_getCode C _ address).
Qed.

(** An answer of the explorer without internal calls (a status other than
    ["1"], or no result) gives the empty list, asks the node nothing and
    leaves the report alone. *)
Theorem no_traces_is_not_an_error
    (ed : edition) (txHash : string) (w : World) (data : internal_response) :
  fetch_txlistinternal C (List.length (calls w)) txHash = Ok data ->
  internal_status data <> "1" \/ internal_result data = None ->
  getTransactionTraces U C ed txHash w
    = (Return [], log_call (FetchTxListInternal txHash) w).
Proof.
  intros Hfetch Hnone. unfold getTransactionTraces, bind, await. rewrite Hfetch.
  destruct (internal_result data) as [traces|]; [|done].
  destruct Hnone as [Hstatus|]; [|done].
  apply String.eqb_neq in Hstatus. by rewrite Hstatus.
Qed.

(** A refused read of the implementation slot: [getContractState] throws
    the error of the node after that single request, while
    [getImplementationAt] absorbs it and returns [null]. *)
Theorem refused_read_is_thrown_or_absorbed
    (address : string) (block : Z) (w : World) (e : exn) :
  eth_getStorageAt C (List.length (calls w)) address IMPLEMENTATION_SLOT block
    = Raise e ->
  getContractState U C address block w
    = (Throw e, log_call (GetStorageAt address IMPLEMENTATION_SLOT block) w) /\
  getImplementationAt U C address block w
    = (Return None, log_call (GetStorageAt address IMPLEMENTATION_SLOT block) w).
Proof.
  intros Hread. split.
  - unfold getContractState.
    by rewrite (bind_throw _ _ _ _ _ (getStorageAt_raise C _ _ _ _ _ Hread)).
  - rewrite getImplementationAt_run, Hread. reflexivity.
Qed.

End ReadsFacts.

Lemma fetched_transactions_are_valid_witness :
  (getContractTransactions Scenario.utils Incident.chain HACKER_ADDRESS
     Scenario.started).1 = Return [Incident.upgrade_tx; Incident.transfer_tx] /\
  Forall (fun tx => isValidAddress Scenario.utils (tx_from tx) = true /\
                    isValidAddress Scenario.utils (tx_to tx) = true)
    [Incident.upgrade_tx; Incident.transfer_tx].
Proof.
  assert ((getContractTransactions Scenario.utils Incident.chain HACKER_ADDRESS
             Scenario.started).1 = Return [Incident.upgrade_tx; Incident.transfer_tx])
    as Hrun by reflexivity.
  split; [exact Hrun|].
  apply (fetched_transactions_are_valid Scenario.utils Incident.chain HACKER_ADDRESS
           Scenario.started _ Hrun).
Defined.

Lemma isContract_guards_invalid_address_witness :
  isValidAddress Scenario.utils "" = false /\
  isContract Scenario.utils Incident.chain Standalone "" Scenario.started
    = (Return false, Scenario.started).
Proof.
  split; [reflexivity|].
  apply (isContract_guards_invalid_address Scenario.utils Incident.chain ""
           Scenario.started eq_refl).
Defined.

Lemma no_traces_is_not_an_error_witness :
  fetch_txlistinternal (Scenario.empty_chain 2500)
    (List.length (calls Scenario.started)) HACK_TX
    = Ok {| internal_status := "0"; internal_result := None |} /\
  getTransactionTraces Scenario.utils (Scenario.empty_chain 2500) Standalone HACK_TX
    Scenario.started
    = (Return [], log_call (FetchTxListInternal HACK_TX) Scenario.started).
Proof.
  split; [reflexivity|].
  apply (no_traces_is_not_an_error Scenario.utils (Scenario.empty_chain 2500)
           Standalone HACK_TX Scenario.started _ eq_refl).
  right. reflexivity.
Defined.

Lemma refused_read_is_thrown_or_absorbed_witness :
  eth_getStorageAt Scenario.unreachable_node (List.length (calls Scenario.started))
    VICTIM_CONTRACT IMPLEMENTATION_SLOT 99
    = Raise (TransportError "connection refused") /\
  getImplementationAt Scenario.utils Scenario.unreachable_node VICTIM_CONTRACT 99
    Scenario.started
    = (Return None,
       log_call (GetStorageAt VICTIM_CONTRACT IMPLEMENTATION_SLOT 99) Scenario.started).
Proof.
  split; [reflexivity|].
  apply (refused_read_is_thrown_or_absorbed Scenario.utils Scenario.unreachable_node
           VICTIM_CONTRACT 99 Scenario.started _ eq_refl).
Defined.

(** ** The crawl, continued *)

Section CrawlMore.

Variable U : Web3Utils.
Variable C : Collaborators.
Variable ed : edition.

(** The crawl changes the report only by appending to
    [suspiciousActions], and every analysis it appends is marked
    suspicious with the signature as its only reason; this holds however
    the crawl ends. *)
Theorem crawl_only_appends_suspicious
    (fuel : nat) (startAddress : string) (w : World) (r : report) :
  this_report w = Some r ->
  exists added,
    this_report (traceContractCalls U C ed fuel startAddress w).2
      = Some (set_suspiciousActions (suspiciousActions r ++ added) r) /\
    Forall (fun a => suspicious a = true /\ reason a = ["suspicious_signature"]) added.
Proof.
  intros Hr. unfold traceContractCalls.
  by apply (respects_crawl_loop (U := U) (R := crawl_rel) C ed fuel [startAddress] 0%nat w).
Qed.

(** A start address that the validator rejects, or that was processed
    before, ends the crawl at once: no request, no change. *)
Theorem crawl_skips_rejected_or_processed_seed
    (fuel : nat) (startAddress : string) (w : World) :
  isValidAddress U startAddress = false \/ startAddress ∈ processedContracts w ->
  traceContractCalls U C ed (S fuel) startAddress w = (Return tt, w).
Proof.
  intros Hskip. unfold traceContractCalls. cbn [crawl_loop lookup list_lookup].
  assert (crawl_loop U C ed fuel [startAddress] 1 w = (Return tt, w)) as Hend.
  { by destruct fuel. }
  destruct (isValidAddress U startAddress) eqn:Hvalid; cbn [negb]; [|exact Hend].
  destruct Hskip as [|Hin]; [done|].
  unfold bind at 1. unfold processed_has at 1.
  case_bool_decide; [exact Hend | done].
Qed.

End CrawlMore.

Lemma crawl_only_appends_suspicious_witness :
  this_report Scenario.started
    = Some (initial_report HACK_TX VICTIM_CONTRACT HACKER_ADDRESS
              "2023-11-14T22:13:20.000Z") /\
  exists added,
    (suspiciousActions <$>
       this_report (traceContractCalls Scenario.utils Incident.chain Standalone 5
                      HACKER_ADDRESS Scenario.started).2) = Some added /\
    List.length added = 2%nat.
Proof.
  split; [reflexivity|].
  destruct (crawl_only_appends_suspicious Scenario.utils Incident.chain Standalone 5
              HACKER_ADDRESS Scenario.started _ eq_refl) as (added & Hrep & _).
  exists added. rewrite Hrep. split; [reflexivity|].
  apply (f_equal (fmap (fun r => List.length (suspiciousActions r)))) in Hrep.
  vm_compute in Hrep. injection Hrep as Hlen. exact (eq_sym Hlen).
Defined.

Lemma crawl_skips_rejected_or_processed_seed_witness :
  (isValidAddress Scenario.utils "" = false \/
   "" ∈ processedContracts Scenario.started) /\
  traceContractCalls Scenario.utils Incident.chain Checkpointing 1 ""
    Scenario.started = (Return tt, Scenario.started).
Proof.
  assert (isValidAddress Scenario.utils "" = false \/
          "" ∈ processedContracts Scenario.started) as Hskip by (by left).
  split; [exact Hskip|].
  apply (crawl_skips_rejected_or_processed_seed Scenario.utils Incident.chain
           Checkpointing 0 "" Scenario.started Hskip).
Defined.

(** ** Trace analyzer *)

Section TraceFacts.

Variable U : Web3Utils.
Variable C : Collaborators.
Variable ed : edition.

Lemma analyzeTraces_loop_shape (traces : list trace_record) :
  forall (done : list analyzed_trace) (w : World) (out : list analyzed_trace),
    (analyzeTraces_loop U C ed traces done w).1 = Return out ->
    exists new, out = done ++ new /\ Forall2 analyses traces new.
Proof.
  induction traces as [|trace rest IH]; intros acc w out; cbn [analyzeTraces_loop].
  - intros H. injection H as <-. exists []. by rewrite app_nil_r.
  - unfold bind at 1. destruct (isContract U C ed (tr_from trace) w) as [[isFrom|e|] w1];
      [|done|done].
    unfold bind at 1. destruct (isContract U C ed (tr_to trace) w1) as [[isTo|e|] w2];
      [|done|done].
    unfold bind at 1.
    destruct ((if isFrom then related_add (tr_from trace) else ret tt) w2)
      as [[[]|e|] w3]; [|done|done].
    unfold bind at 1.
    destruct ((if isTo then related_add (tr_to trace) else ret tt) w3)
      as [[[]|e|] w4]; [|done|done].
    intros Hrest. apply IH in Hrest as (new & -> & Hall).
    eexists (_ :: new). split; [by rewrite <- app_assoc|].
    constructor; [|exact Hall].
    repeat split. cbn [at_type]. destruct isFrom, isTo; set_solver.
Qed.

(** When [analyzeTraces] returns, it gives one analysed step per internal
    call, in order: sender, recipient, value and input are copied, the
    step is suspicious exactly when its input starts with a critical
    selector, and its type is one of the four caller/callee kinds. *)
Theorem analyzed_traces_follow_the_calls
    (traces : list trace_record) (w : World) (out : list analyzed_trace) :
  (analyzeTraces U C ed traces w).1 = Return out ->
  Forall2 analyses traces out.
Proof.
  intros Hrun. unfold analyzeTraces in Hrun.
  apply analyzeTraces_loop_shape in Hrun as (new & -> & Hall). exact Hall.
Qed.

Lemma set_relatedContracts_same (r : report) :
  set_relatedContracts (relatedContracts r ++ []) r = r.
Proof. destruct r. cbn. by rewrite app_nil_r. Qed.

Lemma grows_related_same (allowed : string -> Prop) (w w' : World) :
  this_report w' = this_report w -> grows_related allowed w w'.
Proof.
  intros Heq r Hr. exists []. rewrite set_relatedContracts_same, app_nil_r.
  split; [congruence|]. split; [done | constructor].
Qed.

Lemma grows_related_trans (allowed : string -> Prop) (w1 w2 w3 : World) :
  grows_related allowed w1 w2 -> grows_related allowed w2 w3 ->
  grows_related allowed w1 w3.
Proof.
  intros H12 H23 r1 Hr1.
  destruct (H12 r1 Hr1) as (m1 & Hr2 & Hn1 & Ha1).
  destruct (H23 _ Hr2) as (m2 & Hr3 & Hn2 & Ha2).
  exists (m1 ++ m2). rewrite Hr3. destruct r1; cbn in *.
  rewrite app_assoc. split; [done|]. split; [auto | by apply Forall_app].
Qed.

Lemma grows_related_add (allowed : string -> Prop) (x : string) (w : World) :
  allowed x -> grows_related allowed w (related_add x w).2.
Proof.
  intros Hx r Hr. unfold related_add, modify_report, bind, get_report. rewrite Hr.
  cbn [snd this_report set_report]. unfold set_add. case_bool_decide as Hin.
  - exists []. rewrite app_nil_r. split; [done|]. split; [done | constructor].
  - exists [x]. split; [done|]. split; [|by repeat constructor].
    intros Hnd. apply NoDup_app. repeat split; [done | | apply NoDup_singleton].
    intros y Hy Hy'. apply list_elem_of_singleton in Hy'. by subst y.
Qed.

(** [isContract] leaves the report alone; in [smart-contract-analyzer.js]
    it says yes only for an address the validator accepts. *)
Lemma isContract_answer (address : string) (w : World) :
  this_report (isContract U C ed address w).2 = this_report w /\
  ((isContract U C ed address w).1 = Return true ->
   ed = Standalone -> isValidAddress U address = true).
Proof.
  unfold isContract, bind, await. destruct ed.
  - destruct (isValidAddress U address); cbn [negb]; [|done].
    by destruct (eth_getCode C _ address).
  - by destruct (eth_getCode C _ address).
Qed.

Lemma party_of_cons (trace : trace_record) (rest : list trace_record) (x : string) :
  party_of U ed rest x -> party_of U ed (trace :: rest) x.
Proof. intros [(t & Hin & Hx) Hv]. split; [|done]. exists t. set_solver. Qed.

Lemma analyzeTraces_loop_related (traces : list trace_record) :
  forall (done : list analyzed_trace) (w : World),
    grows_related (party_of U ed traces) w (analyzeTraces_loop U C ed traces done w).2.
Proof.
  induction traces as [|trace rest IH]; intros acc w; cbn [analyzeTraces_loop].
  - by apply grows_related_same.
  - destruct (isContract_answer (tr_from trace) w) as [Hk1 Hv1].
    unfold bind at 1.
    destruct (isContract U C ed (tr_from trace) w) as [[isFrom|e|] w1];
      cbn [fst snd] in *; [|by apply grows_related_same|by apply grows_related_same].
    apply (grows_related_trans _ w w1); [by apply grows_related_same|].
    destruct (isContract_answer (tr_to trace) w1) as [Hk2 Hv2].
    unfold bind at 1.
    destruct (isContract U C ed (tr_to trace) w1) as [[isTo|e|] w2];
      cbn [fst snd] in *; [|by apply grows_related_same|by apply grows_related_same].
    apply (grows_related_trans _ w1 w2); [by apply grows_related_same|].
    assert (grows_related (party_of U ed (trace :: rest)) w2
              ((if isFrom then related_add (tr_from trace) else ret tt) w2).2) as H3.
    { destruct isFrom; [|by apply grows_related_same].
      apply grows_related_add. split; [exists trace; set_solver | auto]. }
    unfold bind at 1.
    destruct ((if isFrom then related_add (tr_from trace) else ret tt) w2)
      as [[[]|e|] w3]; cbn [snd] in H3; [|done|done].
    apply (grows_related_trans _ w2 w3); [done|].
    assert (grows_related (party_of U ed (trace :: rest)) w3
              ((if isTo then related_add (tr_to trace) else ret tt) w3).2) as H4.
    { destruct isTo; [|by apply grows_related_same].
      apply grows_related_add. split; [exists trace; set_solver | auto]. }
    unfold bind at 1.
    destruct ((if isTo then related_add (tr_to trace) else ret tt) w3)
      as [[[]|e|] w4]; cbn [snd] in H4; [|done|done].
    apply (grows_related_trans _ w3 w4); [done|].
    intros r Hr.
    match goal with
    | |- context [analyzeTraces_loop U C ed rest ?acc' w4] =>
      destruct (IH acc' w4 r Hr) as (more & Hrep & Hnd & Hall)
    end.
    exists more. split; [done|]. split; [done|].
    eapply List.Forall_impl; [|exact Hall]. intros x. apply party_of_cons.
Qed.

(** The trace analyzer changes the report only by adding addresses at the
    end of [relatedContracts]: each is the sender or the recipient of one
    of the internal calls (and, in [smart-contract-analyzer.js], accepted
    by the validator), and the set stays free of duplicates. *)
Theorem traces_only_grow_relatedContracts
    (traces : list trace_record) (w : World) (r : report) :
  this_report w = Some r ->
  exists more,
    this_report (analyzeTraces U C ed traces w).2
      = Some (set_relatedContracts (relatedContracts r ++ more) r) /\
    (NoDup (relatedContracts r) -> NoDup (relatedContracts r ++ more)) /\
    Forall (party_of U ed traces) more.
Proof. intros Hr. by apply (analyzeTraces_loop_related traces [] w r). Qed.

End TraceFacts.

Lemma analyzed_traces_follow_the_calls_witness :
  (analyzeTraces Scenario.utils Incident.chain Standalone [Incident.upgrade_trace]
     Scenario.started).1
    = Return [ {| at_from := VICTIM_CONTRACT; at_to := Incident.BYSTANDER;
                  at_value := "0"; at_input := Some Incident.upgrade_input;
                  at_suspicious := true; at_type := "contract-to-eoa" |} ] /\
  Forall2 analyses [Incident.upgrade_trace]
    [ {| at_from := VICTIM_CONTRACT; at_to := Incident.BYSTANDER;
         at_value := "0"; at_input := Some Incident.upgrade_input;
         at_suspicious := true; at_type := "contract-to-eoa" |} ].
Proof.
  assert ((analyzeTraces Scenario.utils Incident.chain Standalone [Incident.upgrade_trace]
             Scenario.started).1
          = Return [ {| at_from := VICTIM_CONTRACT; at_to := Incident.BYSTANDER;
                        at_value := "0"; at_input := Some Incident.upgrade_input;
                        at_suspicious := true; at_type := "contract-to-eoa" |} ])
    as Hrun by reflexivity.
  split; [exact Hrun|].
  apply (analyzed_traces_follow_the_calls Scenario.utils Incident.chain Standalone
           [Incident.upgrade_trace] Scenario.started _ Hrun).
Defined.

Lemma traces_only_grow_relatedContracts_witness :
  this_report Scenario.started
    = Some (initial_report HACK_TX VICTIM_CONTRACT HACKER_ADDRESS
              "2023-11-14T22:13:20.000Z") /\
  (relatedContracts <$>
     this_report (analyzeTraces Scenario.utils Incident.chain Standalone
                    [Incident.upgrade_trace] Scenario.started).2)
    = Some [VICTIM_CONTRACT].
Proof.
  split; [reflexivity|].
  destruct (traces_only_grow_relatedContracts Scenario.utils Incident.chain Standalone
              [Incident.upgrade_trace] Scenario.started _ eq_refl)
    as (more & Hrep & _).
  rewrite Hrep. vm_compute in Hrep. injection Hrep as Hmore.
  cbn [fmap option_fmap option_map relatedContracts set_relatedContracts].
  by rewrite <- Hmore.
Defined.

(** ** Victim-contract analysis *)

Lemma all_results_ok {A B} (f : A -> result B) (l : list A) (ys : list B) :
  all_results f l = Ok ys -> Forall2 (fun x y => f x = Ok y) l ys.
Proof.
  revert ys. induction l as [|x l IH]; intros ys; cbn [all_results].
  - intros H. injection H as <-. constructor.
  - destruct (f x) as [e|y] eqn:Hx; [done|].
    destruct (all_results f l) as [e|ys']; [done|].
    intros H. injection H as <-. constructor; [done | by apply IH].
Qed.

Lemma all_results_raise {A B} (f : A -> result B) (l : list A) :
  Exists (fun x => exists e, f x = Raise e) l -> exists e, all_results f l = Raise e.
Proof.
  intros Hex. induction Hex as [x l (e & He)|x l Hex (e & IH)]; cbn [all_results].
  - rewrite He. by eexists.
  - destruct (f x) as [e'|y]; [by eexists|]. rewrite IH. by eexists.
Qed.

Section VictimFacts.

Variable U : Web3Utils.
Variable C : Collaborators.
Variable ed : edition.

(** When [analyzeVictimContract] returns, the report has changed by its
    [victimAnalysis] alone ([suspiciousActions] is not touched), and every
    transaction kept there is marked suspicious with the signature as its
    only reason; [processedContracts] is as before. *)
Theorem victim_analysis_keeps_only_suspicious
    (contractAddress : string) (w : World) (r : report) :
  (analyzeVictimContract U C ed contractAddress w).1 = Return tt ->
  this_report w = Some r ->
  exists v,
    this_report (analyzeVictimContract U C ed contractAddress w).2
      = Some (set_victimAnalysis v r) /\
    Forall (fun a => suspicious a = true /\ reason a = ["suspicious_signature"])
      (va_transactions v) /\
    processedContracts (analyzeVictimContract U C ed contractAddress w).2
      = processedContracts w.
Proof.
  unfold analyzeVictimContract. intros Hrun Hr.
  unfold bind, await in *.
  destruct (eth_getCode C _ contractAddress) as [e|code]; [done|].
  cbn [fst snd] in *.
  set (w1 := log_call (GetCode contractAddress) w) in *.
  assert (this_report (getContractTransactions U C contractAddress w1).2 = Some r /\
          processedContracts (getContractTransactions U C contractAddress w1).2
            = processedContracts w) as [Hr2 Hp2].
  { unfold getContractTransactions.
    destruct (isValidAddress U contractAddress); cbn [negb]; [|done].
    unfold bind, await. destruct (fetch_txlist C _ contractAddress) as [e|data]; [done|].
    by destruct (negb (String.eqb (txlist_status data) "1")). }
  destruct (getContractTransactions U C contractAddress w1) as [[txs|e|] w2];
    [|done|done].
  cbn [snd] in Hr2, Hp2.
  destruct (all_results (analyzeSingleTransaction U ed) txs) as [e|analyzed] eqn:Hall;
    [done|].
  cbn [lift ret] in *. unfold modify_report, bind, get_report. rewrite Hr2.
  eexists. split; [reflexivity|]. split; [|exact Hp2].
  cbn [va_transactions]. apply List.Forall_forall. intros a Hin.
  apply filter_In in Hin as [Hin Hs].
  apply all_results_ok in Hall.
  apply list_elem_of_In, list_elem_of_lookup in Hin as (i & Hi).
  destruct (Forall2_lookup_r _ _ _ _ _ Hall Hi) as (tx & _ & Htx).
  destruct (analysis_flag U ed tx a Htx) as (_ & Hreason & _).
  rewrite Hs in Hreason. by split.
Qed.

End VictimFacts.

Lemma victim_analysis_keeps_only_suspicious_witness :
  (analyzeVictimContract Scenario.utils Incident.chain Standalone VICTIM_CONTRACT
     Scenario.started).1 = Return tt /\
  this_report Scenario.started
    = Some (initial_report HACK_TX VICTIM_CONTRACT HACKER_ADDRESS
              "2023-11-14T22:13:20.000Z") /\
  exists v,
    this_report (analyzeVictimContract Scenario.utils Incident.chain Standalone
                   VICTIM_CONTRACT Scenario.started).2
      = Some (set_victimAnalysis v
                (initial_report HACK_TX VICTIM_CONTRACT HACKER_ADDRESS
                   "2023-11-14T22:13:20.000Z")) /\
    Forall (fun a => suspicious a = true /\ reason a = ["suspicious_signature"])
      (va_transactions v) /\
    processedContracts (analyzeVictimContract Scenario.utils Incident.chain Standalone
                          VICTIM_CONTRACT Scenario.started).2
      = processedContracts Scenario.started.
Proof.
  split; [reflexivity|]. split; [reflexivity|].
  apply (victim_analysis_keeps_only_suspicious Scenario.utils Incident.chain Standalone
           VICTIM_CONTRACT Scenario.started _ eq_refl eq_refl).
Defined.

(** ** Implementation-history sampler, continued *)

Section SamplerMore.

Variable U : Web3Utils.
Variable C : Collaborators.

Lemma sample_loop_history (latest : Z) (r : report) (fuel : nat) :
  forall (current : Z) (impls impls' : list sighting) (w : World),
    (1000 | current) ->
    this_report w = Some r ->
    (sample_loop U C fuel current latest impls w).1 = Return impls' ->
    exists more,
      impls' = impls ++ more /\
      Forall (fun s => current <= blockNumber s < latest /\
                       (1000 | blockNumber s) /\
                       recorded U s) more /\
      StronglySorted Z.lt (blockNumber <$> more) /\
      this_report (sample_loop U C fuel current latest impls w).2 = Some r.
Proof.
  induction fuel as [|fuel IH]; intros current impls impls' w Hdiv Hr; cbn [sample_loop];
    destruct (current <? latest) eqn:Hlt.
  - done.
  - intros H. injection H as <-. exists []. rewrite app_nil_r.
    repeat split; try done; constructor.
  - rewrite (bind_return _ _ _ _ _ (get_report_set w r Hr)).
    rewrite (bind_return _ _ _ _ _ (getImplementationAt_run U C (victimContract r) current w)).
    set (w1 := log_call _ w).
    intros Hrun.
    match type of Hrun with
    | (sample_loop U C fuel _ latest ?acc w1).1 = _ =>
      destruct (IH (current + 1000) acc impls' w1) as (more & Himpls & Hall & Hsorted & Hr');
        [by apply Z.divide_add_r | exact Hr | exact Hrun |]
    end.
    assert (Forall (fun s => current <= blockNumber s < latest /\
                             (1000 | blockNumber s) /\ recorded U s) more) as Hall'.
    { eapply Forall_impl; [exact Hall|]. cbn beta. intros s (Hs & Hd & Hrec).
      split; [lia|]. by split. }
    destruct (sampled_implementation U _) as [i|] eqn:Himpl.
    + destruct (Js.truthy i) eqn:Htruthy.
      * eexists (_ :: more). rewrite Himpls, <- app_assoc. split; [reflexivity|].
        split; [|split; [|exact Hr']].
        -- constructor; [|exact Hall'].
           cbn [blockNumber sighting_implementation].
           split; [lia|]. split; [done|]. split; [done|].
           cbn [sighting_implementation].
           unfold sampled_implementation in Himpl.
           destruct (eth_getStorageAt C _ _ _ _) as [e|word]; [done|].
           destruct (Js.truthy word && negb (String.eqb word ZERO_ADDRESS)) eqn:Hword;
             [|done].
           destruct (normalizeAddress U word) as [e|a] eqn:Hnorm; [done|].
           injection Himpl as ->. exists word.
           apply andb_true_iff in Hword as [_ Hnz]. apply negb_true_iff in Hnz.
           apply String.eqb_neq in Hnz. done.
        -- cbn [fmap list_fmap blockNumber]. constructor; [exact Hsorted|].
           apply List.Forall_forall. intros b Hb.
           apply list_elem_of_In, list_elem_of_fmap in Hb as (s & -> & Hs).
           rewrite List.Forall_forall in Hall.
           apply list_elem_of_In in Hs. specialize (Hall s Hs). lia.
      * exists more. by rewrite Himpls.
    + exists more. by rewrite Himpls.
  - intros H. injection H as <-. exists []. rewrite app_nil_r.
    repeat split; try done; constructor.
Qed.

(** When [analyzeImplementationHistory] returns, the report has changed by
    its [implementationHistory] alone, and the history is in strictly
    increasing block order, at multiples of 1000 below the block number the
    node gave; each implementation in it is a non-empty string, the
    checksum form of a storage word. *)
Theorem history_is_sorted_and_strided (fuel : nat) (w : World) (r : report) :
  (analyzeImplementationHistory U C fuel w).1 = Return tt ->
  this_report w = Some r ->
  exists latest h,
    eth_getBlockNumber C (List.length (calls w)) = Ok latest /\
    this_report (analyzeImplementationHistory U C fuel w).2
      = Some (set_implementationHistory h r) /\
    Forall (fun s => 0 <= blockNumber s < latest /\
                     (1000 | blockNumber s) /\
                     recorded U s) h /\
    StronglySorted Z.lt (blockNumber <$> h).
Proof.
  unfold analyzeImplementationHistory. intros Hrun Hr.
  unfold bind at 1 in Hrun. unfold bind at 1. unfold await in *.
  destruct (eth_getBlockNumber C _) as [e|latest]; [done|].
  set (w1 := log_call GetBlockNumber w) in *.
  unfold bind at 1 in Hrun. unfold bind at 1.
  pose proof (sample_loop_history latest r fuel 0 [] ) as Hloop.
  destruct (sample_loop U C fuel 0 latest [] w1) as [[h|e|] w2] eqn:Hsample;
    [|done|done].
  destruct (Hloop h w1) as (more & Hh & Hall & Hsorted & Hr2);
    [by exists 0 | exact Hr | by rewrite Hsample |].
  rewrite Hsample in Hr2. cbn [snd app] in Hr2, Hh. subst more.
  exists latest, h. split; [done|].
  unfold modify_report, bind, get_report. rewrite Hr2. by repeat split.
Qed.

End SamplerMore.

Lemma history_is_sorted_and_strided_witness :
  (analyzeImplementationHistory Scenario.utils Incident.chain 5 Scenario.started).1
    = Return tt /\
  this_report Scenario.started
    = Some (initial_report HACK_TX VICTIM_CONTRACT HACKER_ADDRESS
              "2023-11-14T22:13:20.000Z") /\
  exists h,
    (implementationHistory <$>
       this_report (analyzeImplementationHistory Scenario.utils Incident.chain 5
                      Scenario.started).2) = Some (Some h) /\
    blockNumber <$> h = [0; 1000; 2000] /\
    StronglySorted Z.lt (blockNumber <$> h).
Proof.
  split; [reflexivity|]. split; [reflexivity|].
  destruct (history_is_sorted_and_strided Scenario.utils Incident.chain 5
              Scenario.started _ eq_refl eq_refl)
    as (latest & h & _ & Hrep & _ & Hsorted).
  exists h. rewrite Hrep. split; [reflexivity|]. split; [|exact Hsorted].
  apply (f_equal (fmap (fun r => from_option (fmap blockNumber) []
                                   (implementationHistory r)))) in Hrep.
  vm_compute in Hrep. injection Hrep as Hb. exact (eq_sym Hb).
Defined.

(** ** The hack transaction *)

Lemma obj_get_set (k : string) (v : jsval) (o : list (string * jsval)) :
  obj_get k (obj_set k v o) = v.
Proof.
  induction o as [|[k' v'] o IH]; cbn [obj_set obj_get].
  - by rewrite String.eqb_refl.
  - destruct (String.eqb k' k) eqn:Hk; cbn [obj_get]; rewrite ?String.eqb_refl, ?Hk; done.
Qed.

Lemma obj_get_set_other (k k' : string) (v : jsval) (o : list (string * jsval)) :
  k <> k' -> obj_get k (obj_set k' v o) = obj_get k o.
Proof.
  intros Hne. induction o as [|[k0 v0] o IH]; cbn [obj_set obj_get].
  - assert (String.eqb k' k = false) as -> by (apply String.eqb_neq; congruence). done.
  - destruct (String.eqb k0 k') eqn:Hk; cbn [obj_get].
    + apply String.eqb_eq in Hk as ->.
      assert (String.eqb k' k = false) as -> by (apply String.eqb_neq; congruence). done.
    + by destruct (String.eqb k0 k).
Qed.

Section HackFacts.

Variable U : Web3Utils.
Variable C : Collaborators.
Variable ed : edition.

Lemma getStorageAt_at_keeps_analyzer (address slot : string) (block : Js.number)
    (w : World) :
  this_report (getStorageAt_at C address slot block w).2 = this_report w.
Proof.
  destruct block as [b|negative]; unfold getStorageAt_at, getStorageAt, await.
  - by destruct (eth_getStorageAt C _ _ _ _).
  - by destruct (eth_getStorageAt_infinity C _ _ _ _).
Qed.

Lemma getContractState_keeps_analyzer (address : string) (block : Js.number)
    (w : World) :
  this_report (getContractState_at U C address block w).2 = this_report w.
Proof.
  unfold getContractState_at. unfold bind at 1.
  pose proof (getStorageAt_at_keeps_analyzer address IMPLEMENTATION_SLOT block w) as H1.
  destruct (getStorageAt_at C address IMPLEMENTATION_SLOT block w)
    as [[implementation|e|] w1]; cbn [snd] in *; [|done|done].
  unfold bind at 1.
  pose proof (getStorageAt_at_keeps_analyzer address ADMIN_SLOT block w1) as H2.
  destruct (getStorageAt_at C address ADMIN_SLOT block w1)
    as [[admin|e|] w2]; cbn [snd] in *; [|congruence|congruence].
  unfold bind, lift.
  destruct (normalizeAddress U implementation) as [e|i]; [cbn; congruence|].
  destruct (normalizeAddress U admin) as [e|a]; cbn; congruence.
Qed.

(** A transaction hash the node has no receipt for stops
    [analyzeHackTransaction] with a [TypeError] after the two reads of the
    node: the explorer is not asked, no storage is read, and the analyzer is
    as before. *)
Theorem missing_receipt_stops_hack_analysis
    (txHash : string) (w : World) (tx : option ledger_tx) :
  eth_getTransaction C (List.length (calls w)) txHash = Ok tx ->
  eth_getTransactionReceipt C (S (List.length (calls w))) txHash = Ok None ->
  analyzeHackTransaction U C ed txHash w
    = (Throw (TypeError "Cannot read properties of null (reading 'logs')"),
       log_call (GetTransactionReceipt txHash) (log_call (GetTransaction txHash) w)).
Proof.
  intros Htx Hreceipt. unfold analyzeHackTransaction, bind, await.
  rewrite Htx. cbn [calls log_call]. rewrite length_app. cbn [List.length].
  rewrite Nat.add_1_r, Hreceipt. reflexivity.
Qed.

Lemma analyzeHackTransaction_report (txHash : string) (w : World) (r : report) :
  this_report w = Some r ->
  exists more,
    match analyzeHackTransaction U C ed txHash w with
    | (Return _, w') =>
      exists t rc d,
        eth_getTransaction C (List.length (calls w)) txHash = Ok (Some t) /\
        eth_getTransactionReceipt C (S (List.length (calls w))) txHash = Ok (Some rc) /\
        this_report w'
          = Some (set_hackDetails d
                    (set_relatedContracts (relatedContracts r ++ more) r)) /\
        hd_transaction d
          = obj_set "gasPrice" (JString (fromWei U (pretty (ltx_gasPrice t)) "gwei"))
              (obj_set "gas" (js_number (Js.Number (ltx_gas t)))
                 (obj_set "blockNumber" (js_number (Js.Number (ltx_blockNumber t)))
                    (obj_set "value" (JString (fromWei U (pretty (ltx_value t)) "ether"))
                       (ltx_props t)))) /\
        hd_receipt d
          = obj_set "gasUsed" (js_number (Js.Number (rc_gasUsed rc)))
              (obj_set "blockNumber" (js_number (Js.Number (rc_blockNumber rc)))
                 (rc_props rc)) /\
        hd_logs d = decodeLogs U (rc_logs rc)
    | (_, w') =>
      this_report w' = Some (set_relatedContracts (relatedContracts r ++ more) r)
    end.
Proof.
  intros Hr. unfold analyzeHackTransaction.
  assert (this_report w = Some (set_relatedContracts (relatedContracts r ++ []) r))
    as Hsame by (by rewrite set_relatedContracts_same).
  unfold bind at 1. unfold await at 1.
  destruct (eth_getTransaction C _ txHash) as [e|tx]; [exists []; exact Hsame|].
  unfold bind at 1. unfold await at 1.
  replace (List.length (calls (log_call (GetTransaction txHash) w)))
    with (S (List.length (calls w)))
    by (cbn [calls log_call]; rewrite length_app, Nat.add_1_r; reflexivity).
  destruct (eth_getTransactionReceipt C _ txHash) as [e|[rc|]];
    [exists []; exact Hsame | | exists []; exact Hsame].
  set (w2 := log_call _ (log_call _ w)).
  assert (this_report w2 = Some r) as Hr2 by done.
  unfold bind at 1.
  assert (exists more,
            this_report (getTransactionTraces U C ed txHash w2).2
              = Some (set_relatedContracts (relatedContracts r ++ more) r))
    as (more & Hr3).
  { assert (this_report w2 = Some (set_relatedContracts (relatedContracts r ++ []) r))
      as Hsame2 by (by rewrite set_relatedContracts_same).
    unfold getTransactionTraces, bind, await.
    destruct (fetch_txlistinternal C _ txHash) as [e|data]; [exists []; exact Hsame2|].
    set (w3 := log_call _ w2).
    destruct (internal_result data) as [traces|]; [|exists []; exact Hsame2].
    destruct (String.eqb (internal_status data) "1"); [|exists []; exact Hsame2].
    destruct (analyzeTraces_loop_related U C ed traces [] w3 r Hr2)
      as (more & Hmore & _).
    by exists more. }
  exists more.
  destruct (getTransactionTraces U C ed txHash w2) as [[traces|e|] w3];
    cbn [fst snd] in *; [|done|done].
  unfold bind at 1. unfold get_report at 1. rewrite Hr3.
  unfold bind at 1.
  pose proof (getContractState_keeps_analyzer
                (victimContract (set_relatedContracts (relatedContracts r ++ more) r))
                (Js.minus_one (Js.Number (rc_blockNumber rc))) w3) as Hr4.
  rewrite Hr3 in Hr4.
  destruct (getContractState_at U C _ (Js.minus_one _) w3) as [[before|e|] w4];
    cbn [fst snd] in *; [|done|done].
  unfold bind at 1. unfold get_report at 1. rewrite Hr4.
  unfold bind at 1.
  pose proof (getContractState_keeps_analyzer
                (victimContract (set_relatedContracts (relatedContracts r ++ more) r))
                (Js.Number (rc_blockNumber rc)) w4) as Hr5.
  rewrite Hr4 in Hr5.
  destruct (getContractState_at U C _ (Js.Number _) w4) as [[after|e|] w5];
    cbn [fst snd] in *; [|done|done].
  destruct tx as [t|]; [|done].
  unfold modify_report, bind, get_report. rewrite Hr5.
  by eexists t, rc, _.
Qed.

(** What [analyzeHackTransaction] does to the report: [hackDetails] is
    assigned when it returns and only then; apart from that, addresses may
    have been added at the end of [relatedContracts], and nothing else
    changes.  It returns only when the node has the transaction. *)
Theorem hackDetails_assigned_on_return_only
    (txHash : string) (w : World) (r : report) :
  this_report w = Some r ->
  exists more,
    match (analyzeHackTransaction U C ed txHash w).1 with
    | Return _ =>
      exists t d,
        eth_getTransaction C (List.length (calls w)) txHash = Ok (Some t) /\
        this_report (analyzeHackTransaction U C ed txHash w).2
          = Some (set_hackDetails d
                    (set_relatedContracts (relatedContracts r ++ more) r))
    | _ =>
      this_report (analyzeHackTransaction U C ed txHash w).2
        = Some (set_relatedContracts (relatedContracts r ++ more) r)
    end.
Proof.
  intros Hr. destruct (analyzeHackTransaction_report txHash w r Hr) as (more & Hrun).
  exists more. destruct (analyzeHackTransaction U C ed txHash w) as [[[]|e|] w'];
    [|done|done].
  destruct Hrun as (t & rc & d & Ht & _ & Hrep & _). by exists t, d.
Qed.

(** At a finite block number, [getContractState_at] is
    [getContractState]. *)
Lemma getContractState_at_finite (address : string) (block : Z) :
  getContractState_at U C address (Js.Finite block) = getContractState U C address block.
Proof. reflexivity. Qed.

(** Beyond [2^53] [Number] rounds to the nearest double, ties to the even
    significand, and gives an infinity from [2^1024 - 2^970] on. *)
Example Number_rounds :
  Js.Number (2 ^ 53 + 1) = Js.Finite (2 ^ 53) /\
  Js.Number (2 ^ 53 + 3) = Js.Finite (2 ^ 53 + 4) /\
  Js.Number (- (2 ^ 53 + 1)) = Js.Finite (- 2 ^ 53) /\
  Js.minus_one (Js.Finite (2 ^ 53 + 2)) = Js.Finite (2 ^ 53) /\
  Js.Number (2 ^ 1024 - 2 ^ 970 - 1) = Js.Finite (2 ^ 1024 - 2 ^ 971) /\
  Js.Number (2 ^ 1024 - 2 ^ 970) = Js.Infinite false.
Proof. repeat split; vm_compute; reflexivity. Qed.

(** [Number] is exact on the integers a double holds exactly. *)
Lemma Number_safe_integer (n : Z) :
  - 2 ^ 53 <= n <= 2 ^ 53 -> Js.Number n = Js.Finite n.
Proof.
  intros Hn. unfold Js.Number.
  assert (Js.round_magnitude (Z.abs n) = Z.abs n) as ->.
  { unfold Js.round_magnitude.
    destruct (decide (Z.abs n = 2 ^ 53)) as [->|Hne]; [by vm_compute|].
    assert (Z.log2 (Z.abs n) - 52 <= 0) as Hdrop.
    { destruct (decide (Z.abs n <= 0)) as [Hle|Hpos].
      - assert (Z.abs n = 0) as -> by lia. by vm_compute.
      - assert (Z.log2 (Z.abs n) < 53); [|lia].
        apply Z.log2_lt_pow2; lia. }
    apply Z.leb_le in Hdrop. by rewrite Hdrop. }
  assert (2 ^ 53 < Z.shiftl 1 1024) as Hbig by (by vm_compute).
  assert ((Z.shiftl 1 1024 <=? Z.abs n) = false) as -> by (apply Z.leb_gt; lia).
  f_equal. destruct n; cbn [Z.sgn Z.abs]; lia.
Qed.

(** In the [hackDetails] of a run that returned, the transaction and the
    receipt are the node's objects with the numeric fields overridden:
    [value] and [gasPrice] are the strings of [fromWei]; [blockNumber],
    [gas] and [gasUsed] are [Number] of the node's [bigint], the nearest
    double, which is the integer itself up to [2^53]; every other property
    reads as the node gave it, and the logs are the decoded logs of the
    receipt. *)
Theorem hackDetails_override_the_numeric_fields
    (txHash : string) (w : World) (r : report) :
  (analyzeHackTransaction U C ed txHash w).1 = Return tt ->
  this_report w = Some r ->
  exists t rc d,
    eth_getTransaction C (List.length (calls w)) txHash = Ok (Some t) /\
    eth_getTransactionReceipt C (S (List.length (calls w))) txHash = Ok (Some rc) /\
    hackDetails <$> this_report (analyzeHackTransaction U C ed txHash w).2
      = Some (Some d) /\
    obj_get "value" (hd_transaction d)
      = JString (fromWei U (pretty (ltx_value t)) "ether") /\
    obj_get "gasPrice" (hd_transaction d)
      = JString (fromWei U (pretty (ltx_gasPrice t)) "gwei") /\
    obj_get "blockNumber" (hd_transaction d)
      = js_number (Js.Number (ltx_blockNumber t)) /\
    obj_get "gas" (hd_transaction d) = js_number (Js.Number (ltx_gas t)) /\
    (forall k, k ∉ ["value"; "blockNumber"; "gas"; "gasPrice"] ->
               obj_get k (hd_transaction d) = obj_get k (ltx_props t)) /\
    obj_get "blockNumber" (hd_receipt d)
      = js_number (Js.Number (rc_blockNumber rc)) /\
    obj_get "gasUsed" (hd_receipt d) = js_number (Js.Number (rc_gasUsed rc)) /\
    (forall k, k ∉ ["blockNumber"; "gasUsed"] ->
               obj_get k (hd_receipt d) = obj_get k (rc_props rc)) /\
    hd_logs d = decodeLogs U (rc_logs rc) /\
    (forall n, - 2 ^ 53 <= n <= 2 ^ 53 -> js_number (Js.Number n) = JNumber n).
Proof.
  intros Hret Hr.
  destruct (analyzeHackTransaction_report txHash w r Hr) as (more & Hrun).
  destruct (analyzeHackTransaction U C ed txHash w) as [[[]|e|] w']; [|done|done].
  destruct Hrun as (t & rc & d & Ht & Hrc & Hrep & Htx & Hreceipt & Hlogs).
  exists t, rc, d. cbn [snd]. rewrite Hrep, Htx, Hreceipt.
  split; [done|]. split; [done|]. split; [done|].
  split; [by rewrite !obj_get_set_other, obj_get_set by done|].
  split; [by rewrite obj_get_set|].
  split; [by rewrite !obj_get_set_other, obj_get_set by done|].
  split; [by rewrite !obj_get_set_other, obj_get_set by done|].
  split.
  { intros k Hk. rewrite !obj_get_set_other; [done|..]; set_solver. }
  split; [by rewrite !obj_get_set_other, obj_get_set by done|].
  split; [by rewrite obj_get_set|].
  split; [|split; [done|]].
  - intros k Hk. rewrite !obj_get_set_other; [done|..]; set_solver.
  - intros n Hn. by rewrite Number_safe_integer.
Qed.

End HackFacts.

Lemma missing_receipt_stops_hack_analysis_witness :
  eth_getTransaction (Scenario.empty_chain 2500)
    (List.length (calls Scenario.started)) HACK_TX = Ok None /\
  eth_getTransactionReceipt (Scenario.empty_chain 2500)
    (S (List.length (calls Scenario.started))) HACK_TX = Ok None /\
  analyzeHackTransaction Scenario.utils (Scenario.empty_chain 2500) Standalone HACK_TX
    Scenario.started
    = (Throw (TypeError "Cannot read properties of null (reading 'logs')"),
       log_call (GetTransactionReceipt HACK_TX)
         (log_call (GetTransaction HACK_TX) Scenario.started)).
Proof.
  split; [reflexivity|]. split; [reflexivity|].
  apply (missing_receipt_stops_hack_analysis Scenario.utils (Scenario.empty_chain 2500)
           Standalone HACK_TX Scenario.started None eq_refl eq_refl).
Defined.

Lemma hackDetails_assigned_on_return_only_witness :
  this_report Scenario.started
    = Some (initial_report HACK_TX VICTIM_CONTRACT HACKER_ADDRESS
              "2023-11-14T22:13:20.000Z") /\
  exists more,
    match (analyzeHackTransaction Scenario.utils Incident.chain Standalone HACK_TX
             Scenario.started).1 with
    | Return _ =>
      exists t d,
        eth_getTransaction Incident.chain (List.length (calls Scenario.started)) HACK_TX
          = Ok (Some t) /\
        this_report (analyzeHackTransaction Scenario.utils Incident.chain Standalone
                       HACK_TX Scenario.started).2
          = Some (set_hackDetails d
                    (set_relatedContracts
                       (relatedContracts
                          (initial_report HACK_TX VICTIM_CONTRACT HACKER_ADDRESS
                             "2023-11-14T22:13:20.000Z") ++ more)
                       (initial_report HACK_TX VICTIM_CONTRACT HACKER_ADDRESS
                          "2023-11-14T22:13:20.000Z")))
    | _ =>
      this_report (analyzeHackTransaction Scenario.utils Incident.chain Standalone
                     HACK_TX Scenario.started).2
        = Some (set_relatedContracts
                  (relatedContracts
                     (initial_report HACK_TX VICTIM_CONTRACT HACKER_ADDRESS
                        "2023-11-14T22:13:20.000Z") ++ more)
                  (initial_report HACK_TX VICTIM_CONTRACT HACKER_ADDRESS
                     "2023-11-14T22:13:20.000Z"))
    end.
Proof.
  split; [reflexivity|].
  apply (hackDetails_assigned_on_return_only Scenario.utils Incident.chain Standalone
           HACK_TX Scenario.started _ eq_refl).
Defined.

Lemma hackDetails_override_the_numeric_fields_witness :
  (analyzeHackTransaction Scenario.utils Incident.chain Standalone HACK_TX
     Scenario.started).1 = Return tt /\
  this_report Scenario.started
    = Some (initial_report HACK_TX VICTIM_CONTRACT HACKER_ADDRESS
              "2023-11-14T22:13:20.000Z") /\
  exists d,
    hackDetails <$>
      this_report (analyzeHackTransaction Scenario.utils Incident.chain Standalone
                     HACK_TX Scenario.started).2 = Some (Some d) /\
    obj_get "blockNumber" (hd_transaction d) = JNumber 100 /\
    obj_get "nonce" (hd_transaction d) = JBigInt 7.
Proof.
  split; [reflexivity|]. split; [reflexivity|].
  destruct (hackDetails_override_the_numeric_fields Scenario.utils Incident.chain
              Standalone HACK_TX Scenario.started _ eq_refl eq_refl)
    as (t & rc & d & Ht & _ & Hd & _ & _ & Hblock & _ & Hother & _).
  injection Ht as <-.
  exists d. split; [exact Hd|]. split; [exact Hblock|].
  rewrite Hother; [reflexivity|]. set_solver.
Defined.

(** ** The sink and the documents, continued *)

Section SinkFacts.

Variable C : Collaborators.

(** [path.join] normalises the name it is given. *)
Example analysis_data_path_normalises :
  analysis_data_path "step1_1700000000000.json"
    = "analysis_data/step1_1700000000000.json" /\
  analysis_data_path "a/./b//c_1.json" = "analysis_data/a/b/c_1.json" /\
  analysis_data_path "../escape_1.json" = "escape_1.json" /\
  analysis_data_path "../../x_1.json" = "../x_1.json".
Proof. repeat split; vm_compute; reflexivity. Qed.

(** [saveToJson] always returns, whatever the data and the disk; it leaves
    the analyzer as it was, and no file changes except the one at
    [path.join] of [./analysis_data] and the name made of the prefix and
    the clock. *)
Theorem saveToJson_is_silent_and_local (prefix : string) (data : jsval) (w : World) :
  (saveToJson C prefix data w).1 = Return tt /\
  this_report (saveToJson C prefix data w).2 = this_report w /\
  processedContracts (saveToJson C prefix data w).2 = processedContracts w /\
  forall f,
    f <> checkpoint_file prefix (date_now C (S (List.length (calls w)))) ->
    files (saveToJson C prefix data w).2 !! f = files w !! f.
Proof.
  unfold saveToJson, try_catch, bind, await, lift, observe, writeFile.
  destruct (fs_mkdir C _ _) as [e|[]]; [done|].
  destruct (JSON.stringify saveToJson_replacer data) as [e|[j|]]; cbn [ret throw];
    [done| |done].
  cbn [calls log_call]. rewrite length_app. cbn [List.length]. rewrite Nat.add_1_r.
  fold (checkpoint_file prefix (date_now C (S (List.length (calls w))))).
  unfold bind, await. destruct (fs_writeFile C _ _) as [e|[]]; [done|].
  cbn [fst snd this_report processedContracts files set_files].
  repeat split. intros f Hf. by rewrite lookup_insert_ne.
Qed.


End SinkFacts.


(** With the replacer of [saveToJson] or the one of [generateReports],
    [JSON.stringify] returns for every value: it never throws. *)
Theorem replacers_serialise_every_value (v : jsval) :
  (exists j, JSON.stringify saveToJson_replacer v = Ok j) /\
  (exists j, JSON.stringify generateReports_replacer v = Ok j).
Proof.
  split; apply stringify_total.
  - apply saveToJson_replacer_tame.
  - apply generateReports_replacer_tame.
Qed.

Lemma serialize_fields_raise (f : string -> jsval -> result (option json))
    (fields : list (string * jsval)) (k : string) (x : jsval) :
  (k, x) ∈ fields ->
  (exists e, f k x = Raise e) ->
  exists e, JSON.serialize_fields f fields = Raise e.
Proof.
  intros Hin (e & He).
  induction fields as [|[k' x'] fields IH]; [by apply elem_of_nil in Hin|].
  cbn [JSON.serialize_fields].
  destruct (f k' x') as [e'|jx] eqn:Hx; [by eexists|].
  apply elem_of_cons in Hin as [Heq|Hin]; [congruence|].
  destruct (IH Hin) as (e' & ->). by eexists.
Qed.

Lemma serialize_items_cases (f : string -> jsval -> result (option json))
    (E : exn) (items : list jsval) :
  (forall k x, x ∈ items -> (exists j, f k x = Ok j) \/ f k x = Raise E) ->
  forall i,
    (exists js, JSON.serialize_items f i items = Ok js) \/
    JSON.serialize_items f i items = Raise E.
Proof.
  induction items as [|x items IH]; intros Hall i; cbn [JSON.serialize_items].
  - left. by eexists.
  - destruct (Hall (pretty i) x) as [(j & ->)| ->]; [set_solver| |by right].
    destruct (IH (fun k y Hy => Hall k y ltac:(set_solver)) (S i)) as [(js & ->)| ->];
      [left; by eexists | by right].
Qed.

Lemma serialize_fields_cases (f : string -> jsval -> result (option json))
    (E : exn) (fields : list (string * jsval)) :
  (forall k x, (k, x) ∈ fields -> (exists j, f k x = Ok j) \/ f k x = Raise E) ->
  (exists ms, JSON.serialize_fields f fields = Ok ms) \/
  JSON.serialize_fields f fields = Raise E.
Proof.
  induction fields as [|[k x] fields IH]; intros Hall; cbn [JSON.serialize_fields].
  - left. by eexists.
  - destruct (Hall k x) as [(j & ->)| ->]; [set_solver| |by right].
    destruct IH as [(ms & ->)| ->]; [intros; apply Hall; set_solver| |by right].
    left. by eexists.
Qed.

(** Without a replacer and with a stack deeper than the value, the only
    failure is the one of a [bigint]. *)
Lemma serialize_property_cases :
  forall (budget : nat) (k : string) (v : jsval),
    (JSON.depth v < budget)%nat ->
    (exists j, JSON.serialize_property budget JSON.no_replacer k v = Ok j) \/
    JSON.serialize_property budget JSON.no_replacer k v
      = Raise (TypeError "Do not know how to serialize a BigInt").
Proof.
  induction budget as [|budget IH]; intros k v Hdepth; [lia|].
  cbn [JSON.serialize_property]. change (JSON.no_replacer k v) with v.
  destruct v as [| |b|n|n|s|items|fields|elems|negative]; try (left; by eexists); [by right| |].
  - destruct (serialize_items_cases
                (JSON.serialize_property budget JSON.no_replacer)
                (TypeError "Do not know how to serialize a BigInt") items)
      with (i := 0%nat) as [(js & ->)| ->]; [|left; by eexists|by right].
    intros k' x Hx. apply IH. pose proof (depth_item items x Hx). lia.
  - destruct (serialize_fields_cases
                (JSON.serialize_property budget JSON.no_replacer)
                (TypeError "Do not know how to serialize a BigInt") fields)
      as [(ms & ->)| ->]; [|left; by eexists|by right].
    intros k' x Hx. apply IH. pose proof (depth_field fields k' x Hx). lia.
Qed.

(** A value no stack makes serialisable without a replacer. *)
Lemma object_raises (budget : nat) (k k' : string) (x : jsval)
    (fields : list (string * jsval)) :
  (k', x) ∈ fields ->
  (forall b, exists e, JSON.serialize_property b JSON.no_replacer k' x = Raise e) ->
  exists e, JSON.serialize_property budget JSON.no_replacer k (JObject fields) = Raise e.
Proof.
  intros Hin Hx. destruct budget as [|budget]; cbn [JSON.serialize_property];
    [by eexists|].
  change (JSON.no_replacer k (JObject fields)) with (JObject fields).
  destruct (serialize_fields_raise (JSON.serialize_property budget JSON.no_replacer)
              fields k' x Hin (Hx budget)) as (e & ->).
  by eexists.
Qed.

(** The single-endpoint driver calls [JSON.stringify] without a replacer:
    when the transaction kept in [hackDetails] has a [bigint] property, no
    document is produced, the call throws the [TypeError] of [bigint]. *)
Theorem plain_document_rejects_bigint
    (analyzedAt : string) (r : report) (d : hack_details) (k : string) (n : Z) :
  hackDetails r = Some d ->
  (k, JBigInt n) ∈ hd_transaction d ->
  generateReports_plain_document analyzedAt r
    = Raise (TypeError "Do not know how to serialize a BigInt").
Proof.
  intros Hd Hk. unfold generateReports_plain_document, JSON.stringify.
  set (data := JObject _).
  destruct (serialize_property_cases (S (JSON.depth data)) "" data) as [(j & Hj)|Hraise];
    [lia | | exact Hraise].
  assert (exists e, JSON.serialize_property (S (JSON.depth data)) JSON.no_replacer ""
                      data = Raise e) as (e & He); [|congruence].
  subst data. apply (object_raises _ _ "analysis" (report_to_js r)); [set_solver|].
  intros b. apply (object_raises _ _ "hackDetails" (hack_details_to_js d)).
  { unfold report_props. rewrite Hd. set_solver. }
  intros b'. apply (object_raises _ _ "transaction" (JObject (hd_transaction d)));
    [set_solver|].
  intros b''. apply (object_raises _ _ k (JBigInt n)); [done|].
  intros [|b3]; cbn [JSON.serialize_property]; by eexists.
Qed.

Lemma plain_document_rejects_bigint_witness :
  hackDetails (set_hackDetails sample_details opening_report)
    = Some sample_details /\
  ("nonce", JBigInt 7) ∈ hd_transaction sample_details /\
  generateReports_plain_document "2023-11-15T08:00:00.000Z"
    (set_hackDetails sample_details opening_report)
    = Raise (TypeError "Do not know how to serialize a BigInt").
Proof.
  assert (("nonce", JBigInt 7) ∈ hd_transaction sample_details)
    as Hin by (apply list_elem_of_further, list_elem_of_here).
  split; [reflexivity|]. split; [exact Hin|].
  apply (plain_document_rejects_bigint "2023-11-15T08:00:00.000Z"
           (set_hackDetails sample_details opening_report)
           sample_details "nonce" 7 eq_refl Hin).
Defined.

Lemma plain_document_loses_relatedContracts_witness :
  exists doc,
    generateReports_plain_document "2023-11-15T08:00:00.000Z"
      (set_relatedContracts [VICTIM_CONTRACT]
         opening_report) = Ok (Some doc) /\
    js_field "relatedContracts" (js_field "analysis" (JSON.parse doc)) = JObject [].
Proof.
  eexists. split; [vm_compute; reflexivity|].
  match goal with
  | |- js_field _ (js_field _ (JSON.parse ?doc)) = _ =>
    apply (plain_document_loses_relatedContracts "2023-11-15T08:00:00.000Z"
             (set_relatedContracts [VICTIM_CONTRACT]
                opening_report) doc)
  end.
  vm_compute. reflexivity.
Defined.

(** ** The failover of the driver, continued *)

Section Failover.

Context {A : Type}.
Variable analysisFunction : Collaborators -> M A.

Lemma attempt_throws (node : Collaborators) (w : World) (e : exn) :
  (analysisFunction node (construct_analyzer w).2).1 = Throw e ->
  (bind construct_analyzer
     (fun _ => bind (analysisFunction node) (fun a => ret (Some a))) w)
  = (Throw e, (analysisFunction node (construct_analyzer w).2).2).
Proof.
  unfold bind. cbn [construct_analyzer fst snd].
  by destruct (analysisFunction node _) as [[a|e'|] w']; intros [= ->].
Qed.

Lemma attempt_throws_inv (node : Collaborators) (w w' : World) (e : exn) :
  (bind construct_analyzer
     (fun _ => bind (analysisFunction node) (fun a => ret (Some a))) w)
  = (Throw e, w') ->
  (analysisFunction node (construct_analyzer w).2).1 = Throw e.
Proof.
  unfold bind. cbn [construct_analyzer fst snd].
  destruct (analysisFunction node _) as [[a|e'|] w'']; [done| |done].
  by intros [= -> _].
Qed.

Lemma failover_next (node : Collaborators) (rest : list Collaborators)
    (w : World) (e : exn) :
  rest <> [] ->
  (analysisFunction node (construct_analyzer w).2).1 = Throw e ->
  tryWithDifferentRPC analysisFunction (node :: rest) w
  = tryWithDifferentRPC analysisFunction rest
      (analysisFunction node (construct_analyzer w).2).2.
Proof.
  intros Hrest Hthrow. cbn [tryWithDifferentRPC]. unfold try_catch.
  rewrite (attempt_throws node w e Hthrow). by destruct rest.
Qed.

(** When the analysis throws on every node, [tryWithDifferentRPC] throws
    what it threw on the last one: the earlier errors are only logged. *)
Theorem failover_throws_the_last_error
    (err : Collaborators -> exn) (nodes : list Collaborators) (node : Collaborators)
    (w : World) :
  (forall n w', n ∈ nodes ++ [node] ->
                (analysisFunction n (construct_analyzer w').2).1 = Throw (err n)) ->
  (tryWithDifferentRPC analysisFunction (nodes ++ [node]) w).1 = Throw (err node).
Proof.
  revert w. induction nodes as [|n nodes IH]; intros w Hall; cbn [app].
  - cbn [tryWithDifferentRPC]. unfold try_catch.
    rewrite (attempt_throws node w (err node)); [done|]. apply Hall. set_solver.
  - rewrite (failover_next n (nodes ++ [node]) w (err n));
      [|by destruct nodes|apply Hall; set_solver].
    apply IH. intros n0 w' Hin. apply Hall. set_solver.
Qed.

(** Nodes listed after one on which the analysis does not throw are never
    tried: the run is the same without them. *)
Theorem failover_stops_at_the_first_success
    (before rest : list Collaborators) (good : Collaborators) (w : World) :
  (forall w' e, (analysisFunction good (construct_analyzer w').2).1 <> Throw e) ->
  tryWithDifferentRPC analysisFunction (before ++ good :: rest) w
    = tryWithDifferentRPC analysisFunction (before ++ [good]) w.
Proof.
  intros Hgood. revert w. induction before as [|n before IH]; intros w;
    cbn [app tryWithDifferentRPC]; unfold try_catch.
  - destruct (bind construct_analyzer _ w) as [[a|e|] w'] eqn:Hrun; [done| |done].
    apply attempt_throws_inv in Hrun. by destruct (Hgood w e).
  - destruct (bind construct_analyzer _ w) as [[a|e|] w']; [done| |done].
    specialize (IH w').
    destruct (before ++ good :: rest) as [|n' l] eqn:Hl; [by destruct before|].
    destruct (before ++ [good]) as [|n'' l'] eqn:Hl'; [by destruct before|].
    exact IH.
Qed.

(** With at least one node, the result is never [undefined]. *)
Theorem failover_result_is_defined
    (node : Collaborators) (rest : list Collaborators) (w : World) :
  (tryWithDifferentRPC analysisFunction (node :: rest) w).1 <> Return None.
Proof.
  revert node w. induction rest as [|n rest IH]; intros node w;
    cbn [tryWithDifferentRPC]; unfold try_catch.
  - unfold bind. cbn [construct_analyzer].
    by destruct (analysisFunction node _) as [[a|e|] w'].
  - destruct (bind construct_analyzer _ w) as [[a|e|] w'] eqn:Hrun; [|apply IH|done].
    unfold bind in Hrun. cbn [construct_analyzer] in Hrun.
    destruct (analysisFunction node _) as [[a'|e'|] w'']; [|done|done].
    cbn [ret] in Hrun. by injection Hrun as <- _.
Qed.

End Failover.

Lemma failover_throws_the_last_error_witness :
  (forall n w',
     n ∈ [Scenario.unreachable_node] ++ [Scenario.unreachable_node] ->
     (analyzeFromHack Scenario.utils n Standalone 5 HACK_TX VICTIM_CONTRACT
        HACKER_ADDRESS (construct_analyzer w').2).1
     = Throw (TransportError "connection refused")) /\
  (main_analysis Scenario.utils Standalone 5
     [Scenario.unreachable_node; Scenario.unreachable_node] new_analyzer).1
    = Throw (TransportError "connection refused").
Proof.
  assert (forall n w',
            n ∈ [Scenario.unreachable_node] ++ [Scenario.unreachable_node] ->
            (analyzeFromHack Scenario.utils n Standalone 5 HACK_TX VICTIM_CONTRACT
               HACKER_ADDRESS (construct_analyzer w').2).1
            = Throw (TransportError "connection refused")) as Hall.
  { intros n w' Hin.
    assert (n = Scenario.unreachable_node) as ->.
    { cbn [app] in Hin. apply elem_of_cons in Hin as [|Hin]; [done|].
      by apply list_elem_of_singleton in Hin. }
    reflexivity. }
  split; [exact Hall|].
  apply (failover_throws_the_last_error
           (fun node => analyzeFromHack Scenario.utils node Standalone 5
                          HACK_TX VICTIM_CONTRACT HACKER_ADDRESS)
           (fun _ => TransportError "connection refused")
           [Scenario.unreachable_node] Scenario.unreachable_node new_analyzer Hall).
Defined.

Lemma failover_stops_at_the_first_success_witness :
  (forall w' e,
     (analyzeFromHack Scenario.utils Incident.chain Standalone 5 HACK_TX VICTIM_CONTRACT
        HACKER_ADDRESS (construct_analyzer w').2).1 <> Throw e) /\
  main_analysis Scenario.utils Standalone 5
    [Scenario.unreachable_node; Incident.chain; Scenario.unreachable_node] new_analyzer
  = main_analysis Scenario.utils Standalone 5
      [Scenario.unreachable_node; Incident.chain] new_analyzer.
Proof.
  assert (forall w' e,
            (analyzeFromHack Scenario.utils Incident.chain Standalone 5 HACK_TX
               VICTIM_CONTRACT HACKER_ADDRESS (construct_analyzer w').2).1 <> Throw e)
    as Hgood.
  { intros w' e. vm_compute. discriminate. }
  split; [exact Hgood|].
  apply (failover_stops_at_the_first_success
           (fun node => analyzeFromHack Scenario.utils node Standalone 5
                          HACK_TX VICTIM_CONTRACT HACKER_ADDRESS)
           [Scenario.unreachable_node] [Scenario.unreachable_node] Incident.chain
           new_analyzer Hgood).
Defined.

(** ** Proxy detection *)

Lemma prefix_0x_hex (rest s : string) :
  Hex.all_hex s = true -> String.prefix (String "0" (String "x" rest)) s = false.
Proof.
  destruct s as [|c [|c' s]]; cbn [String.prefix Hex.all_hex]; [done| |].
  - by destruct (ascii_dec "0" c).
  - intros Hhex. destruct (ascii_dec "0" c); [|done].
    destruct (ascii_dec "x" c') as [<-|]; [|done].
    apply andb_true_iff in Hhex as [_ Hhex]. by apply andb_true_iff in Hhex as [Hx _].
Qed.

Lemma includes_cons (sub : string) (c : ascii) (s : string) :
  Js.includes sub (String c s) = String.prefix sub (String c s) || Js.includes sub s.
Proof. reflexivity. Qed.

Lemma includes_0x_hex (rest s : string) :
  Hex.all_hex s = true -> Js.includes (String "0" (String "x" rest)) s = false.
Proof.
  induction s as [|c s IH]; intros Hhex.
  - reflexivity.
  - rewrite includes_cons, prefix_0x_hex by done.
    cbn [Hex.all_hex] in Hhex. apply andb_true_iff in Hhex as [_ Hhex]. by apply IH.
Qed.

Lemma includes_0x_code (rest body : string) :
  Hex.all_hex body = true ->
  Js.includes (String "0" (String "x" rest)) ("0x" +:+ body)
  = String.prefix (String "0" (String "x" rest)) ("0x" +:+ body).
Proof.
  intros Hhex. change ("0x" +:+ body) with (String "0" (String "x" body)).
  rewrite !includes_cons, (includes_0x_hex rest body Hhex), orb_false_r.
  set (p := String.prefix _ (String "0" _)).
  cbn [String.prefix]. by destruct (ascii_dec "0" "x").
Qed.

(** On bytecode as the node gives it ([0x] and hex digits), each signature
    of the table, which carries its own [0x], can only be found at the very
    start: [isProxyContract] says whether the bytecode begins with one of
    the four selectors, and a selector further inside is never seen. *)
Theorem isProxyContract_sees_only_the_first_bytes (body : string) :
  Hex.all_hex body = true ->
  isProxyContract ("0x" +:+ body)
  = existsb (fun sig => String.prefix sig ("0x" +:+ body))
      [UPGRADE_TO; UPGRADE_TO_AND_CALL; CHANGE_ADMIN; INITIALIZE].
Proof.
  intros Hhex. unfold isProxyContract.
  cbn [FUNCTION_SIGNATURES fmap list_fmap snd existsb].
  unfold UPGRADE_TO, UPGRADE_TO_AND_CALL, CHANGE_ADMIN, INITIALIZE.
  by rewrite !includes_0x_code.
Qed.

Lemma isProxyContract_sees_only_the_first_bytes_witness :
  Hex.all_hex "6080604052633659cfe614602d57" = true /\
  isProxyContract "0x6080604052633659cfe614602d57" = false.
Proof.
  split; [reflexivity|].
  exact (eq_trans
           (isProxyContract_sees_only_the_first_bytes "6080604052633659cfe614602d57"
              eq_refl)
           eq_refl).
Defined.

(** ** Address normalisation, continued *)

Lemma slice_from_app (p s : string) :
  Js.slice_from (String.length p) (p +:+ s) = s.
Proof. induction p as [|c p IH]; [by destruct s | exact IH]. Qed.

Lemma length_app_string (p s : string) :
  String.length (p +:+ s) = (String.length p + String.length s)%nat.
Proof. induction p as [|c p IH]; [done|]. cbn. by rewrite <- IH. Qed.

Lemma slice_last_app (n : nat) (p s : string) :
  String.length s = n -> Js.slice_last n (p +:+ s) = s.
Proof.
  intros <-. unfold Js.slice_last. rewrite length_app_string.
  replace (String.length p + String.length s - String.length s)%nat
    with (String.length p) by lia.
  apply slice_from_app.
Qed.

(** [normalizeAddress] looks at the last 40 characters only: whatever
    stands before them (the [0x] and 12 high-order bytes of a storage word,
    the [0x] of an address, nothing at all), the result is the same. *)
Theorem normalizeAddress_ignores_the_high_bytes
    (U : Web3Utils) (high high' low : string) :
  String.length low = 40%nat ->
  normalizeAddress U (high +:+ low) = normalizeAddress U (high' +:+ low).
Proof.
  intros Hlow. unfold normalizeAddress. by rewrite !slice_last_app.
Qed.

Lemma normalizeAddress_ignores_the_high_bytes_witness :
  String.length "6d24389cec21cd5437d5c581a40dae6b336c9e5d" = 40%nat /\
  normalizeAddress Scenario.utils Incident.NEW_WORD
    = normalizeAddress Scenario.utils "0x6d24389cec21cd5437d5c581a40dae6b336c9e5d".
Proof.
  split; [reflexivity|].
  apply (normalizeAddress_ignores_the_high_bytes Scenario.utils
           "0x000000000000000000000000" "0x"
           "6d24389cec21cd5437d5c581a40dae6b336c9e5d" eq_refl).
Defined.

(** ** Receipt logs *)

(** An [Upgraded] log is decoded whatever its topics, with [Number] of the
    log's block number: from a second topic of 32 bytes the new
    implementation is [0x] and the last 40 characters, the ones
    [normalizeAddress] keeps, left in the case the node gave; when the
    second topic is missing it is the text [0xundefined]. *)
Theorem upgraded_log_names_the_low_20_bytes
    (U : Web3Utils) (log : log_record) (others : list string) :
  topics log = IMPLEMENTATION_CHANGED :: others ->
  exists newImplementation,
    decodeLog U log
      = Some (ImplementationChangeLog newImplementation
                (Js.Number (log_blockNumber log)) (log_transactionHash log)) /\
    (others = [] -> newImplementation = "0xundefined") /\
    (forall topic1 rest,
       others = topic1 :: rest ->
       String.length topic1 = 66%nat ->
       newImplementation = "0x" +:+ Js.slice_last 40 topic1).
Proof.
  intros Htopics. unfold decodeLog. rewrite Htopics.
  change (negb (Js.truthy IMPLEMENTATION_CHANGED)) with false. cbv iota.
  rewrite String.eqb_refl.
  eexists. split; [reflexivity|]. split.
  - by intros ->.
  - intros topic1 rest -> Hlen. unfold Js.slice_last. by rewrite Hlen.
Qed.

Lemma upgraded_log_names_the_low_20_bytes_witness :
  topics Incident.upgraded_log = IMPLEMENTATION_CHANGED :: [Incident.NEW_WORD] /\
  decodeLog Scenario.utils Incident.upgraded_log
    = Some (ImplementationChangeLog "0x6d24389cec21cd5437d5c581a40dae6b336c9e5d"
              (Js.Finite 100) HACK_TX).
Proof.
  split; [reflexivity|].
  destruct (upgraded_log_names_the_low_20_bytes Scenario.utils Incident.upgraded_log
              [Incident.NEW_WORD] eq_refl) as (a & Hlog & _ & Hlow).
  rewrite Hlog, (Hlow Incident.NEW_WORD [] eq_refl eq_refl). reflexivity.
Defined.

(** ** The frontier of the crawl *)

Section FrontierFacts.

Variable U : Web3Utils.
Variable C : Collaborators.
Variable ed : edition.

Lemma set_add_frontier (x : string) (l : list string) :
  exists more,
    set_add x l = l ++ more /\
    Forall (eq x) more /\
    (NoDup l -> NoDup (set_add x l)).
Proof.
  unfold set_add. case_bool_decide as Hin.
  - exists []. rewrite app_nil_r. by repeat split.
  - exists [x]. split; [done|]. split; [by repeat constructor|].
    intros Hnd. apply NoDup_app. repeat split; [done | | apply NoDup_singleton].
    intros y Hy Hy'. apply list_elem_of_singleton in Hy'. by subst y.
Qed.

(** While the transactions of one address are walked, the set of
    contracts to analyse only grows at its end, stays free of duplicates,
    and what is added is the recipient of one of the transactions, accepted
    by the validator. *)
Theorem frontier_grows_by_valid_recipients (transactions : list transaction) :
  forall (contractsToAnalyze contractsToAnalyze' : list string) (w : World),
    (trace_transactions U C ed transactions contractsToAnalyze w).1
      = Return contractsToAnalyze' ->
    exists more,
      contractsToAnalyze' = contractsToAnalyze ++ more /\
      Forall (fun a => isValidAddress U a = true /\
                       exists tx, tx ∈ transactions /\ a = tx_to tx) more /\
      (NoDup contractsToAnalyze -> NoDup contractsToAnalyze').
Proof.
  induction transactions as [|tx rest IH]; intros l l' w; cbn [trace_transactions].
  - intros [= <-]. exists []. rewrite app_nil_r. by repeat split.
  - unfold bind at 1.
    set (G := if Js.truthy (tx_to tx) && isValidAddress U (tx_to tx)
              then isContract U C ed (tx_to tx) else ret false).
    assert ((G w).1 = Return true -> isValidAddress U (tx_to tx) = true) as Hvalid.
    { subst G. destruct (Js.truthy (tx_to tx) && isValidAddress U (tx_to tx)) eqn:Hc;
        [|done].
      by apply andb_true_iff in Hc as [_ Hc]. }
    destruct (G w) as [[grow|e|] w1]; [|done|done].
    unfold bind at 1.
    destruct (analyzeSingleTransaction U ed tx) as [e|a]; [done|]. cbn [lift ret].
    unfold bind at 1.
    destruct ((if suspicious a then push_suspiciousAction a else ret tt) w1)
      as [[[]|e|] w2]; [|done|done].
    intros Hrun. apply IH in Hrun as (more & -> & Hall & Hnd).
    assert (Forall (fun a0 => isValidAddress U a0 = true /\
                              exists tx0, tx0 ∈ tx :: rest /\ a0 = tx_to tx0) more)
      as Hall'.
    { eapply Forall_impl; [exact Hall|]. cbn beta. intros x (Hx & tx0 & Hin & ->).
      split; [done|]. exists tx0. split; [by apply elem_of_cons; right | done]. }
    destruct grow.
    + destruct (set_add_frontier (tx_to tx) l) as (m & Heq & Hm & Hnd').
      rewrite Heq in *. exists (m ++ more). rewrite app_assoc. split; [done|]. split.
      * apply Forall_app. split; [|exact Hall'].
        eapply Forall_impl; [exact Hm|]. cbn beta. intros x <-.
        split; [by apply Hvalid | exists tx; split; [apply list_elem_of_here | done]].
      * intros Hl. by apply Hnd, Hnd'.
    + exists more. by repeat split.
Qed.

End FrontierFacts.

Lemma frontier_grows_by_valid_recipients_witness :
  (trace_transactions Scenario.utils Incident.chain Standalone
     [Incident.upgrade_tx; Incident.transfer_tx] [HACKER_ADDRESS] Scenario.started).1
    = Return [HACKER_ADDRESS; VICTIM_CONTRACT] /\
  exists more,
    [HACKER_ADDRESS; VICTIM_CONTRACT] = [HACKER_ADDRESS] ++ more /\
    Forall (fun a => isValidAddress Scenario.utils a = true /\
                     exists tx,
                       tx ∈ [Incident.upgrade_tx; Incident.transfer_tx] /\
                       a = tx_to tx) more /\
    (NoDup [HACKER_ADDRESS] -> NoDup [HACKER_ADDRESS; VICTIM_CONTRACT]).
Proof.
  split; [reflexivity|].
  apply (frontier_grows_by_valid_recipients Scenario.utils Incident.chain Standalone
           [Incident.upgrade_tx; Incident.transfer_tx] [HACKER_ADDRESS]
           [HACKER_ADDRESS; VICTIM_CONTRACT] Scenario.started eq_refl).
Defined.

(** ** Explorer records through the classifier *)

Section RecordsFacts.

Variable U : Web3Utils.
Variable C : Collaborators.

Lemma classify_into_addresses (a0 : analysis) (tx : transaction) :
  an_from (classify_into U a0 tx) = an_from a0 /\
  an_to (classify_into U a0 tx) = an_to a0.
Proof.
  unfold classify_into. destruct (tx_input tx) as [data|]; [|done].
  destruct (Js.truthy data && (10 <=? Js.length data)); [|done].
  by destruct (isSuspiciousSignature (Js.slice_to 10 data)).
Qed.

Lemma getContractTransactions_returns_valid
    (address : string) (w : World) (txs : list transaction) :
  (getContractTransactions U C address w).1 = Return txs ->
  Forall (fun tx => isValidAddress U (tx_from tx) = true /\
                    isValidAddress U (tx_to tx) = true) txs.
Proof.
  unfold getContractTransactions.
  destruct (isValidAddress U address); cbn [negb]; [|by intros [= <-]].
  unfold bind, await.
  destruct (fetch_txlist C _ address) as [e|data]; [done|].
  destruct (String.eqb (txlist_status data) "1"); cbn [negb ret fst];
    intros [= <-]; [|constructor].
  apply List.Forall_forall. intros tx Hin.
  apply filter_In in Hin as [_ Hvalid]. by apply andb_true_iff in Hvalid.
Qed.

(** On the transactions [getContractTransactions] delivers, the two copies
    of [analyzeSingleTransaction] give the same result, and an analysis
    carries the sender and the recipient of its transaction: the
    placeholder for an invalid address never shows. *)
Theorem fetched_transactions_keep_their_addresses
    (address : string) (w : World) (txs : list transaction) :
  (getContractTransactions U C address w).1 = Return txs ->
  Forall (fun tx =>
            analyzeSingleTransaction U Standalone tx
              = analyzeSingleTransaction U Checkpointing tx /\
            forall ed a,
              analyzeSingleTransaction U ed tx = Ok a ->
              an_from a = tx_from tx /\ an_to a = tx_to tx) txs.
Proof.
  intros Hrun. apply getContractTransactions_returns_valid in Hrun.
  eapply Forall_impl; [exact Hrun|]. cbn beta. intros tx [Hfrom Hto].
  unfold analyzeSingleTransaction. rewrite Hfrom, Hto. split; [done|].
  intros ed a. destruct (timestampISO U (tx_timeStamp tx)) as [e|ts]; [done|].
  intros [= <-]. rewrite !(proj1 (classify_into_addresses _ tx)),
    !(proj2 (classify_into_addresses _ tx)).
  by destruct ed.
Qed.

Lemma all_results_raise_at {A B} (f : A -> result B) (l : list A) (e : exn) :
  all_results f l = Raise e -> exists x, x ∈ l /\ f x = Raise e.
Proof.
  induction l as [|x l IH]; cbn [all_results]; [done|].
  destruct (f x) as [e'|y] eqn:Hx.
  - intros [= ->]. exists x. split; [apply list_elem_of_here | done].
  - destruct (all_results f l) as [e'|ys]; [|done].
    intros [= ->]. destruct (IH eq_refl) as (x' & Hin & Hx').
    exists x'. split; [by apply elem_of_cons; right | done].
Qed.

(** One record whose timestamp does not make a date aborts the whole
    victim analysis: [analyzeVictimContract] throws the error of such a
    record and the report is left as it was, without [victimAnalysis]. *)
Theorem bad_timestamp_aborts_victim_analysis
    (ed : edition) (contractAddress code : string) (w : World)
    (txs : list transaction) (tx : transaction) (e : exn) :
  eth_getCode C (List.length (calls w)) contractAddress = Ok code ->
  (getContractTransactions U C contractAddress (log_call (GetCode contractAddress) w)).1
    = Return txs ->
  tx ∈ txs ->
  timestampISO U (tx_timeStamp tx) = Raise e ->
  exists tx' e',
    tx' ∈ txs /\
    timestampISO U (tx_timeStamp tx') = Raise e' /\
    (analyzeVictimContract U C ed contractAddress w).1 = Throw e' /\
    this_report (analyzeVictimContract U C ed contractAddress w).2 = this_report w.
Proof.
  intros Hcode Htxs Hin Hbad.
  assert (this_report (getContractTransactions U C contractAddress
                         (log_call (GetCode contractAddress) w)).2 = this_report w)
    as Hkeep.
  { unfold getContractTransactions.
    destruct (isValidAddress U contractAddress); cbn [negb]; [|done].
    unfold bind, await.
    destruct (fetch_txlist C _ contractAddress) as [e0|data]; [done|].
    by destruct (negb (String.eqb (txlist_status data) "1")). }
  unfold analyzeVictimContract, bind, await. rewrite Hcode.
  destruct (getContractTransactions U C contractAddress _) as [[txs'|e0|] w2];
    cbn [fst snd] in *; [|done|done].
  injection Htxs as ->.
  destruct (all_results_raise (analyzeSingleTransaction U ed) txs) as (e' & Hall).
  { apply List.Exists_exists. exists tx. split; [by apply list_elem_of_In|].
    unfold analyzeSingleTransaction. rewrite Hbad. by eexists. }
  rewrite Hall. cbn [lift throw fst snd].
  apply all_results_raise_at in Hall as (tx' & Hin' & Htx').
  exists tx', e'. split; [done|]. split; [|done].
  unfold analyzeSingleTransaction in Htx'.
  by destruct (timestampISO U (tx_timeStamp tx')) as [e1|ts]; [injection Htx' as ->|].
Qed.

End RecordsFacts.

Lemma fetched_transactions_keep_their_addresses_witness :
  (getContractTransactions Scenario.utils Incident.chain HACKER_ADDRESS
     Scenario.started).1 = Return [Incident.upgrade_tx; Incident.transfer_tx] /\
  Forall (fun tx =>
            analyzeSingleTransaction Scenario.utils Standalone tx
              = analyzeSingleTransaction Scenario.utils Checkpointing tx /\
            forall ed a,
              analyzeSingleTransaction Scenario.utils ed tx = Ok a ->
              an_from a = tx_from tx /\ an_to a = tx_to tx)
    [Incident.upgrade_tx; Incident.transfer_tx].
Proof.
  split; [reflexivity|].
  apply (fetched_transactions_keep_their_addresses Scenario.utils Incident.chain
           HACKER_ADDRESS Scenario.started _ eq_refl).
Defined.

Lemma bad_timestamp_aborts_victim_analysis_witness :
  eth_getCode undated_chain (List.length (calls Scenario.started)) VICTIM_CONTRACT
    = Ok "0x6080604052" /\
  (getContractTransactions dating_utils undated_chain VICTIM_CONTRACT
     (log_call (GetCode VICTIM_CONTRACT) Scenario.started)).1
    = Return [Incident.upgrade_tx; undated_tx] /\
  undated_tx ∈ [Incident.upgrade_tx; undated_tx] /\
  timestampISO dating_utils (tx_timeStamp undated_tx)
    = Raise (RangeError "Invalid time value") /\
  (analyzeVictimContract dating_utils undated_chain Checkpointing VICTIM_CONTRACT
     Scenario.started).1 = Throw (RangeError "Invalid time value").
Proof.
  assert (undated_tx ∈ [Incident.upgrade_tx; undated_tx]) as Hin
    by (apply list_elem_of_further, list_elem_of_here).
  split; [reflexivity|]. split; [reflexivity|]. split; [exact Hin|].
  split; [reflexivity|].
  destruct (bad_timestamp_aborts_victim_analysis dating_utils undated_chain
              Checkpointing VICTIM_CONTRACT _ Scenario.started _ undated_tx _
              eq_refl eq_refl Hin eq_refl)
    as (tx' & e' & _ & _ & Hthrow & _).
  rewrite Hthrow. vm_compute in Hthrow. by injection Hthrow as <-.
Defined.
